(** * oVirt dynamic inventory script (ovirt4.py): a shallow embedding

    The script is Python 2: text is a byte string, dictionaries are
    mutable maps from hashable scalars to values, and every failure is an
    uncaught exception.  The embedding keeps these three aspects:
    [string] for text, association lists keyed by scalars for dictionaries
    (the order of the list stands for the iteration order of the
    dictionary) and a [result] type for exceptions. *)

From Stdlib Require Import Bool Ascii String List ZArith DecimalString.
Import ListNotations.
Local Open Scope list_scope.
Local Open Scope string_scope.

Set Warnings "-register-all".

(** ** Python values *)

Module Py.

(** Hashable scalars: what the script stores as attribute values and uses
    as dictionary keys. *)
Inductive scalar : Type :=
| SNone
| SBool (b : bool)
| SInt (z : Z)
| SStr (s : string).

(** Values the script builds: scalars, lists and dictionaries. *)
Inductive pyval : Type :=
| PS (s : scalar)
| PList (l : list pyval)
| PDict (d : list (scalar * pyval)).

Definition dict := list (scalar * pyval).

Coercion SStr : string >-> scalar.
Coercion PS : scalar >-> pyval.

Definition PNone : pyval := PS SNone.
Definition PBool (b : bool) : pyval := PS (SBool b).
Definition PStr (s : string) : pyval := PS (SStr s).

(** Exceptions the script can meet. *)
Inductive exn : Type :=
| KeyError (k : scalar)
| AttributeError (type_name attribute : string)
| IndexError
| TypeError
| ValueError
| NoSectionError (section : string)
| NoOptionError (option section : string)
| UnboundLocalError (name : string)
| ReError (pattern : string)
| EncodeError.

Inductive result (A : Type) : Type :=
| Ok (a : A)
| Raise (e : exn).
Arguments Ok {A} a.
Arguments Raise {A} e.

Definition bind {A B} (m : result A) (f : A -> result B) : result B :=
  match m with
  | Ok a => f a
  | Raise e => Raise e
  end.

Definition is_ok {A} (m : result A) : bool :=
  match m with Ok _ => true | Raise _ => false end.

End Py.
Import Py.

Declare Scope py_scope.
Delimit Scope py_scope with py.
Notation "x <- m ;; k" := (bind m (fun x => k))
  (at level 61, m at next level, right associativity) : py_scope.
Local Open Scope py_scope.

Section Loops.
Variables A B : Type.

(** [for x in xs: acc = f(acc, x)] with exceptions. *)
Fixpoint foldM (f : A -> B -> result A) (acc : A) (xs : list B)
  : result A :=
  match xs with
  | [] => Ok acc
  | x :: rest => acc' <- f acc x ;; foldM f acc' rest
  end.

Variable g : A -> result B.

(** A list comprehension [[g x for x in xs]] with exceptions. *)
Fixpoint mapM (xs : list A) : result (list B) :=
  match xs with
  | [] => Ok []
  | x :: rest => y <- g x ;; ys <- mapM rest ;; Ok (y :: ys)
  end.
End Loops.
Arguments foldM {A B} f acc xs.
Arguments mapM {A B} g xs.

(** ** Equality of keys, dictionaries *)

(** Python's [==] on scalars; [True == 1] and [False == 0]. *)
Definition scalar_eqb (a b : scalar) : bool :=
  match a, b with
  | SNone, SNone => true
  | SBool x, SBool y => Bool.eqb x y
  | SInt x, SInt y => Z.eqb x y
  | SBool x, SInt y => Z.eqb (Z.b2z x) y
  | SInt x, SBool y => Z.eqb x (Z.b2z y)
  | SStr x, SStr y => String.eqb x y
  | _, _ => false
  end.

Fixpoint dict_get (k : scalar) (d : dict) : option pyval :=
  match d with
  | [] => None
  | (k0, v0) :: rest => if scalar_eqb k0 k then Some v0 else dict_get k rest
  end.

(** [d[k] = v]: an existing entry keeps its key and its place, a new key
    is entered last.  Python 2 leaves open where a new key comes in the
    iteration order; the statements below are about what a key is bound
    to and about the order a dictionary happens to have, never about the
    place chosen here. *)
Fixpoint dict_set (k : scalar) (v : pyval) (d : dict) : dict :=
  match d with
  | [] => [(k, v)]
  | (k0, v0) :: rest =>
      if scalar_eqb k0 k then (k0, v) :: rest
      else (k0, v0) :: dict_set k v rest
  end.

Definition dict_mem (k : scalar) (d : dict) : bool :=
  match dict_get k d with Some _ => true | None => false end.

Definition dict_keys (d : dict) : list scalar := map fst d.
Definition dict_values (d : dict) : list pyval := map snd d.

Definition type_name (v : pyval) : string :=
  match v with
  | PS SNone => "NoneType"
  | PS (SBool _) => "bool"
  | PS (SInt _) => "int"
  | PS (SStr _) => "str"
  | PList _ => "list"
  | PDict _ => "dict"
  end.

(** [v[k]] for a dictionary [v]. *)
Definition getitem (v : pyval) (k : scalar) : result pyval :=
  match v with
  | PDict d =>
      match dict_get k d with
      | Some x => Ok x
      | None => Raise (KeyError k)
      end
  | _ => Raise TypeError
  end.

(** [v[k] = x] for a dictionary [v]. *)
Definition setitem (v : pyval) (k : scalar) (x : pyval) : result pyval :=
  match v with
  | PDict d => Ok (PDict (dict_set k x d))
  | _ => Raise TypeError
  end.

(** [l[0]] for a list [l]. *)
Definition first_item (v : pyval) : result pyval :=
  match v with
  | PList (x :: _) => Ok x
  | PList [] => Raise IndexError
  | PS (SStr (String c _)) => Ok (PStr (String c ""))
  | PS (SStr "") => Raise IndexError
  | PDict _ => getitem v (SInt 0)
  | _ => Raise TypeError
  end.

(** Truth value of an object, as [if v:] takes it. *)
Definition truthy (v : pyval) : bool :=
  match v with
  | PS SNone => false
  | PS (SBool b) => b
  | PS (SInt z) => negb (Z.eqb z 0)
  | PS (SStr s) => negb (String.eqb s "")
  | PList l => match l with [] => false | _ => true end
  | PDict d => match d with [] => false | _ => true end
  end.

(** Attribute access on a value of a built-in type, for the attribute
    names the script asks for ([vms], [name]): none of the built-in types
    has them. *)
Definition getattr_builtin (v : pyval) (a : string) : result pyval :=
  Raise (AttributeError (type_name v) a).

(** ** Text *)

Definition code (c : ascii) : N := N_of_ascii c.

Definition in_range (lo hi c : ascii) : bool :=
  (N.leb (code lo) (code c) && N.leb (code c) (code hi))%bool.

Fixpoint flat_map_string (f : ascii -> string) (s : string) : string :=
  match s with
  | "" => ""
  | String c rest => f c ++ flat_map_string f rest
  end.

Fixpoint mem_char (c : ascii) (s : string) : bool :=
  match s with
  | "" => false
  | String c' rest => (Ascii.eqb c' c || mem_char c rest)%bool
  end.

(** Whitespace of [str.isspace] on a byte string. *)
Definition is_space (c : ascii) : bool :=
  (in_range "009" "013" c || Ascii.eqb c " ")%bool.

Fixpoint lstrip (s : string) : string :=
  match s with
  | "" => ""
  | String c rest => if is_space c then lstrip rest else s
  end.

Fixpoint rstrip (s : string) : string :=
  match s with
  | "" => ""
  | String c rest =>
      match rstrip rest with
      | "" => if is_space c then "" else String c ""
      | kept => String c kept
      end
  end.

(** [s.strip()] *)
Definition strip (s : string) : string := rstrip (lstrip s).

(** ** The fragment of [re] the script uses

    Two kinds of pattern occur: a negated character set [[^...]] made of
    ranges and escaped punctuation, and a literal anchored at the start of
    the text.  Patterns are parsed from their text, the way the script
    assembles them. *)

Module Re.

Inductive class_item : Type :=
| Range (lo hi : ascii)
| Lit (c : ascii).

Inductive pattern : Type :=
| NegSet (items : list class_item)
| StartLit (c : ascii).

Definition is_alnum (c : ascii) : bool :=
  (in_range "A" "Z" c || in_range "a" "z" c || in_range "0" "9" c)%bool.

Definition item_matches (c : ascii) (i : class_item) : bool :=
  match i with
  | Range lo hi => in_range lo hi c
  | Lit x => Ascii.eqb x c
  end.

Definition in_set (items : list class_item) (c : ascii) : bool :=
  existsb (item_matches c) items.

(** The inside of a character set, up to the closing bracket that ends
    the pattern.  A backslash escapes a punctuation character; [a-b] is a
    range.  Anything else this fragment does not cover is refused. *)
Fixpoint parse_set (s : string) : option (list class_item) :=
  match s with
  | "" => None
  | String "]" "" => Some []
  | String "]" _ => None
  | String "\" (String c rest) =>
      if is_alnum c then None
      else option_map (cons (Lit c)) (parse_set rest)
  | String "\" "" => None
  | String lo (String "-" (String hi rest)) =>
      if (Ascii.eqb hi "]" || Ascii.eqb hi "\")%bool then None
      else if N.leb (code lo) (code hi)
           then option_map (cons (Range lo hi)) (parse_set rest)
           else None
  | String c rest => option_map (cons (Lit c)) (parse_set rest)
  end.

Definition parse (p : string) : option pattern :=
  match p with
  | String "[" (String "^" (String "]" _)) => None
  | String "[" (String "^" rest) => option_map NegSet (parse_set rest)
  | String "^" (String "\" (String c "")) =>
      if is_alnum c then None else Some (StartLit c)
  | _ => None
  end.

(** [re.sub]: every match is replaced, from left to right.  A negated
    set matches one character at a time; an anchored literal can only
    match at the first position. *)
Definition sub_pattern (p : pattern) (repl s : string) : string :=
  match p with
  | NegSet items =>
      flat_map_string
        (fun c => if in_set items c then String c "" else repl) s
  | StartLit x =>
      match s with
      | String c rest => if Ascii.eqb c x then repl ++ rest else s
      | "" => ""
      end
  end.

Definition sub (pat repl s : string) : result string :=
  match parse pat with
  | Some p => Ok (sub_pattern p repl s)
  | None => Raise (ReError pat)
  end.

End Re.

(** ** The script: name sanitizer *)

(** [to_safe]: the set of kept characters is assembled as text, the dash
    is added to it unless [replace_dash_in_groups] is set, every other
    character becomes an underscore and one underscore at the very start
    is removed. *)
Definition to_safe (settings : pyval) (word : string) : result string :=
  let regex := "[^A-Za-z0-9\_" in
  fmt <- getitem settings "format" ;;
  flag <- getitem fmt "replace_dash_in_groups" ;;
  let regex := if negb (truthy flag) then regex ++ "\-" else regex in
  inner <- Re.sub (regex ++ "]") "_" word ;;
  Re.sub "^\_" "" inner.

(** ** Text of a value, equality of values *)

Definition hex_digit (n : N) : ascii :=
  if N.ltb n 10 then ascii_of_N (48 + n) else ascii_of_N (87 + n).

Definition repr_char (quote c : ascii) : string :=
  if (Ascii.eqb c quote || Ascii.eqb c "\")%bool then String "\" (String c "")
  else if Ascii.eqb c "009" then "\t"
  else if Ascii.eqb c "010" then "\n"
  else if Ascii.eqb c "013" then "\r"
  else if (N.ltb (code c) 32 || N.leb 127 (code c))%bool
       then String "\" (String "x" (String (hex_digit (code c / 16))
                                     (String (hex_digit (code c mod 16)) "")))
  else String c "".

(** [repr] of a byte string. *)
Definition repr_str (s : string) : string :=
  let quote : ascii :=
    if (mem_char "'" s && negb (mem_char "034" s))%bool then "034"%char
    else "'"%char in
  String quote (flat_map_string (repr_char quote) s) ++ String quote "".

Definition str_int (z : Z) : string := NilZero.string_of_int (Z.to_int z).

Definition repr_scalar (x : scalar) : string :=
  match x with
  | SNone => "None"
  | SBool true => "True"
  | SBool false => "False"
  | SInt z => str_int z
  | SStr s => repr_str s
  end.

Fixpoint join (sep : string) (parts : list string) : string :=
  match parts with
  | [] => ""
  | [p] => p
  | p :: rest => p ++ sep ++ join sep rest
  end.

Fixpoint py_repr (v : pyval) : string :=
  match v with
  | PS x => repr_scalar x
  | PList l => "[" ++ join ", " (map py_repr l) ++ "]"
  | PDict d =>
      "{" ++ join ", "
               (map (fun kv => repr_scalar (fst kv) ++ ": " ++ py_repr (snd kv)) d)
          ++ "}"
  end.

(** [str(v)], which is what ['%s' % v] puts in place of [%s]. *)
Definition py_str (v : pyval) : string :=
  match v with
  | PS (SStr s) => s
  | _ => py_repr v
  end.

(** [a == b] *)
Fixpoint py_eqb (a b : pyval) {struct a} : bool :=
  match a, b with
  | PS x, PS y => scalar_eqb x y
  | PList xs, PList ys =>
      (fix all2 (xs ys : list pyval) : bool :=
         match xs, ys with
         | [], [] => true
         | x :: xs', y :: ys' => (py_eqb x y && all2 xs' ys')%bool
         | _, _ => false
         end) xs ys
  | PDict d1, PDict d2 =>
      (Nat.eqb (length d1) (length d2) &&
       (fix sub (d : list (scalar * pyval)) : bool :=
          match d with
          | [] => true
          | (k, x) :: rest =>
              (match dict_get k d2 with
               | Some y => py_eqb x y
               | None => false
               end && sub rest)%bool
          end) d1)%bool
  | _, _ => false
  end.

(** A value used as a dictionary key has to be hashable. *)
Definition as_key (v : pyval) : result scalar :=
  match v with
  | PS k => Ok k
  | _ => Raise TypeError
  end.

(** [l.append(x)] *)
Definition append_item (v x : pyval) : result pyval :=
  match v with
  | PList l => Ok (PList (l ++ [x])%list)
  | _ => Raise (AttributeError (type_name v) "append")
  end.

(** [d.values()] *)
Definition values_of (v : pyval) : result (list pyval) :=
  match v with
  | PDict d => Ok (dict_values d)
  | _ => Raise (AttributeError (type_name v) "values")
  end.

Fixpoint chars_of (s : string) : list pyval :=
  match s with
  | "" => []
  | String c rest => PStr (String c "") :: chars_of rest
  end.

(** What [for x in v] goes through. *)
Definition iter_of (v : pyval) : result (list pyval) :=
  match v with
  | PList l => Ok l
  | PDict d => Ok (map PS (dict_keys d))
  | PS (SStr s) => Ok (chars_of s)
  | _ => Raise TypeError
  end.

(** ** What the SDK hands to the script

    An entity object is seen through [vars(obj)], the attribute names with
    their values, and through the properties the script reads one by one.
    The data that a per-entity sub-service lists (tags, reported devices,
    statistics, affinity labels) is kept with the entity it belongs to. *)

Module Sdk.

(** The value of an attribute, by the cases [get_dict_from_object]
    distinguishes: [int] or [bool], text, [None], anything else (a nested
    object, a list, an enumeration value, a float). *)
Inductive attr : Type :=
| AInt (z : Z)
| ABool (b : bool)
| AText (s : string)
| ANone
| AOther.

Definition obj_vars := list (string * attr).

Record DataCenter := {
  dc_id : scalar;
  dc_vars : obj_vars }.

Record Cluster := {
  cluster_id : scalar;
  (** [cluster.data_center], absent or with its [id] *)
  cluster_data_center : option scalar;
  cluster_vars : obj_vars }.

Record AffinityGroup := {
  ag_id : scalar;
  ag_vars : obj_vars }.

Record Host := {
  host_id : scalar;
  (** [str(host.status)] *)
  host_status : string;
  (** [host.cluster], absent or with its [id] *)
  host_cluster : option scalar;
  (** [tag.name] of the tags the host's tag service lists *)
  host_tags : list scalar;
  host_vars : obj_vars }.

Record ReportedDevice := {
  dev_name : scalar;
  (** [device.mac], absent or with its [address] *)
  dev_mac : option scalar;
  (** [device.ips], absent or the [address] of each *)
  dev_ips : option (list scalar) }.

Record Statistic := {
  stat_name : scalar;
  (** the [datum] of each of [stat.values] *)
  stat_values : list pyval }.

Record Vm := {
  vm_id : scalar;
  vm_name : scalar;
  (** [vm.host], absent or with its [name] *)
  vm_host : option scalar;
  (** [str(vm.status)] *)
  vm_status : string;
  (** [vm.os], absent or with its [type] *)
  vm_os : option scalar;
  (** [vm.template], absent or with its [name] *)
  vm_template : option scalar;
  (** [vm.cluster], absent or with its [id] *)
  vm_cluster : option scalar;
  vm_devices : list ReportedDevice;
  vm_tags : list scalar;
  vm_statistics : list Statistic;
  vm_affinity_labels : list scalar;
  vm_vars : obj_vars }.

(** The four collections and the affinity groups listed per cluster id. *)
Record Api := {
  data_centers : list DataCenter;
  clusters : list Cluster;
  hosts : list Host;
  vms : list Vm;
  affinity_groups : scalar -> list AffinityGroup }.

End Sdk.
Import Sdk.

(** [obj.a] where [obj] may be [None]. *)
Definition attr_of (obj : option scalar) (a : string) : result scalar :=
  match obj with
  | Some x => Ok x
  | None => Raise (AttributeError "NoneType" a)
  end.

(** ** The script: projections *)

Definition get_dict_from_object (settings : pyval) (obj : obj_vars)
    (prefix : string) : result dict :=
  foldM (fun object_vars kv =>
           key <- to_safe settings (prefix ++ fst kv) ;;
           Ok match snd kv with
              | AInt z => dict_set key (SInt z) object_vars
              | ABool b => dict_set key (SBool b) object_vars
              | AText s => dict_set key (PStr (strip s)) object_vars
              | ANone => dict_set key PNone object_vars
              | AOther => object_vars
              end)
        [] obj.

Definition get_data_centers (settings : pyval) (api : Api) : result dict :=
  foldM (fun dcs data_center =>
           d <- get_dict_from_object settings (dc_vars data_center) "" ;;
           Ok (dict_set (dc_id data_center) (PDict d) dcs))
        [] (data_centers api).

Definition get_clusters (settings : pyval) (api : Api) (dcs : dict)
  : result dict :=
  foldM (fun cls cluster =>
           d <- get_dict_from_object settings (cluster_vars cluster) "" ;;
           dc_id <- attr_of (cluster_data_center cluster) "id" ;;
           dc <- getitem (PDict dcs) dc_id ;;
           Ok (dict_set (cluster_id cluster)
                 (PDict (dict_set "data_center" dc d)) cls))
        [] (clusters api).

Definition get_affinity_groups (settings : pyval) (api : Api)
    (cluster : option scalar) : result dict :=
  cid <- attr_of cluster "id" ;;
  foldM (fun groups affinity_group =>
           d <- get_dict_from_object settings (ag_vars affinity_group) "" ;;
           Ok (dict_set (ag_id affinity_group) (PDict d) groups))
        [] (affinity_groups api cid).

Definition get_hosts (settings : pyval) (api : Api) (cls : dict)
  : result dict :=
  foldM (fun hs host =>
           d <- get_dict_from_object settings (host_vars host) "" ;;
           let d := dict_set "status" (PStr (host_status host)) d in
           cid <- attr_of (host_cluster host) "id" ;;
           cl <- getitem (PDict cls) cid ;;
           let d := dict_set "cluster" cl d in
           let d := dict_set "tags" (PList (map PS (host_tags host))) d in
           Ok (dict_set (host_id host) (PDict d) hs))
        [] (hosts api).

(** The [nic] entry of one reported device. *)
Definition nic_of (device : ReportedDevice) : dict :=
  let nic : dict := [] in
  let nic :=
    match dev_mac device with
    | Some address => dict_set "mac_address" address nic
    | None => nic
    end in
  match dev_ips device with
  | Some (ip :: ips) =>
      dict_set "ip_addresses" (PList (map PS (ip :: ips))) nic
  | _ => nic
  end.

Definition nics_of (devices : list ReportedDevice) : dict :=
  fold_left (fun nics device => dict_set (dev_name device) (PDict (nic_of device)) nics)
            devices [].

(** [dict((stat.name, stat.values[0].datum) for stat in ...)] *)
Definition statistics_of (stats : list Statistic) : result dict :=
  foldM (fun acc stat =>
           match stat_values stat with
           | datum :: _ => Ok (dict_set (stat_name stat) datum acc)
           | [] => Raise IndexError
           end)
        [] stats.

(** The comprehension that computes [affinity_groups]: it goes through
    the dictionary [get_affinity_groups] returns, that is, through its
    keys, and asks each for [vms] and [name]. *)
Definition affinity_group_names (name : scalar) (groups : dict)
  : result (list pyval) :=
  foldM (fun acc group =>
           members <- getattr_builtin group "vms" ;;
           members <- iter_of members ;;
           member_names <- mapM (fun m => getattr_builtin m "name") members ;;
           if existsb (py_eqb name) member_names
           then n <- getattr_builtin group "name" ;; Ok (acc ++ [n])%list
           else Ok acc)
        [] (map PS (dict_keys groups)).

Definition get_vm (settings : pyval) (api : Api) (cls : dict) (vm : Vm)
  : result dict :=
  d <- get_dict_from_object settings (vm_vars vm) "" ;;
  let d := dict_set "host"
             (match vm_host vm with Some n => PS n | None => PNone end) d in
  let d := dict_set "status" (PStr (vm_status vm)) d in
  os_type <- attr_of (vm_os vm) "type" ;;
  let d := dict_set "os_type" os_type d in
  template <- attr_of (vm_template vm) "name" ;;
  let d := dict_set "template" template d in
  let d := dict_set "nics" (PDict (nics_of (vm_devices vm))) d in
  let d := dict_set "tags" (PList (map PS (vm_tags vm))) d in
  stats <- statistics_of (vm_statistics vm) ;;
  let d := dict_set "statistics" (PDict stats) d in
  let d := dict_set "affinity_labels"
             (PList (map PS (vm_affinity_labels vm))) d in
  groups <- get_affinity_groups settings api (vm_cluster vm) ;;
  names <- affinity_group_names (vm_name vm) groups ;;
  let d := dict_set "affinity_groups" (PList names) d in
  cid <- attr_of (vm_cluster vm) "id" ;;
  cl <- getitem (PDict cls) cid ;;
  Ok (dict_set "cluster" cl d).

Definition get_vms (settings : pyval) (api : Api) (cls : dict)
  : result dict :=
  foldM (fun acc vm =>
           d <- get_vm settings api cls vm ;;
           Ok (dict_set (vm_id vm) (PDict d) acc))
        [] (vms api).

(** ** The script: grouping *)

Definition add_host_to_group (inventory : dict) (host : pyval)
    (group : string) : result dict :=
  let inventory :=
    if negb (dict_mem group inventory)
    then dict_set group (PDict [(SStr "hosts", PList [])]) inventory
    else inventory in
  g <- getitem (PDict inventory) group ;;
  members <- getitem g "hosts" ;;
  members <- append_item members host ;;
  g <- setitem g "hosts" members ;;
  Ok (dict_set group g inventory).

(** [self.inventory['_meta']['hostvars'][value['name']] = entry] *)
Definition set_hostvars (inventory : dict) (value entry : pyval)
  : result dict :=
  meta <- getitem (PDict inventory) "_meta" ;;
  hostvars <- getitem meta "hostvars" ;;
  name <- getitem value "name" ;;
  key <- as_key name ;;
  hostvars <- setitem hostvars key entry ;;
  meta <- setitem meta "hostvars" hostvars ;;
  Ok (dict_set "_meta" meta inventory).

(** [self.inventory[top]['hosts'].append(name)] *)
Definition append_to (inventory : dict) (top : string) (name : pyval)
  : result dict :=
  g <- getitem (PDict inventory) top ;;
  members <- getitem g "hosts" ;;
  members <- append_item members name ;;
  g <- setitem g "hosts" members ;;
  Ok (dict_set top g inventory).

Definition initial_inventory : dict :=
  [ (SStr "_meta", PDict [(SStr "hostvars", PDict [])]);
    (SStr "all",
     PDict [(SStr "children", PList [PStr "ovirt_hosts"; PStr "ovirt_vms"])]);
    (SStr "ovirt_hosts", PDict [(SStr "hosts", PList [])]);
    (SStr "ovirt_vms", PDict [(SStr "hosts", PList [])]) ].

(** The variables of one host: lines 251-254 of the script. *)
Definition host_entry (value : pyval) : result pyval :=
  let host : dict := [] in
  let host := dict_set "ovirt" value host in
  address <- getitem value "address" ;;
  id <- getitem value "id" ;;
  host <- (if negb (py_eqb address id)
           then a <- getitem value "address" ;;
                Ok (dict_set "ansible_host" a host)
           else Ok host) ;;
  Ok (PDict host).

(** The two groups every host and every VM goes to. *)
Definition add_to_cluster_groups (inventory : dict) (value : pyval)
  : result dict :=
  name <- getitem value "name" ;;
  cl <- getitem value "cluster" ;;
  dc <- getitem cl "data_center" ;;
  dc_name <- getitem dc "name" ;;
  inventory <- add_host_to_group inventory name
                 ("ovirt_data_center_" ++ py_str dc_name) ;;
  name <- getitem value "name" ;;
  cl <- getitem value "cluster" ;;
  cl_name <- getitem cl "name" ;;
  add_host_to_group inventory name ("ovirt_cluster_" ++ py_str cl_name).

(** One turn of the loop over [self.hosts]. *)
Definition host_step (inventory : dict) (value : pyval) : result dict :=
  host <- host_entry value ;;
  inventory <- set_hostvars inventory value host ;;
  name <- getitem value "name" ;;
  inventory <- append_to inventory "ovirt_hosts" name ;;
  add_to_cluster_groups inventory value.

(** The variables of one VM: lines 261-264 of the script. *)
Definition vm_entry (value : pyval) : result pyval :=
  let vm : dict := [] in
  let vm := dict_set "ovirt" value vm in
  nics <- getitem value "nics" ;;
  vm <- (if truthy nics
         then nics <- getitem value "nics" ;;
              nic_list <- values_of nics ;;
              firsts <- mapM (fun nic => ips <- getitem nic "ip_addresses" ;;
                                         first_item ips) nic_list ;;
              a <- first_item (PList firsts) ;;
              Ok (dict_set "ansible_host" a vm)
         else Ok vm) ;;
  Ok (PDict vm).

(** One turn of the loop over [self.vms]. *)
Definition vm_step (inventory : dict) (value : pyval) : result dict :=
  vm <- vm_entry value ;;
  inventory <- set_hostvars inventory value vm ;;
  name <- getitem value "name" ;;
  inventory <- append_to inventory "ovirt_vms" name ;;
  inventory <- add_to_cluster_groups inventory value ;;
  tags <- getitem value "tags" ;;
  tags <- iter_of tags ;;
  inventory <- foldM (fun inventory tag =>
                        name <- getitem value "name" ;;
                        add_host_to_group inventory name
                          ("ovirt_tag_" ++ py_str tag))
                     inventory tags ;;
  host <- getitem value "host" ;;
  if truthy host
  then name <- getitem value "name" ;;
       host <- getitem value "host" ;;
       add_host_to_group inventory name ("ovirt_host_" ++ py_str host)
  else Ok inventory.

(** The two loops of [build_inventory], over the values of [self.hosts]
    and of [self.vms]. *)
Definition group_entities (hs vs : dict) : result dict :=
  inventory <- foldM host_step initial_inventory (dict_values hs) ;;
  foldM vm_step inventory (dict_values vs).

(** The four collections, in the order [build_inventory] fetches them;
    the loops go through the last two. *)
Definition retrieve (settings : pyval) (api : Api) : result (dict * dict) :=
  dcs <- get_data_centers settings api ;;
  cls <- get_clusters settings api dcs ;;
  hs <- get_hosts settings api cls ;;
  vs <- get_vms settings api cls ;;
  Ok (hs, vs).

Definition build_inventory (settings : pyval) (api : Api) : result dict :=
  collections <- retrieve settings api ;;
  group_entities (fst collections) (snd collections).

(** ** The script: settings *)

(** The configuration parser after [config.read], by the three methods
    the script calls on it.  [get] returns text, or [None] for an option
    that comes from an unset environment variable. *)
Record ConfigParser := {
  has_section : string -> bool;
  get : string -> string -> result scalar;
  getboolean : string -> string -> result bool }.

Definition read_settings (config : ConfigParser) : result pyval :=
  let settings : dict := [] in
  url <- get config "ovirt" "ovirt_url" ;;
  username <- get config "ovirt" "ovirt_username" ;;
  password <- get config "ovirt" "ovirt_password" ;;
  ca_file <- get config "ovirt" "ovirt_ca_file" ;;
  let settings :=
    dict_set "ovirt"
      (PDict [(SStr "url", PS url); (SStr "username", PS username);
              (SStr "password", PS password); (SStr "ca_file", PS ca_file)])
      settings in
  if has_section config "format"
  then
    let settings := dict_set "format" (PDict []) settings in
    flag <- getboolean config "format" "replace_dash_in_groups" ;;
    fmt <- getitem (PDict settings) "format" ;;
    fmt <- setitem fmt "replace_dash_in_groups" (PBool flag) ;;
    Ok (PDict (dict_set "format" fmt settings))
  else Ok (PDict settings).

(** A parser over explicit sections and defaults, for concrete runs:
    an option is looked up in its section, then in the defaults; values
    are returned as stored. *)
Module Ini.

Fixpoint assoc {V} (k : string) (l : list (string * V)) : option V :=
  match l with
  | [] => None
  | (k0, v) :: rest => if String.eqb k0 k then Some v else assoc k rest
  end.

Definition lower (c : ascii) : ascii :=
  if in_range "A" "Z" c then ascii_of_N (code c + 32) else c.

Definition lookup (sections : list (string * list (string * string)))
    (defaults : list (string * scalar)) (section option : string)
  : result scalar :=
  match assoc section sections with
  | None => Raise (NoSectionError section)
  | Some options =>
      match assoc option options with
      | Some v => Ok (SStr v)
      | None =>
          match assoc option defaults with
          | Some v => Ok v
          | None => Raise (NoOptionError option section)
          end
      end
  end.

Definition boolean_of (v : scalar) : result bool :=
  match v with
  | SStr s =>
      let l := flat_map_string (fun c => String (lower c) "") s in
      if existsb (String.eqb l) ["1"; "yes"; "true"; "on"] then Ok true
      else if existsb (String.eqb l) ["0"; "no"; "false"; "off"] then Ok false
      else Raise ValueError
  | _ => Raise (AttributeError "NoneType" "lower")
  end.

Definition parser (sections : list (string * list (string * string)))
    (defaults : list (string * scalar)) : ConfigParser :=
  {| has_section := fun s =>
       match assoc s sections with Some _ => true | None => false end;
     get := lookup sections defaults;
     getboolean := fun s o => v <- lookup sections defaults s o ;; boolean_of v |}.

End Ini.

(** ** JSON text of a value, for concrete runs

    [json.dumps] of Python 2.7 with its default separators, on values
    whose text is 7-bit.  Text with a byte above 127 is refused here; the
    library would try to decode it as UTF-8.  The statements about the
    script take the serializer as a parameter; this one serves to run the
    script on concrete data. *)

Module Json.

Definition hex4 (n : N) : string :=
  String "0" (String "0" (String (hex_digit (n / 16))
                            (String (hex_digit (n mod 16)) ""))).

Definition escape_char (c : ascii) : result string :=
  if Ascii.eqb c "034" then Ok (String "\" (String "034" ""))
  else if Ascii.eqb c "\" then Ok "\\"
  else if Ascii.eqb c "010" then Ok "\n"
  else if Ascii.eqb c "013" then Ok "\r"
  else if Ascii.eqb c "009" then Ok "\t"
  else if Ascii.eqb c "012" then Ok "\f"
  else if Ascii.eqb c "008" then Ok "\b"
  else if N.leb 128 (code c) then Raise EncodeError
  else if (N.ltb (code c) 32 || N.eqb (code c) 127)%bool
       then Ok ("\u" ++ hex4 (code c))
  else Ok (String c "").

Fixpoint escape (s : string) : result string :=
  match s with
  | "" => Ok ""
  | String c rest =>
      e <- escape_char c ;; es <- escape rest ;; Ok (e ++ es)
  end.

Definition encode_string (s : string) : result string :=
  e <- escape s ;; Ok (String "034" e ++ String "034" "").

Definition encode_scalar (x : scalar) : result string :=
  match x with
  | SNone => Ok "null"
  | SBool true => Ok "true"
  | SBool false => Ok "false"
  | SInt z => Ok (str_int z)
  | SStr s => encode_string s
  end.

(** A key that is not text is turned into text first. *)
Definition encode_key (k : scalar) : result string :=
  match k with
  | SStr s => encode_string s
  | _ => s <- encode_scalar k ;; encode_string s
  end.

(** The order [sorted] puts keys in: [None], then numbers, then text. *)
Fixpoint string_leb (a b : string) : bool :=
  match a, b with
  | "", _ => true
  | String _ _, "" => false
  | String x a', String y b' =>
      if N.ltb (code x) (code y) then true
      else if N.ltb (code y) (code x) then false
      else string_leb a' b'
  end.

Definition number_of (k : scalar) : option Z :=
  match k with
  | SBool b => Some (Z.b2z b)
  | SInt z => Some z
  | _ => None
  end.

Definition key_leb (a b : scalar) : bool :=
  match a, b with
  | SNone, _ => true
  | _, SNone => false
  | SStr x, SStr y => string_leb x y
  | SStr _, _ => false
  | _, SStr _ => true
  | _, _ =>
      match number_of a, number_of b with
      | Some x, Some y => Z.leb x y
      | _, _ => true
      end
  end.

Fixpoint insert_sorted {V} (kv : scalar * V) (l : list (scalar * V))
  : list (scalar * V) :=
  match l with
  | [] => [kv]
  | kv' :: rest =>
      if key_leb (fst kv') (fst kv) then kv' :: insert_sorted kv rest
      else kv :: l
  end.

Definition sort_items {V} (l : list (scalar * V)) : list (scalar * V) :=
  fold_left (fun acc kv => insert_sorted kv acc) l [].

Fixpoint spaces (n : nat) : string :=
  match n with
  | O => ""
  | S m => String " " (spaces m)
  end.

Definition wrap (opening closing : string) (indent : option nat)
    (level : nat) (parts : list string) : string :=
  match parts with
  | [] => opening ++ closing
  | _ =>
      match indent with
      | None => opening ++ join ", " parts ++ closing
      | Some n =>
          let inner := String "010" (spaces (n * S level)) in
          let outer := String "010" (spaces (n * level)) in
          opening ++ inner ++ join (", " ++ inner) parts ++ outer ++ closing
      end
  end.

Fixpoint encode (sort_keys : bool) (indent : option nat) (level : nat)
    (v : pyval) {struct v} : result string :=
  match v with
  | PS x => encode_scalar x
  | PList l =>
      parts <- mapM (encode sort_keys indent (S level)) l ;;
      Ok (wrap "[" "]" indent level parts)
  | PDict d =>
      items <- mapM (fun kv =>
                       e <- encode sort_keys indent (S level) (snd kv) ;;
                       Ok (fst kv, e)) d ;;
      let items := if sort_keys then sort_items items else items in
      parts <- mapM (fun ke => k <- encode_key (fst ke) ;;
                               Ok (k ++ ": " ++ snd ke)) items ;;
      Ok (wrap "{" "}" indent level parts)
  end.

Definition dumps (data : pyval) (sort_keys : bool) (indent : option nat)
  : result string :=
  encode sort_keys indent 0 data.

End Json.

(** ** The script: main execution path *)

Module Cli.

(** The command line: whether [--list] and [--pretty] were given, and the
    argument of [--host]. *)
Record CommandLine := {
  given_list : bool;
  given_host : option string;
  given_pretty : bool }.

Record Args := {
  list : bool;
  host : option string;
  pretty : bool }.

End Cli.

(** [--list] stores [True] and defaults to [True]; [--pretty] stores
    [True] and defaults to [False]. *)
Definition parse_cli_args (cl : Cli.CommandLine) : Cli.Args :=
  {| Cli.list := if Cli.given_list cl then true else true;
     Cli.host := Cli.given_host cl;
     Cli.pretty := if Cli.given_pretty cl then true else false |}.

(** What the process does that can be seen from outside. *)
Inductive event : Type :=
| Connected
| Closed
| Printed (s : string).

(** Steps of the main path: they extend the trace of events and may
    raise. *)
Definition io (A : Type) : Type := list event -> list event * result A.

Definition io_bind {A B} (m : io A) (f : A -> io B) : io B :=
  fun tr =>
    match m tr with
    | (tr', Ok a) => f a tr'
    | (tr', Raise e) => (tr', Raise e)
    end.

Definition lift {A} (r : result A) : io A := fun tr => (tr, r).
Definition emit (e : event) : io unit := fun tr => ((tr ++ [e])%list, Ok tt).

Notation "x <~ m ;; k" := (io_bind m (fun x => k))
  (at level 61, m at next level, right associativity) : py_scope.

Definition connect (settings : pyval) : io unit :=
  _ <~ lift (ov <- getitem settings "ovirt" ;;
             _ <- getitem ov "url" ;;
             ov <- getitem settings "ovirt" ;;
             _ <- getitem ov "username" ;;
             ov <- getitem settings "ovirt" ;;
             _ <- getitem ov "password" ;;
             ov <- getitem settings "ovirt" ;;
             _ <- getitem ov "ca_file" ;;
             Ok tt) ;;
  emit Connected.

Definition disconnect : io unit := emit Closed.

Section Main.

(** [json.dumps(data, sort_keys=..., indent=...)] *)
Variable json_dumps : pyval -> bool -> option nat -> result string.

Definition json_format_dict (data : pyval) (pretty : bool)
  : result string :=
  if pretty then json_dumps data true (Some 2%nat)
  else json_dumps data false None.

(** The choice of the data to print; [None] stands for the variable
    left unbound when neither branch is taken. *)
Definition select_output (args : Cli.Args) (inventory : dict)
  : result (option string) :=
  match Cli.host args with
  | Some name =>
      if truthy (PStr name)
      then
        meta <- getitem (PDict inventory) "_meta" ;;
        hostvars <- getitem meta "hostvars" ;;
        entry <- getitem hostvars name ;;
        s <- json_format_dict entry true ;;
        Ok (Some s)
      else if Cli.list args
           then s <- json_format_dict (PDict inventory) true ;; Ok (Some s)
           else Ok None
  | None =>
      if Cli.list args
      then s <- json_format_dict (PDict inventory) true ;; Ok (Some s)
      else Ok None
  end.

Definition main (cl : Cli.CommandLine) (config : ConfigParser)
    (api : Api) : io unit :=
  let args := parse_cli_args cl in
  settings <~ lift (read_settings config) ;;
  _ <~ connect settings ;;
  inventory <~ lift (build_inventory settings api) ;;
  data_to_print <~ lift (select_output args inventory) ;;
  _ <~ disconnect ;;
  match data_to_print with
  | Some s => emit (Printed s)
  | None => lift (Raise (UnboundLocalError "data_to_print"))
  end.

End Main.

(** A run of the script from an empty trace. *)
Definition run (json_dumps : pyval -> bool -> option nat -> result string)
    (cl : Cli.CommandLine) (config : ConfigParser) (api : Api)
  : list event * result unit :=
  main json_dumps cl config api [].

(** Keys are compared up to [True == 1] and [False == 0]. *)
Definition norm (k : scalar) : scalar :=
  match k with
  | SBool b => SInt (Z.b2z b)
  | _ => k
  end.

(** [self.inventory['_meta']['hostvars']] *)
Definition hostvars_of (inventory : dict) : result pyval :=
  meta <- getitem (PDict inventory) "_meta" ;;
  getitem meta "hostvars".

(** [self.inventory['_meta']['hostvars'][key]] *)
Definition hostvars_get (inventory : dict) (key : scalar) : result pyval :=
  meta <- getitem (PDict inventory) "_meta" ;;
  hostvars <- getitem meta "hostvars" ;;
  getitem hostvars key.

(** The same command line with [--pretty] given or left out. *)
Definition with_pretty (cl : Cli.CommandLine) (p : bool) : Cli.CommandLine :=
  {| Cli.given_list := Cli.given_list cl;
     Cli.given_host := Cli.given_host cl;
     Cli.given_pretty := p |}.

(** Whether a trace shows printed output. *)
Definition printed (tr : list event) : bool :=
  existsb (fun e => match e with Printed _ => true | _ => false end) tr.

(** How many times a trace shows the session being closed. *)
Definition closes (tr : list event) : nat :=
  length (filter (fun e => match e with Closed => true | _ => false end) tr).

(** The entities of a collection whose [name] equals [key]. *)
Definition has_name (key : scalar) (value : pyval) : bool :=
  match getitem value "name" with
  | Ok (PS n) => scalar_eqb n key
  | _ => false
  end.

Definition named (key : scalar) (collection : dict) : list pyval :=
  filter (has_name key) (dict_values collection).

(** ** Shapes of what the script builds *)

Definition is_key_error (e : exn) : bool :=
  match e with
  | KeyError _ => true
  | _ => false
  end.

(** A computation that ends well with [P], or raises a missing-key
    error. *)
Definition ok_or_key_error {A} (P : A -> Prop) (r : result A) : Prop :=
  match r with
  | Ok a => P a
  | Raise e => is_key_error e = true
  end.

(** A group: a dictionary whose [hosts] is a list. *)
Definition group_shape (v : pyval) : Prop :=
  exists g l, v = PDict g /\ dict_get "hosts" g = Some (PList l).

(** The inventory while it is built: [_meta] holds the dictionary
    [hostvars], the two fixed groups are there, and every entry besides
    [_meta] and [all] is a group. *)
Definition inventory_shape (inv : dict) : Prop :=
  (exists m hv, dict_get "_meta" inv = Some (PDict m) /\
                dict_get "hostvars" m = Some (PDict hv)) /\
  dict_mem "ovirt_hosts" inv = true /\
  dict_mem "ovirt_vms" inv = true /\
  forall k v, dict_get k inv = Some v ->
    scalar_eqb "_meta" k = true \/ scalar_eqb "all" k = true \/ group_shape v.

(** Every value of a dictionary has a property. *)
Definition all_values (P : pyval -> Prop) (d : dict) : Prop :=
  forall v, In v (dict_values d) -> P v.

Definition is_scalar (v : pyval) : Prop := exists s, v = PS s.

Definition is_dict (v : pyval) : Prop := exists d, v = PDict d.

(** A projected cluster: a dictionary whose [data_center] is a
    dictionary. *)
Definition cluster_shape (v : pyval) : Prop :=
  exists c dc, v = PDict c /\ dict_get "data_center" c = Some (PDict dc).

(** A projected host or VM: its [name], if any, is a scalar, and its
    [cluster] is a dictionary whose [data_center] is a dictionary. *)
Definition entity_shape (v : pyval) : Prop :=
  exists d c dc,
    v = PDict d /\
    (forall n, dict_get "name" d = Some n -> exists s, n = PS s) /\
    dict_get "cluster" d = Some (PDict c) /\
    dict_get "data_center" c = Some (PDict dc).

(** A nic entry, as [get_vms] builds it, has no [ip_addresses] or a
    list of at least one address. *)
Definition nic_shape (nic : pyval) : Prop :=
  getitem nic "ip_addresses" = Raise (KeyError "ip_addresses") \/
  exists ip ips, getitem nic "ip_addresses" = Ok (PList (ip :: ips)).

(** A projected VM: also its [nics] is a dictionary of such entries,
    its [tags] a list, and it has a [host]. *)
Definition vm_shape (v : pyval) : Prop :=
  entity_shape v /\
  exists nics tags h,
    getitem v "nics" = Ok (PDict nics) /\
    (forall nic, In nic (dict_values nics) -> nic_shape nic) /\
    getitem v "tags" = Ok (PList tags) /\
    getitem v "host" = Ok h.

(** What the comprehension of [vm_entry] takes from one nic. *)
Definition first_address (nic : pyval) : result pyval :=
  ips <- getitem nic "ip_addresses" ;; first_item ips.

(** Whether a nic entry has the key [ip_addresses]. *)
Definition has_ips (nic : pyval) : bool := is_ok (getitem nic "ip_addresses").

(** [self.settings['format']['replace_dash_in_groups']] *)
Definition replace_dash_in_groups (settings : pyval) : result pyval :=
  fmt <- getitem settings "format" ;;
  getitem fmt "replace_dash_in_groups".

(** ** The sanitizer as the specification words it

    Characters of [[A-Za-z0-9_]], and the dash unless it is to be
    replaced, are kept; every other character becomes an underscore; one
    leading underscore is removed. *)

Module Spec.

Definition kept (replace_dash : bool) (c : ascii) : bool :=
  (in_range "A" "Z" c || in_range "a" "z" c || in_range "0" "9" c
   || Ascii.eqb c "_" || (Ascii.eqb c "-" && negb replace_dash))%bool.

Definition replace_char (replace_dash : bool) (c : ascii) : ascii :=
  if kept replace_dash c then c else "_"%char.

Fixpoint replace_others (replace_dash : bool) (s : string) : string :=
  match s with
  | "" => ""
  | String c rest =>
      String (replace_char replace_dash c) (replace_others replace_dash rest)
  end.

Definition strip_leading_underscore (s : string) : string :=
  match s with
  | String "_" rest => rest
  | _ => s
  end.

Definition sanitize (replace_dash : bool) (s : string) : string :=
  strip_leading_underscore (replace_others replace_dash s).

Definition starts_with_underscore (s : string) : bool :=
  match s with
  | String "_" _ => true
  | _ => false
  end.

(** Text made of kept characters only. *)
Fixpoint all_kept (b : bool) (s : string) : bool :=
  match s with
  | "" => true
  | String c rest => (kept b c && all_kept b rest)%bool
  end.

End Spec.

(** ** Readings of the projections and of the inventory *)

(** What [get_dict_from_object] stores for an attribute, if it stores
    anything. *)
Definition attr_value (a : attr) : option pyval :=
  match a with
  | AInt z => Some (PS (SInt z))
  | ABool b => Some (PS (SBool b))
  | AText s => Some (PStr (strip s))
  | ANone => Some PNone
  | AOther => None
  end.

(** The value of the last attribute of [obj] that is stored and whose
    sanitized name is [key]; [found] when there is none. *)
Fixpoint last_binding (replace_dash : bool) (prefix key : string)
    (obj : obj_vars) (found : option pyval) : option pyval :=
  match obj with
  | [] => found
  | (name, a) :: rest =>
      last_binding replace_dash prefix key rest
        (if String.eqb (Spec.sanitize replace_dash (prefix ++ name)) key
         then match attr_value a with
              | Some v => Some v
              | None => found
              end
         else found)
  end.

(** A link to a cluster or to a data center that is there and whose id
    is a key of the collection. *)
Definition link_known (collection : dict) (link : option scalar) : bool :=
  match link with
  | Some id => dict_mem id collection
  | None => false
  end.

Definition has_values (stat : Statistic) : bool :=
  match stat_values stat with
  | [] => false
  | _ => true
  end.

Definition is_some {A} (o : option A) : bool :=
  match o with
  | Some _ => true
  | None => false
  end.

(** What [get_vms] needs of a VM to go through, once the sanitizer
    works: an operating system, a template, a sample for every statistic,
    and a known cluster that lists no affinity group. *)
Definition vm_retrievable (api : Api) (cls : dict) (vm : Vm) : bool :=
  (is_some (vm_os vm) && is_some (vm_template vm)
   && forallb has_values (vm_statistics vm)
   && match vm_cluster vm with
      | Some cid =>
          match affinity_groups api cid with
          | [] => dict_mem cid cls
          | _ => false
          end
      | None => false
      end)%bool.

(** The error of following a link that is not [link_known]. *)
Definition link_error (link : option scalar) : exn :=
  match link with
  | None => AttributeError "NoneType" "id"
  | Some id => KeyError id
  end.

(** The error [get_vms] meets first on a VM that is not
    [vm_retrievable], in the order of its statements. *)
Definition vm_error (api : Api) (vm : Vm) : exn :=
  match vm_os vm, vm_template vm with
  | None, _ => AttributeError "NoneType" "type"
  | Some _, None => AttributeError "NoneType" "name"
  | Some _, Some _ =>
      if negb (forallb has_values (vm_statistics vm)) then IndexError
      else match vm_cluster vm with
           | None => AttributeError "NoneType" "id"
           | Some cid =>
               match affinity_groups api cid with
               | g :: _ => AttributeError (type_name (PS (ag_id g))) "vms"
               | [] => KeyError cid
               end
           end
  end.

(** A link that is there and whose id equals [id]. *)
Definition links_to (link : option scalar) (id : scalar) : Prop :=
  exists l, link = Some l /\ scalar_eqb id l = true.

(** [self.inventory[group]['hosts']], empty when there is no such list. *)
Definition members_of (inventory : dict) (group : scalar) : list pyval :=
  match dict_get group inventory with
  | Some (PDict g) =>
      match dict_get "hosts" g with
      | Some (PList l) => l
      | _ => []
      end
  | _ => []
  end.

(** From [inv] to [inv'] no group loses a member, and the only member
    gained is [name]. *)
Definition extends (name : pyval) (inv inv' : dict) : Prop :=
  forall g : scalar,
    (forall x, In x (members_of inv g) -> In x (members_of inv' g)) /\
    (forall x, In x (members_of inv' g) -> In x (members_of inv g) \/ x = name).

(** From [inv] to [inv'] no key of the host variables is lost. *)
Definition keeps_vars (inv inv' : dict) : Prop :=
  forall k, is_ok (hostvars_get inv k) = true ->
            is_ok (hostvars_get inv' k) = true.

(** The entity [value] has its variables entered under its name and is
    a member of the fixed group [top] and of the groups of its data
    center and of its cluster. *)
Definition grouped (top : string) (value : pyval) (inv : dict) : Prop :=
  exists name key cl dc dc_name cl_name,
    getitem value "name" = Ok name /\ as_key name = Ok key /\
    getitem value "cluster" = Ok cl /\
    getitem cl "data_center" = Ok dc /\
    getitem dc "name" = Ok dc_name /\
    getitem cl "name" = Ok cl_name /\
    is_ok (hostvars_get inv key) = true /\
    In name (members_of inv top) /\
    In name (members_of inv ("ovirt_data_center_" ++ py_str dc_name)) /\
    In name (members_of inv ("ovirt_cluster_" ++ py_str cl_name)).

(** The VM [value] is a member of the group of each of its tags and, if
    it has a managing host, of the group of that host. *)
Definition tag_grouped (value : pyval) (inv : dict) : Prop :=
  exists name tags tag_list host,
    getitem value "name" = Ok name /\
    getitem value "tags" = Ok tags /\ iter_of tags = Ok tag_list /\
    getitem value "host" = Ok host /\
    (forall tag, In tag tag_list ->
       In name (members_of inv ("ovirt_tag_" ++ py_str tag))) /\
    (truthy host = true ->
       In name (members_of inv ("ovirt_host_" ++ py_str host))).

(** Every member of every group is a key of the host variables. *)
Definition members_have_vars (inventory : dict) : Prop :=
  forall (group : string) (x : pyval),
    In x (members_of inventory group) ->
    exists k, x = PS k /\ is_ok (hostvars_get inventory k) = true.

(** ** Concrete inputs *)

Module Ex.

Definition environ : list (string * scalar) :=
  [ ("ovirt_url", SStr "https://engine.example/ovirt-engine/api");
    ("ovirt_username", SStr "admin@internal");
    ("ovirt_password", SStr "secret");
    ("ovirt_ca_file", SNone) ].

(** An ini file with an empty [ovirt] section and a [format] section. *)
Definition config (replace_dash : string) : ConfigParser :=
  Ini.parser [("ovirt", []);
              ("format", [("replace_dash_in_groups", replace_dash)])]
             environ.

(** An ini file without a [format] section. *)
Definition config_no_format : ConfigParser :=
  Ini.parser [("ovirt", [])] environ.

Definition settings (replace_dash : bool) : pyval :=
  PDict [ (SStr "ovirt",
           PDict [ (SStr "url", PStr "https://engine.example/ovirt-engine/api");
                   (SStr "username", PStr "admin@internal");
                   (SStr "password", PStr "secret");
                   (SStr "ca_file", PNone) ]);
          (SStr "format",
           PDict [(SStr "replace_dash_in_groups", PBool replace_dash)]) ].

Definition dc1 : DataCenter :=
  {| dc_id := "dc-1";
     dc_vars := [ ("_id", AText "dc-1"); ("_name", AText "Main DC");
                  ("_local", ABool false); ("_clusters", AOther) ] |}.

Definition cluster1 : Cluster :=
  {| cluster_id := "cl-1";
     cluster_data_center := Some (SStr "dc-1");
     cluster_vars := [ ("_id", AText "cl-1"); ("_name", AText "prod.east");
                       ("_data_center", AOther); ("_comment", ANone) ] |}.

(** A host with a management address of its own. *)
Definition host1 : Host :=
  {| host_id := "h-1";
     host_status := "up";
     host_cluster := Some (SStr "cl-1");
     host_tags := [];
     host_vars := [ ("_id", AText "h-1"); ("_name", AText "node1");
                    ("_address", AText "10.0.0.1"); ("_status", AOther) ] |}.

(** A host whose address is its id. *)
Definition host2 : Host :=
  {| host_id := "h-2";
     host_status := "up";
     host_cluster := Some (SStr "cl-1");
     host_tags := [SStr "rack 4"];
     host_vars := [ ("_id", AText "h-2"); ("_name", AText "node2");
                    ("_address", AText "h-2"); ("_status", AOther) ] |}.

Definition eth0 : ReportedDevice :=
  {| dev_name := "eth0";
     dev_mac := Some (SStr "00:1a:4a:16:01:51");
     dev_ips := Some [SStr "192.168.1.5"; SStr "fe80::21a:4aff:fe16:151"] |}.

Definition eth1 : ReportedDevice :=
  {| dev_name := "eth1";
     dev_mac := Some (SStr "00:1a:4a:16:01:52");
     dev_ips := Some [SStr "10.1.0.5"] |}.

(** A device that reports a MAC address and no IP address. *)
Definition eth2 : ReportedDevice :=
  {| dev_name := "eth2";
     dev_mac := Some (SStr "00:1a:4a:16:01:53");
     dev_ips := None |}.

Definition vm_on (managing_host : option scalar) (id name : string)
    (devices : list ReportedDevice) (tags : list scalar) : Vm :=
  {| vm_id := id;
     vm_name := name;
     vm_host := managing_host;
     vm_status := "up";
     vm_os := Some (SStr "rhel_7x64");
     vm_template := Some SNone;
     vm_cluster := Some (SStr "cl-1");
     vm_devices := devices;
     vm_tags := tags;
     vm_statistics := [ {| stat_name := "memory.installed";
                           stat_values := [PS (SInt 1073741824)] |} ];
     vm_affinity_labels := [];
     vm_vars := [ ("_id", AText id); ("_name", AText name);
                  ("_description", AText " web frontend ");
                  ("_cpu", AOther); ("_fqdn", ANone) ] |}.

Definition vm : string -> string -> list ReportedDevice -> list scalar -> Vm :=
  vm_on None.

Definition web1 : Vm := vm "vm-1" "web1" [eth0; eth1] [SStr "web"; SStr "prod"].
Definition db1 : Vm := vm "vm-2" "db1" [] [].
Definition bare : Vm := vm "vm-3" "bare" [eth0; eth2] [].

(** A VM with a tag and a managing host whose names hold characters the
    sanitizer replaces. *)
Definition pinned : Vm :=
  vm_on (Some (SStr "node 1.lab")) "vm-4" "pinned" [] [SStr "front end"].

Definition group1 : AffinityGroup :=
  {| ag_id := "ag-1";
     ag_vars := [ ("_id", AText "ag-1"); ("_name", AText "web tier");
                  ("_vms", AOther) ] |}.

Definition api (hs : list Host) (vs : list Vm) (groups : list AffinityGroup)
  : Api :=
  {| data_centers := [dc1];
     clusters := [cluster1];
     hosts := hs;
     vms := vs;
     affinity_groups := fun _ => groups |}.

Definition empty_api : Api :=
  {| data_centers := []; clusters := []; hosts := []; vms := [];
     affinity_groups := fun _ => [] |}.

Definition command_line (h : option string) (p : bool) : Cli.CommandLine :=
  {| Cli.given_list := false; Cli.given_host := h; Cli.given_pretty := p |}.

(** Two hosts and two VMs in one cluster without affinity groups. *)
Definition api1 : Api := api [host1; host2] [web1; db1] [].

Definition retrieved_data_centers : dict :=
  match get_data_centers (settings false) api1 with
  | Ok dcs => dcs
  | Raise _ => []
  end.

Definition retrieved_clusters : dict :=
  match get_clusters (settings false) api1 retrieved_data_centers with
  | Ok cls => cls
  | Raise _ => []
  end.

Definition retrieved_hosts : dict :=
  match retrieve (settings false) api1 with
  | Ok (hs, _) => hs
  | Raise _ => []
  end.

Definition retrieved_vms : dict :=
  match retrieve (settings false) api1 with
  | Ok (_, vs) => vs
  | Raise _ => []
  end.

Definition inventory1 : dict :=
  match build_inventory (settings false) api1 with
  | Ok inv => inv
  | Raise _ => []
  end.

(** The cluster of [web1] has one affinity group, of which it is a
    member. *)
Definition api_affinity : Api := api [host1] [web1] [group1].

Definition api_names : Api := api [host1] [pinned] [].

Definition inventory_names : dict :=
  match build_inventory (settings false) api_names with
  | Ok inv => inv
  | Raise _ => []
  end.

(** A VM one of whose devices reports no address. *)
Definition api_bare : Api := api [host1] [web1; bare] [].

Definition value_of (collection : dict) (id : string) : pyval :=
  match dict_get id collection with
  | Some value => value
  | None => PNone
  end.

End Ex.


(** * Properties *)

(** ** The result monad *)

Lemma bind_ok {A B} (m : result A) (f : A -> result B) (b : B) :
  bind m f = Ok b -> exists a, m = Ok a /\ f a = Ok b.
Proof.
  destruct m as [a|e]; simpl; intros H; [exists a; auto | discriminate].
Qed.

(** Takes a successful sequence of steps apart, one step at a time. *)
Ltac bind_inv H :=
  let x := fresh "x" in
  let E := fresh "E" in
  apply bind_ok in H; destruct H as (x & E & H).

(** ** The model on small inputs *)

Example to_safe_attribute :
  to_safe (Ex.settings false) "_name" = Ok "name".
Proof. reflexivity. Qed.

Example to_safe_dash_kept :
  to_safe (Ex.settings false) "web-tier 1" = Ok "web-tier_1".
Proof. reflexivity. Qed.

Example to_safe_dash_replaced :
  to_safe (Ex.settings true) "web-tier 1" = Ok "web_tier_1".
Proof. reflexivity. Qed.

Example strip_description : strip "  web frontend " = "web frontend".
Proof. reflexivity. Qed.

Example projection_of_host :
  get_dict_from_object (Ex.settings false) (host_vars Ex.host1) ""
  = Ok [(SStr "id", PStr "h-1"); (SStr "name", PStr "node1");
        (SStr "address", PStr "10.0.0.1")].
Proof. reflexivity. Qed.

Example settings_read :
  read_settings (Ex.config "False") = Ok (Ex.settings false).
Proof. reflexivity. Qed.

(** ** The sanitizer *)

Section Sanitizer.

Variable settings : pyval.
Variable flag : pyval.
Hypothesis Hflag : replace_dash_in_groups settings = Ok flag.

Let b := truthy flag.

Lemma in_set_kept (c : ascii) :
  Re.in_set
    ([Re.Range "A" "Z"; Re.Range "a" "z"; Re.Range "0" "9"; Re.Lit "_"]
       ++ (if negb b then [Re.Lit "-"] else []))%list c
  = Spec.kept b c.
Proof.
  unfold Re.in_set, Spec.kept.
  rewrite existsb_app; cbn [existsb Re.item_matches].
  rewrite (Ascii.eqb_sym "_" c).
  destruct b; cbn [negb existsb Re.item_matches];
    rewrite ?(Ascii.eqb_sym "-" c), ?orb_false_r, ?andb_false_r,
      ?andb_true_r, ?orb_false_r, ?orb_assoc; reflexivity.
Qed.

Lemma sub_kept_set (word : string) :
  Re.sub ((if negb b then "[^A-Za-z0-9\_" ++ "\-" else "[^A-Za-z0-9\_")
            ++ "]") "_" word
  = Ok (flat_map_string
          (fun c => if Spec.kept b c then String c "" else "_") word).
Proof.
  unfold Re.sub.
  replace (Re.parse _)
    with (Some (Re.NegSet
                  ([Re.Range "A" "Z"; Re.Range "a" "z"; Re.Range "0" "9";
                    Re.Lit "_"] ++ (if negb b then [Re.Lit "-"] else []))%list))
    by (destruct b; reflexivity).
  unfold Re.sub_pattern. f_equal.
  induction word as [|c w IH]; cbn [flat_map_string]; [reflexivity|].
  rewrite IH, in_set_kept. reflexivity.
Qed.

Lemma replace_matches (s : string) :
  flat_map_string
    (fun c => if Spec.kept b c then String c "" else "_") s
  = Spec.replace_others b s.
Proof.
  induction s as [|c s IH]; simpl; [reflexivity|].
  rewrite IH. unfold Spec.replace_char.
  destruct (Spec.kept b c); reflexivity.
Qed.

Lemma strip_matches (s : string) :
  Re.sub "^\_" "" s = Ok (Spec.strip_leading_underscore s).
Proof.
  unfold Re.sub; simpl.
  destruct s as [|c s]; simpl; [reflexivity|].
  destruct (Ascii.eqb_spec c "_") as [->|Hc]; [reflexivity|].
  f_equal.
  destruct c as [[] [] [] [] [] [] [] []]; try reflexivity.
  exfalso; apply Hc; reflexivity.
Qed.

(** The text-level construction of [to_safe] computes the sanitizer of
    the specification. *)
Lemma to_safe_sanitize (word : string) :
  to_safe settings word = Ok (Spec.sanitize b word).
Proof.
  unfold to_safe. cbv zeta.
  unfold replace_dash_in_groups in Hflag.
  destruct (getitem settings "format") as [fmt|e]; cbn [bind] in *;
    [|discriminate].
  rewrite Hflag; cbn [bind].
  fold b. rewrite sub_kept_set; cbn [bind].
  rewrite strip_matches, replace_matches. reflexivity.
Qed.

End Sanitizer.

Lemma replace_others_length (b : bool) (s : string) :
  String.length (Spec.replace_others b s) = String.length s.
Proof. induction s as [|c s IH]; simpl; congruence. Qed.

Lemma replace_others_get (b : bool) (s : string) (i : nat) (c : ascii) :
  String.get i s = Some c ->
  String.get i (Spec.replace_others b s) = Some (Spec.replace_char b c).
Proof.
  revert i; induction s as [|c0 s IH]; intros i; simpl; [discriminate|].
  destruct i as [|i]; [intros [= ->]; reflexivity | apply IH].
Qed.

Lemma kept_underscore (b : bool) : Spec.kept b "_" = true.
Proof. destruct b; reflexivity. Qed.

Lemma kept_replace_char (b : bool) (c : ascii) :
  Spec.kept b (Spec.replace_char b c) = true.
Proof.
  unfold Spec.replace_char.
  destruct (Spec.kept b c) eqn:E; [exact E | apply kept_underscore].
Qed.

Lemma all_kept_replace_others (b : bool) (s : string) :
  Spec.all_kept b (Spec.replace_others b s) = true.
Proof.
  induction s as [|c s IH]; simpl; [reflexivity|].
  rewrite kept_replace_char, IH; reflexivity.
Qed.

Lemma all_kept_strip (b : bool) (s : string) :
  Spec.all_kept b s = true -> Spec.all_kept b (Spec.strip_leading_underscore s) = true.
Proof.
  destruct s as [|c s]; [trivial|].
  intros H. pose proof H as H'. simpl in H'.
  apply andb_true_iff in H' as [_ Hs].
  unfold Spec.strip_leading_underscore.
  destruct c as [[] [] [] [] [] [] [] []]; try exact H; exact Hs.
Qed.

Lemma replace_others_fixed (b : bool) (s : string) :
  Spec.all_kept b s = true -> Spec.replace_others b s = s.
Proof.
  induction s as [|c s IH]; simpl; [reflexivity|].
  intros H; apply andb_true_iff in H as [Hc Hs].
  unfold Spec.replace_char; rewrite Hc, (IH Hs); reflexivity.
Qed.

Lemma sanitize_twice (b : bool) (s : string) :
  Spec.sanitize b (Spec.sanitize b s)
  = Spec.strip_leading_underscore (Spec.sanitize b s).
Proof.
  unfold Spec.sanitize at 1.
  rewrite replace_others_fixed; [reflexivity|].
  apply all_kept_strip, all_kept_replace_others.
Qed.

Lemma strip_no_underscore (s : string) :
  Spec.starts_with_underscore s = false ->
  Spec.strip_leading_underscore s = s.
Proof.
  destruct s as [|c s]; [reflexivity|].
  destruct c as [[] [] [] [] [] [] [] []]; simpl; congruence.
Qed.

(** C4: with the flag read from the settings, [to_safe] returns the text
    in which every character of [[A-Za-z0-9_]] is kept, the dash is kept
    exactly when [replace_dash_in_groups] is false, every other character
    is an underscore, and from which one leading underscore is removed. *)
Theorem to_safe_keeps_and_replaces (settings flag : pyval) (s : string) :
  replace_dash_in_groups settings = Ok flag ->
  exists r,
    to_safe settings s = Ok (Spec.strip_leading_underscore r) /\
    String.length r = String.length s /\
    forall i c, String.get i s = Some c ->
      String.get i r
      = Some (if Spec.kept (truthy flag) c then c else "_"%char).
Proof.
  intros Hflag. exists (Spec.replace_others (truthy flag) s).
  split; [|split].
  - exact (to_safe_sanitize settings flag Hflag s).
  - apply replace_others_length.
  - intros i c Hi. exact (replace_others_get (truthy flag) s i c Hi).
Qed.

Lemma to_safe_keeps_and_replaces_witness :
  exists r,
    to_safe (Ex.settings true) "_web-tier 1" = Ok (Spec.strip_leading_underscore r) /\
    String.length r = String.length "_web-tier 1" /\
    forall i c, String.get i "_web-tier 1" = Some c ->
      String.get i r
      = Some (if Spec.kept (truthy (PBool true)) c then c else "_"%char).
Proof.
  exact (@to_safe_keeps_and_replaces (Ex.settings true) (PBool true)
           "_web-tier 1" eq_refl).
Defined.

(** C3, as stated: sanitizing twice is not always sanitizing once.  Of
    two leading underscores each pass removes one. *)
Lemma to_safe_not_idempotent :
  ~ (forall (replace_dash : bool) (s : string),
        bind (to_safe (Ex.settings replace_dash) s)
             (to_safe (Ex.settings replace_dash))
        = to_safe (Ex.settings replace_dash) s).
Proof.
  intros H. specialize (H false "__a"). vm_compute in H. discriminate H.
Qed.

(** C3, amended: a second pass only removes one more leading underscore;
    it changes nothing when the sanitized text does not start with an
    underscore. *)
Theorem to_safe_twice (settings flag : pyval) (s : string) :
  replace_dash_in_groups settings = Ok flag ->
  exists once,
    to_safe settings s = Ok once /\
    to_safe settings once = Ok (Spec.strip_leading_underscore once) /\
    (Spec.starts_with_underscore once = false ->
     to_safe settings once = Ok once).
Proof.
  intros Hflag. exists (Spec.sanitize (truthy flag) s).
  assert (Htwice : to_safe settings (Spec.sanitize (truthy flag) s)
                   = Ok (Spec.strip_leading_underscore
                           (Spec.sanitize (truthy flag) s))).
  { rewrite (to_safe_sanitize settings flag Hflag), sanitize_twice; reflexivity. }
  split; [exact (to_safe_sanitize settings flag Hflag s)|].
  split; [exact Htwice|].
  intros Hstart. rewrite Htwice, (strip_no_underscore _ Hstart); reflexivity.
Qed.

Lemma to_safe_twice_witness :
  exists once,
    to_safe (Ex.settings false) "__a" = Ok once /\
    to_safe (Ex.settings false) once = Ok (Spec.strip_leading_underscore once) /\
    (Spec.starts_with_underscore once = false ->
     to_safe (Ex.settings false) once = Ok once).
Proof.
  exact (@to_safe_twice (Ex.settings false) (PBool false) "__a" eq_refl).
Defined.

(** ** Settings *)

Lemma read_settings_shape (config : ConfigParser) (settings : pyval) :
  read_settings config = Ok settings ->
  exists url username password ca_file,
    let ov := PDict [(SStr "url", PS url); (SStr "username", PS username);
                     (SStr "password", PS password);
                     (SStr "ca_file", PS ca_file)] in
    if has_section config "format"
    then exists flag,
        settings = PDict [(SStr "ovirt", ov);
                          (SStr "format",
                           PDict [(SStr "replace_dash_in_groups", PBool flag)])]
    else settings = PDict [(SStr "ovirt", ov)].
Proof.
  unfold read_settings. intros H.
  bind_inv H. bind_inv H. bind_inv H. bind_inv H.
  exists x, x0, x1, x2. cbv zeta.
  destruct (has_section config "format").
  - bind_inv H. exists x3. simpl in H. injection H as <-. reflexivity.
  - simpl in H. injection H as <-. reflexivity.
Qed.

(** C8: without a [format] section the settings have no [format] key and
    every call of the sanitizer raises the missing-key error. *)
Theorem missing_format_section (config : ConfigParser) (settings : pyval) :
  has_section config "format" = false ->
  read_settings config = Ok settings ->
  (exists d, settings = PDict d /\ dict_mem "format" d = false) /\
  forall word, to_safe settings word = Raise (KeyError "format").
Proof.
  intros Hsec Hread.
  destruct (read_settings_shape _ _ Hread) as (url & us & pw & ca & Hshape).
  cbv zeta in Hshape. rewrite Hsec in Hshape. subst settings.
  split; [eexists; split; reflexivity | reflexivity].
Qed.

Lemma missing_format_section_witness :
  (exists d, PDict [(SStr "ovirt",
                     PDict [ (SStr "url", PStr "https://engine.example/ovirt-engine/api");
                             (SStr "username", PStr "admin@internal");
                             (SStr "password", PStr "secret");
                             (SStr "ca_file", PNone) ])] = PDict d
             /\ dict_mem "format" d = false) /\
  forall word,
    to_safe (PDict [(SStr "ovirt",
                     PDict [ (SStr "url", PStr "https://engine.example/ovirt-engine/api");
                             (SStr "username", PStr "admin@internal");
                             (SStr "password", PStr "secret");
                             (SStr "ca_file", PNone) ])]) word
    = Raise (KeyError "format").
Proof.
  exact (@missing_format_section Ex.config_no_format _ eq_refl eq_refl).
Defined.

(** ** Dictionaries *)

Lemma scalar_eqb_norm (a b : scalar) :
  scalar_eqb a b = true <-> norm a = norm b.
Proof.
  destruct a as [|x|x|x], b as [|y|y|y]; simpl;
    try (split; [discriminate | intros [=]]; fail);
    try (split; reflexivity).
  - rewrite Bool.eqb_true_iff. split; [congruence|].
    destruct x, y; simpl; intros [=]; reflexivity.
  - rewrite Z.eqb_eq. split; congruence.
  - rewrite Z.eqb_eq. split; congruence.
  - rewrite Z.eqb_eq. split; congruence.
  - rewrite String.eqb_eq. split; congruence.
Qed.

Lemma scalar_eqb_refl (a : scalar) : scalar_eqb a a = true.
Proof. apply scalar_eqb_norm; reflexivity. Qed.

Lemma scalar_eqb_congr (a b c : scalar) :
  scalar_eqb a b = true -> scalar_eqb a c = scalar_eqb b c.
Proof.
  intros Hab. apply scalar_eqb_norm in Hab.
  destruct (scalar_eqb a c) eqn:Hac, (scalar_eqb b c) eqn:Hbc; trivial.
  - apply scalar_eqb_norm in Hac.
    assert (H : scalar_eqb b c = true) by (apply scalar_eqb_norm; congruence).
    congruence.
  - apply scalar_eqb_norm in Hbc.
    assert (H : scalar_eqb a c = true) by (apply scalar_eqb_norm; congruence).
    congruence.
Qed.

Lemma dict_get_set (k k' : scalar) (v : pyval) (d : dict) :
  dict_get k' (dict_set k v d)
  = if scalar_eqb k k' then Some v else dict_get k' d.
Proof.
  induction d as [|[k0 v0] d IH]; simpl; [reflexivity|].
  destruct (scalar_eqb k0 k) eqn:E0; simpl.
  - rewrite (scalar_eqb_congr _ _ k' E0).
    destruct (scalar_eqb k k'); reflexivity.
  - rewrite IH.
    destruct (scalar_eqb k0 k') eqn:E1; [|reflexivity].
    destruct (scalar_eqb k k') eqn:E2; [|reflexivity].
    apply scalar_eqb_norm in E1, E2.
    assert (H : scalar_eqb k0 k = true) by (apply scalar_eqb_norm; congruence).
    congruence.
Qed.

Lemma dict_get_set_same (k : scalar) (v : pyval) (d : dict) :
  dict_get k (dict_set k v d) = Some v.
Proof. rewrite dict_get_set, scalar_eqb_refl; reflexivity. Qed.

Lemma dict_get_set_other (k k' : scalar) (v : pyval) (d : dict) :
  scalar_eqb k k' = false -> dict_get k' (dict_set k v d) = dict_get k' d.
Proof. intros H; rewrite dict_get_set, H; reflexivity. Qed.

Lemma getitem_dict (v : pyval) (k : scalar) (x : pyval) :
  getitem v k = Ok x -> exists d, v = PDict d /\ dict_get k d = Some x.
Proof.
  destruct v as [s|l|d]; simpl; try discriminate.
  destruct (dict_get k d) as [y|] eqn:E; [|discriminate].
  intros [= ->]. exists d; auto.
Qed.

Lemma setitem_dict (v : pyval) (k : scalar) (x w : pyval) :
  setitem v k x = Ok w -> exists d, v = PDict d /\ w = PDict (dict_set k x d).
Proof.
  destruct v as [s|l|d]; simpl; try discriminate.
  intros [= <-]. exists d; auto.
Qed.

(** ** Grouping leaves the variables of other names alone *)

Lemma hostvars_get_meta (inv inv' : dict) (k : scalar) :
  dict_get "_meta" inv' = dict_get "_meta" inv ->
  hostvars_get inv' k = hostvars_get inv k.
Proof.
  intros H. unfold hostvars_get. cbn [getitem]. rewrite H. reflexivity.
Qed.

Lemma append_to_meta (inv inv' : dict) (top : string) (name : pyval) :
  append_to inv top name = Ok inv' ->
  String.eqb top "_meta" = false ->
  dict_get "_meta" inv' = dict_get "_meta" inv.
Proof.
  unfold append_to. intros H Htop.
  bind_inv H. bind_inv H. bind_inv H. bind_inv H.
  injection H as <-. apply dict_get_set_other. exact Htop.
Qed.

Lemma add_host_to_group_meta (inv inv' : dict) (host : pyval)
    (group : string) :
  add_host_to_group inv host group = Ok inv' ->
  String.eqb group "_meta" = false ->
  dict_get "_meta" inv' = dict_get "_meta" inv.
Proof.
  unfold add_host_to_group. intros H Hg.
  bind_inv H. bind_inv H. bind_inv H. bind_inv H.
  injection H as <-. rewrite dict_get_set_other by exact Hg.
  destruct (negb (dict_mem group inv)); [|reflexivity].
  apply dict_get_set_other. exact Hg.
Qed.

Lemma add_to_cluster_groups_meta (inv inv' : dict) (value : pyval) :
  add_to_cluster_groups inv value = Ok inv' ->
  dict_get "_meta" inv' = dict_get "_meta" inv.
Proof.
  unfold add_to_cluster_groups. intros H.
  bind_inv H. bind_inv H. bind_inv H. bind_inv H. bind_inv H.
  bind_inv H. bind_inv H. bind_inv H.
  apply add_host_to_group_meta in H; [|reflexivity].
  apply add_host_to_group_meta in E3; [|reflexivity].
  congruence.
Qed.

Lemma tag_groups_meta (value : pyval) (tags : list pyval) :
  forall inv inv',
    foldM (fun inventory tag =>
             name <- getitem value "name" ;;
             add_host_to_group inventory name ("ovirt_tag_" ++ py_str tag))
          inv tags = Ok inv' ->
    dict_get "_meta" inv' = dict_get "_meta" inv.
Proof.
  induction tags as [|tag tags IH]; intros inv inv' H; simpl in H.
  - injection H as <-; reflexivity.
  - bind_inv H. bind_inv E.
    apply add_host_to_group_meta in E; [|reflexivity].
    rewrite (IH _ _ H). exact E.
Qed.

Lemma has_name_key (value n : pyval) (key k : scalar) :
  getitem value "name" = Ok n -> as_key n = Ok key ->
  has_name k value = scalar_eqb key k.
Proof.
  intros Hn Hk. unfold has_name. rewrite Hn.
  destruct n as [s|l|d]; simpl in Hk; try discriminate.
  injection Hk as ->. reflexivity.
Qed.

Lemma set_hostvars_get (inv inv' : dict) (value entry : pyval) (k : scalar) :
  set_hostvars inv value entry = Ok inv' ->
  hostvars_get inv' k
  = if has_name k value then Ok entry else hostvars_get inv k.
Proof.
  unfold set_hostvars. intros H.
  bind_inv H. bind_inv H. bind_inv H. bind_inv H. bind_inv H. bind_inv H.
  injection H as <-.
  rewrite (has_name_key _ _ _ k E1 E2).
  apply setitem_dict in E3 as (hv & -> & ->).
  apply setitem_dict in E4 as (m & -> & ->).
  unfold hostvars_get. rewrite E. cbn [bind]. rewrite E0. cbn [bind].
  cbn [getitem]. rewrite dict_get_set_same. cbn [bind getitem].
  rewrite dict_get_set_same. cbn [bind getitem].
  rewrite dict_get_set.
  destruct (scalar_eqb x2 k); reflexivity.
Qed.

Lemma host_step_get (inv inv' : dict) (value : pyval) (k : scalar) :
  host_step inv value = Ok inv' ->
  exists entry,
    host_entry value = Ok entry /\
    hostvars_get inv' k
    = if has_name k value then Ok entry else hostvars_get inv k.
Proof.
  unfold host_step. intros H.
  bind_inv H. bind_inv H. bind_inv H. bind_inv H.
  exists x. split; [exact E|].
  apply add_to_cluster_groups_meta in H.
  apply append_to_meta in E2; [|reflexivity].
  rewrite (hostvars_get_meta _ _ k H), (hostvars_get_meta _ _ k E2).
  exact (set_hostvars_get _ _ _ _ k E0).
Qed.

Lemma vm_step_get (inv inv' : dict) (value : pyval) (k : scalar) :
  vm_step inv value = Ok inv' ->
  exists entry,
    vm_entry value = Ok entry /\
    hostvars_get inv' k
    = if has_name k value then Ok entry else hostvars_get inv k.
Proof.
  unfold vm_step. intros H.
  bind_inv H. bind_inv H. bind_inv H. bind_inv H. bind_inv H.
  bind_inv H. bind_inv H. bind_inv H. bind_inv H.
  exists x. split; [exact E|].
  assert (Hlast : dict_get "_meta" inv' = dict_get "_meta" x6).
  { destruct (truthy x7); [|injection H as <-; reflexivity].
    bind_inv H. bind_inv H.
    apply add_host_to_group_meta in H; [exact H | reflexivity]. }
  apply tag_groups_meta in E6.
  apply add_to_cluster_groups_meta in E3.
  apply append_to_meta in E2; [|reflexivity].
  rewrite (hostvars_get_meta _ _ k Hlast), (hostvars_get_meta _ _ k E6),
    (hostvars_get_meta _ _ k E3), (hostvars_get_meta _ _ k E2).
  exact (set_hostvars_get _ _ _ _ k E0).
Qed.

Section LastWriteWins.

Variable step : dict -> pyval -> result dict.
Variable entry_of : pyval -> result pyval.
Hypothesis step_get : forall inv inv' value k,
    step inv value = Ok inv' ->
    exists entry,
      entry_of value = Ok entry /\
      hostvars_get inv' k
      = if has_name k value then Ok entry else hostvars_get inv k.

Lemma loop_other_names (k : scalar) (values : list pyval) :
  forall inv inv',
    foldM step inv values = Ok inv' ->
    filter (has_name k) values = [] ->
    hostvars_get inv' k = hostvars_get inv k.
Proof.
  induction values as [|v values IH]; intros inv inv' H Hf; simpl in H.
  - injection H as <-; reflexivity.
  - bind_inv H. simpl in Hf.
    destruct (has_name k v) eqn:Hv; [discriminate|].
    rewrite (IH _ _ H Hf).
    destruct (step_get _ _ _ k E) as (e & _ & Hget).
    rewrite Hv in Hget. exact Hget.
Qed.

Lemma loop_one_name (k : scalar) (value : pyval) (values : list pyval) :
  forall inv inv',
    foldM step inv values = Ok inv' ->
    filter (has_name k) values = [value] ->
    exists entry,
      entry_of value = Ok entry /\ hostvars_get inv' k = Ok entry.
Proof.
  induction values as [|v values IH]; intros inv inv' H Hf; simpl in H.
  - discriminate.
  - bind_inv H. simpl in Hf.
    destruct (step_get _ _ _ k E) as (e & He & Hget).
    destruct (has_name k v) eqn:Hv.
    + injection Hf as -> Hf. exists e. split; [exact He|].
      rewrite (loop_other_names k values _ _ H Hf). exact Hget.
    + exact (IH _ _ H Hf).
Qed.

End LastWriteWins.

(** ** The variables of a host *)

Lemma host_entry_inv (value entry : pyval) :
  host_entry value = Ok entry ->
  exists address id,
    getitem value "address" = Ok address /\
    getitem value "id" = Ok id /\
    entry = PDict ((SStr "ovirt", value)
                     :: if py_eqb address id then []
                        else [(SStr "ansible_host", address)]).
Proof.
  unfold host_entry. intros H.
  bind_inv H. bind_inv H. bind_inv H. injection H as <-.
  exists x, x0. split; [exact E|]. split; [exact E0|].
  destruct (py_eqb x x0); simpl in E1.
  - injection E1 as <-. reflexivity.
  - rewrite E in E1. simpl in E1. injection E1 as <-. reflexivity.
Qed.

Lemma build_inventory_retrieved (settings : pyval) (api : Api)
    (hs vs : dict) :
  retrieve settings api = Ok (hs, vs) ->
  build_inventory settings api = group_entities hs vs.
Proof. unfold build_inventory. intros ->. reflexivity. Qed.

(** C6: the variables of a retrieved host, under the name that only this
    host carries, hold [ansible_host], equal to the address, exactly when
    the address differs from the id. *)
Theorem host_connection_hint (settings : pyval) (api : Api) (hs vs inv : dict)
    (key : scalar) (value : pyval) :
  retrieve settings api = Ok (hs, vs) ->
  build_inventory settings api = Ok inv ->
  named key hs = [value] ->
  named key vs = [] ->
  exists address id,
    getitem value "address" = Ok address /\
    getitem value "id" = Ok id /\
    hostvars_get inv key
    = Ok (PDict ((SStr "ovirt", value)
                   :: if py_eqb address id then []
                      else [(SStr "ansible_host", address)])).
Proof.
  intros Hr Hb Hhs Hvs.
  rewrite (build_inventory_retrieved _ _ _ _ Hr) in Hb.
  unfold group_entities in Hb. bind_inv Hb.
  destruct (loop_one_name host_step host_entry host_step_get
              key value _ _ _ E Hhs) as (entry & Hentry & Hget).
  rewrite (loop_other_names vm_step vm_entry vm_step_get key _ _ _ Hb Hvs).
  destruct (host_entry_inv _ _ Hentry) as (address & id & Ha & Hi & ->).
  exists address, id. auto.
Qed.

Lemma host_connection_hint_witness :
  exists address id,
    getitem (Ex.value_of Ex.retrieved_hosts "h-1") "address" = Ok address /\
    getitem (Ex.value_of Ex.retrieved_hosts "h-1") "id" = Ok id /\
    hostvars_get Ex.inventory1 "node1"
    = Ok (PDict ((SStr "ovirt", Ex.value_of Ex.retrieved_hosts "h-1")
                   :: if py_eqb address id then []
                      else [(SStr "ansible_host", address)])).
Proof.
  exact (host_connection_hint (Ex.settings false) Ex.api1
           Ex.retrieved_hosts Ex.retrieved_vms Ex.inventory1
           "node1" (Ex.value_of Ex.retrieved_hosts "h-1")
           eq_refl eq_refl eq_refl eq_refl).
Defined.

(** ** The variables of a VM *)

Lemma dict_set_values (k : scalar) (x : pyval) (d : dict) (v : pyval) :
  In v (dict_values (dict_set k x d)) -> v = x \/ In v (dict_values d).
Proof.
  unfold dict_values.
  induction d as [|[k0 v0] d IH]; simpl.
  - intros [<-|[]]; auto.
  - destruct (scalar_eqb k0 k); simpl.
    + intros [<-|H]; auto.
    + intros [<-|H]; auto. destruct (IH H); auto.
Qed.

(** What holds of the start value and of every value a loop enters holds
    of every value of the dictionary the loop builds. *)
Lemma fold_left_values {X} (P : pyval -> Prop) (key : X -> scalar)
    (val : X -> pyval) (xs : list X) :
  (forall x, In x xs -> P (val x)) ->
  forall acc,
    (forall v, In v (dict_values acc) -> P v) ->
    forall v,
      In v (dict_values
              (fold_left (fun d x => dict_set (key x) (val x) d) xs acc)) ->
      P v.
Proof.
  induction xs as [|x xs IH]; intros Hxs acc Hacc v; simpl.
  - apply Hacc.
  - apply IH.
    + intros y Hy; apply Hxs; right; exact Hy.
    + intros w Hw. apply dict_set_values in Hw as [->|Hw].
      * apply Hxs; left; reflexivity.
      * apply Hacc, Hw.
Qed.

Lemma nic_of_shape (device : ReportedDevice) :
  nic_shape (PDict (nic_of device)).
Proof.
  unfold nic_shape, nic_of.
  destruct (dev_ips device) as [[|ip ips]|];
    destruct (dev_mac device) as [mac|]; simpl; eauto.
Qed.

Lemma nics_of_shape (devices : list ReportedDevice) (nic : pyval) :
  In nic (dict_values (nics_of devices)) -> nic_shape nic.
Proof.
  unfold nics_of.
  apply (fold_left_values nic_shape dev_name
           (fun device => PDict (nic_of device))).
  - intros device _. apply nic_of_shape.
  - intros v [].
Qed.

Lemma get_vm_nics (settings : pyval) (api : Api) (cls : dict) (vm : Vm)
    (d : dict) :
  get_vm settings api cls vm = Ok d ->
  dict_get "nics" d = Some (PDict (nics_of (vm_devices vm))).
Proof.
  unfold get_vm. intros H.
  bind_inv H. bind_inv H. bind_inv H. bind_inv H. bind_inv H.
  bind_inv H. bind_inv H. bind_inv H.
  injection H as <-.
  repeat (rewrite dict_get_set_other by reflexivity).
  apply dict_get_set_same.
Qed.

Lemma get_vms_values (settings : pyval) (api : Api) (cls vs : dict)
    (value : pyval) :
  get_vms settings api cls = Ok vs ->
  In value (dict_values vs) ->
  exists vm d,
    In vm (vms api) /\ get_vm settings api cls vm = Ok d /\ value = PDict d.
Proof.
  unfold get_vms.
  assert (Hgen : forall l acc,
             foldM (fun acc vm =>
                      d <- get_vm settings api cls vm ;;
                      Ok (dict_set (vm_id vm) (PDict d) acc)) acc l = Ok vs ->
             In value (dict_values vs) ->
             In value (dict_values acc) \/
             exists vm d, In vm l /\ get_vm settings api cls vm = Ok d
                          /\ value = PDict d).
  { induction l as [|vm l IH]; intros acc H Hin; simpl in H.
    - injection H as <-. left; exact Hin.
    - bind_inv H. bind_inv E. injection E as <-.
      destruct (IH _ H Hin) as [Hacc|(vm' & d & Hl & Hd & ->)].
      + apply dict_set_values in Hacc as [->|Hacc]; [|left; exact Hacc].
        right. exists vm, x0. simpl; auto.
      + right. exists vm', d. simpl; auto. }
  intros H Hin. destruct (Hgen _ _ H Hin) as [[]|Hex]. exact Hex.
Qed.

Lemma retrieved_vm_nics (settings : pyval) (api : Api) (hs vs : dict)
    (value : pyval) :
  retrieve settings api = Ok (hs, vs) ->
  In value (dict_values vs) ->
  exists nics,
    getitem value "nics" = Ok (PDict nics) /\
    forall nic, In nic (dict_values nics) -> nic_shape nic.
Proof.
  unfold retrieve. intros H Hin.
  bind_inv H. bind_inv H. bind_inv H. bind_inv H. injection H as <- <-.
  destruct (get_vms_values _ _ _ _ _ E2 Hin) as (vm & d & _ & Hd & ->).
  exists (nics_of (vm_devices vm)). split.
  - cbn [getitem]. rewrite (get_vm_nics _ _ _ _ _ Hd). reflexivity.
  - apply nics_of_shape.
Qed.

Lemma first_addresses (nics : list pyval) :
  (forall nic, In nic nics -> nic_shape nic) ->
  if forallb has_ips nics
  then exists firsts,
      mapM first_address nics = Ok firsts /\
      match nics with
      | [] => firsts = []
      | nic :: _ =>
          exists ip ips rest,
            getitem nic "ip_addresses" = Ok (PList (ip :: ips)) /\
            firsts = ip :: rest
      end
  else mapM first_address nics = Raise (KeyError "ip_addresses").
Proof.
  induction nics as [|nic nics IH]; intros Hshape; simpl.
  - exists []. auto.
  - assert (Hrest : forall n, In n nics -> nic_shape n)
      by (intros n Hn; apply Hshape; right; exact Hn).
    specialize (IH Hrest).
    unfold has_ips at 1, first_address at 1 3.
    destruct (Hshape nic (or_introl eq_refl)) as [Hnone|(ip & ips & Hsome)].
    + rewrite Hnone. reflexivity.
    + rewrite Hsome. cbn [is_ok andb bind first_item].
      destruct (forallb has_ips nics).
      * destruct IH as (firsts & -> & _). cbn [bind].
        exists (ip :: firsts). split; [reflexivity|].
        exists ip, ips, firsts. auto.
      * rewrite IH. reflexivity.
Qed.

Lemma foldM_raise {A B} (f : A -> B -> result A) (x : B) (xs : list B) :
  In x xs ->
  (forall acc, exists e, f acc x = Raise e) ->
  forall acc, exists e, foldM f acc xs = Raise e.
Proof.
  induction xs as [|y xs IH]; intros Hin Hx acc; [destruct Hin|].
  simpl. destruct (f acc y) as [acc'|e] eqn:E; simpl; [|eauto].
  destruct Hin as [->|Hin]; [|exact (IH Hin Hx acc')].
  destruct (Hx acc) as (e & He). congruence.
Qed.

Lemma vm_entry_nics (value : pyval) (nics : dict) :
  getitem value "nics" = Ok (PDict nics) ->
  vm_entry value
  = match nics with
    | [] => Ok (PDict [(SStr "ovirt", value)])
    | _ => firsts <- mapM first_address (dict_values nics) ;;
           a <- first_item (PList firsts) ;;
           Ok (PDict [(SStr "ovirt", value); (SStr "ansible_host", a)])
    end.
Proof.
  intros H. unfold vm_entry. rewrite H. cbn [bind truthy].
  destruct nics as [|kv nics]; [reflexivity|].
  cbn [values_of bind]. fold first_address.
  destruct (mapM first_address (dict_values (kv :: nics))) as [firsts|e];
    cbn [bind]; [|reflexivity].
  destruct (first_item (PList firsts)); reflexivity.
Qed.

(** ** Errors of the grouping loops

    On the collections that [retrieve] returns, the two loops of
    [build_inventory] can only fail with a missing-key error. *)

Lemma ok_or_key_error_bind {A B} (Q : A -> Prop) (P : B -> Prop)
    (m : result A) (f : A -> result B) :
  ok_or_key_error Q m ->
  (forall a, m = Ok a -> Q a -> ok_or_key_error P (f a)) ->
  ok_or_key_error P (bind m f).
Proof.
  destruct m as [a|e]; simpl; intros Hm Hf; [apply Hf; auto | exact Hm].
Qed.

Lemma getitem_key_error (d : dict) (k : scalar) :
  ok_or_key_error (fun v => dict_get k d = Some v) (getitem (PDict d) k).
Proof. simpl. destruct (dict_get k d); simpl; reflexivity. Qed.

Lemma foldM_invariant {A B} (I : A -> Prop) (f : A -> B -> result A)
    (xs : list B) :
  (forall acc x acc', I acc -> f acc x = Ok acc' -> I acc') ->
  forall acc r, I acc -> foldM f acc xs = Ok r -> I r.
Proof.
  intros Hstep. induction xs as [|x xs IH]; intros acc r Hacc H; simpl in H.
  - injection H as <-; exact Hacc.
  - bind_inv H. exact (IH _ _ (Hstep _ _ _ Hacc E) H).
Qed.

Lemma foldM_ok_or_key_error {A B} (I : A -> Prop) (f : A -> B -> result A)
    (xs : list B) :
  (forall acc x, In x xs -> I acc -> ok_or_key_error I (f acc x)) ->
  forall acc, I acc -> ok_or_key_error I (foldM f acc xs).
Proof.
  induction xs as [|x xs IH]; intros Hstep acc Hacc; simpl; [exact Hacc|].
  apply (ok_or_key_error_bind I).
  - apply Hstep; [left; reflexivity | exact Hacc].
  - intros acc' _ Hacc'. apply IH; [|exact Hacc'].
    intros a y Hy. apply Hstep. right; exact Hy.
Qed.

Lemma dict_get_values (k : scalar) (d : dict) (v : pyval) :
  dict_get k d = Some v -> In v (dict_values d).
Proof.
  unfold dict_values. induction d as [|[k0 v0] d IH]; simpl; [discriminate|].
  destruct (scalar_eqb k0 k); [intros [= ->]; auto | auto].
Qed.

Lemma dict_mem_set (k k' : scalar) (v : pyval) (d : dict) :
  dict_mem k' d = true -> dict_mem k' (dict_set k v d) = true.
Proof.
  unfold dict_mem. rewrite dict_get_set.
  destruct (scalar_eqb k k'); [reflexivity | trivial].
Qed.

(** *** Shapes of the retrieved collections *)

Lemma all_values_set (P : pyval -> Prop) (k : scalar) (x : pyval) (d : dict) :
  P x -> all_values P d -> all_values P (dict_set k x d).
Proof.
  intros Hx Hd v Hv. apply dict_set_values in Hv as [->|Hv]; auto.
Qed.

Lemma all_values_nil (P : pyval -> Prop) : all_values P [].
Proof. intros v []. Qed.

Lemma get_dict_from_object_scalars (settings : pyval) (obj : obj_vars)
    (prefix : string) (d : dict) :
  get_dict_from_object settings obj prefix = Ok d ->
  all_values is_scalar d.
Proof.
  unfold get_dict_from_object.
  apply (foldM_invariant (all_values is_scalar)); [|apply all_values_nil].
  intros acc [name value] acc' Hacc H. bind_inv H. injection H as <-.
  cbn [snd]. destruct value; try exact Hacc;
    apply all_values_set; try exact Hacc; eexists; reflexivity.
Qed.

Lemma get_data_centers_dicts (settings : pyval) (api : Api) (dcs : dict) :
  get_data_centers settings api = Ok dcs -> all_values is_dict dcs.
Proof.
  unfold get_data_centers.
  apply (foldM_invariant (all_values is_dict)); [|apply all_values_nil].
  intros acc dc acc' Hacc H. bind_inv H. injection H as <-.
  apply all_values_set; [eexists; reflexivity | exact Hacc].
Qed.

Lemma get_clusters_shape (settings : pyval) (api : Api) (dcs cls : dict) :
  all_values is_dict dcs ->
  get_clusters settings api dcs = Ok cls ->
  all_values cluster_shape cls.
Proof.
  intros Hdcs. unfold get_clusters.
  apply (foldM_invariant (all_values cluster_shape)); [|apply all_values_nil].
  intros acc cl acc' Hacc H. bind_inv H. bind_inv H. bind_inv H.
  injection H as <-.
  apply all_values_set; [|exact Hacc].
  apply getitem_dict in E1 as (d & [= <-] & Hget).
  destruct (Hdcs _ (dict_get_values _ _ _ Hget)) as (dc & ->).
  exists (dict_set "data_center" (PDict dc) x), dc.
  split; [reflexivity | apply dict_get_set_same].
Qed.

Lemma cluster_lookup (cls : dict) (cid : scalar) (cl : pyval) :
  all_values cluster_shape cls ->
  getitem (PDict cls) cid = Ok cl -> cluster_shape cl.
Proof.
  intros Hcls H. apply getitem_dict in H as (d & [= <-] & Hget).
  exact (Hcls _ (dict_get_values _ _ _ Hget)).
Qed.

Lemma scalar_name (d : dict) (n : pyval) :
  all_values is_scalar d -> dict_get "name" d = Some n -> exists s, n = PS s.
Proof. intros Hd Hn. exact (Hd _ (dict_get_values _ _ _ Hn)). Qed.

Lemma get_hosts_shape (settings : pyval) (api : Api) (cls hs : dict) :
  all_values cluster_shape cls ->
  get_hosts settings api cls = Ok hs ->
  all_values entity_shape hs.
Proof.
  intros Hcls. unfold get_hosts.
  apply (foldM_invariant (all_values entity_shape)); [|apply all_values_nil].
  intros acc host acc' Hacc H. bind_inv H. bind_inv H. bind_inv H.
  injection H as <-.
  apply all_values_set; [|exact Hacc].
  destruct (cluster_lookup _ _ _ Hcls E1) as (c & dc & -> & Hdc).
  eexists _, c, dc. split; [reflexivity|]. split; [|split].
  - intros n. repeat (rewrite dict_get_set_other by reflexivity).
    apply scalar_name. exact (get_dict_from_object_scalars _ _ _ _ E).
  - rewrite dict_get_set_other by reflexivity. apply dict_get_set_same.
  - exact Hdc.
Qed.

Lemma get_vm_shape (settings : pyval) (api : Api) (cls : dict) (vm : Vm)
    (d : dict) :
  all_values cluster_shape cls ->
  get_vm settings api cls vm = Ok d ->
  vm_shape (PDict d).
Proof.
  intros Hcls H. pose proof (get_vm_nics _ _ _ _ _ H) as Hnics.
  unfold get_vm in H.
  bind_inv H. bind_inv H. bind_inv H. bind_inv H. bind_inv H.
  bind_inv H. bind_inv H. bind_inv H.
  injection H as <-.
  destruct (cluster_lookup _ _ _ Hcls E6) as (c & dc & -> & Hdc).
  split.
  - eexists _, c, dc. split; [reflexivity|]. split; [|split].
    + intros n. repeat (rewrite dict_get_set_other by reflexivity).
      apply scalar_name. exact (get_dict_from_object_scalars _ _ _ _ E).
    + apply dict_get_set_same.
    + exact Hdc.
  - eexists (nics_of (vm_devices vm)), _, _. split; [|split; [|split]].
    + cbn [getitem]. rewrite Hnics. reflexivity.
    + apply nics_of_shape.
    + cbn [getitem].
      repeat (rewrite dict_get_set_other by reflexivity).
      rewrite dict_get_set_same. reflexivity.
    + cbn [getitem].
      repeat (rewrite dict_get_set_other by reflexivity).
      rewrite dict_get_set_same. reflexivity.
Qed.

Lemma get_vms_shape (settings : pyval) (api : Api) (cls vs : dict) :
  all_values cluster_shape cls ->
  get_vms settings api cls = Ok vs ->
  all_values vm_shape vs.
Proof.
  intros Hcls. unfold get_vms.
  apply (foldM_invariant (all_values vm_shape)); [|apply all_values_nil].
  intros acc vm acc' Hacc H. bind_inv H. injection H as <-.
  apply all_values_set; [|exact Hacc].
  exact (get_vm_shape _ _ _ _ _ Hcls E).
Qed.

Lemma retrieve_shapes (settings : pyval) (api : Api) (hs vs : dict) :
  retrieve settings api = Ok (hs, vs) ->
  all_values entity_shape hs /\ all_values vm_shape vs.
Proof.
  unfold retrieve. intros H.
  bind_inv H. bind_inv H. bind_inv H. bind_inv H. injection H as <- <-.
  pose proof (get_clusters_shape _ _ _ _
                (get_data_centers_dicts _ _ _ E) E0) as Hcls.
  split; [exact (get_hosts_shape _ _ _ _ Hcls E1)
         | exact (get_vms_shape _ _ _ _ Hcls E2)].
Qed.

(** *** The steps keep the shape of the inventory *)

Lemma initial_inventory_shape : inventory_shape initial_inventory.
Proof.
  split; [|split; [|split]]; try reflexivity.
  - eexists _, _. split; reflexivity.
  - intros k v. unfold initial_inventory. cbn [dict_get].
    destruct (scalar_eqb "_meta" k); [auto|].
    destruct (scalar_eqb "all" k); [auto|].
    destruct (scalar_eqb "ovirt_hosts" k);
      [intros [= <-]; right; right; eexists _, _; split; reflexivity|].
    destruct (scalar_eqb "ovirt_vms" k);
      [intros [= <-]; right; right; eexists _, _; split; reflexivity|].
    discriminate.
Qed.

Lemma inventory_shape_set_group (inv : dict) (name : string) (v : pyval) :
  inventory_shape inv ->
  String.eqb name "_meta" = false ->
  group_shape v ->
  inventory_shape (dict_set name v inv).
Proof.
  intros (Hmeta & Hh & Hv & Hall) Hname Hg.
  split; [|split; [|split]].
  - rewrite dict_get_set_other by exact Hname. exact Hmeta.
  - apply dict_mem_set, Hh.
  - apply dict_mem_set, Hv.
  - intros k w. rewrite dict_get_set.
    destruct (scalar_eqb name k); [intros [= <-]; auto | apply Hall].
Qed.

Lemma group_lookup (inv : dict) (name : string) (v : pyval) :
  inventory_shape inv ->
  String.eqb "_meta" name = false ->
  String.eqb "all" name = false ->
  dict_get name inv = Some v ->
  group_shape v.
Proof.
  intros (_ & _ & _ & Hall) Hm Ha Hget.
  destruct (Hall _ _ Hget) as [H|[H|H]]; [| |exact H];
    cbn [scalar_eqb] in H; congruence.
Qed.

Lemma append_group (inv : dict) (name : string) (g : dict) (l : list pyval)
    (x : pyval) :
  inventory_shape inv ->
  String.eqb name "_meta" = false ->
  dict_get name inv = Some (PDict g) ->
  dict_get "hosts" g = Some (PList l) ->
  (g' <- getitem (PDict inv) name ;;
   members <- getitem g' "hosts" ;;
   members <- append_item members x ;;
   g' <- setitem g' "hosts" members ;;
   Ok (dict_set name g' inv))
  = Ok (dict_set name (PDict (dict_set "hosts" (PList (l ++ [x])%list) g)) inv)
  /\ inventory_shape
       (dict_set name (PDict (dict_set "hosts" (PList (l ++ [x])%list) g)) inv).
Proof.
  intros Hinv Hname Hget Hhosts. split.
  - cbn [getitem]. rewrite Hget. cbn [bind getitem]. rewrite Hhosts.
    reflexivity.
  - apply inventory_shape_set_group; [exact Hinv | exact Hname |].
    eexists _, _. split; [reflexivity | apply dict_get_set_same].
Qed.

Lemma add_host_to_group_shape (inv : dict) (host : pyval) (group : string) :
  inventory_shape inv ->
  String.eqb group "_meta" = false ->
  String.eqb "_meta" group = false ->
  String.eqb "all" group = false ->
  exists inv', add_host_to_group inv host group = Ok inv' /\
               inventory_shape inv'.
Proof.
  intros Hinv Hg Hm Ha. unfold add_host_to_group.
  set (inv1 := if negb (dict_mem group inv)
               then dict_set group (PDict [(SStr "hosts", PList [])]) inv
               else inv).
  assert (H1 : inventory_shape inv1 /\ exists v, dict_get group inv1 = Some v).
  { unfold inv1, dict_mem.
    destruct (dict_get group inv) as [v|] eqn:E; cbn [negb].
    - split; [exact Hinv | eauto].
    - split; [|rewrite dict_get_set_same; eauto].
      apply inventory_shape_set_group; [exact Hinv | exact Hg |].
      eexists _, _. split; reflexivity. }
  destruct H1 as (Hinv1 & v & Hv).
  destruct (group_lookup _ _ _ Hinv1 Hm Ha Hv) as (g & l & -> & Hl).
  destruct (append_group _ _ _ _ host Hinv1 Hg Hv Hl) as (Heq & Hshape).
  eexists. split; [exact Heq | exact Hshape].
Qed.

Lemma append_to_shape (inv : dict) (top : string) (name : pyval) :
  inventory_shape inv ->
  String.eqb top "_meta" = false ->
  String.eqb "_meta" top = false ->
  String.eqb "all" top = false ->
  dict_mem top inv = true ->
  exists inv', append_to inv top name = Ok inv' /\ inventory_shape inv'.
Proof.
  intros Hinv Ht Hm Ha Hmem. unfold append_to. unfold dict_mem in Hmem.
  destruct (dict_get top inv) as [v|] eqn:Hv; [|discriminate].
  destruct (group_lookup _ _ _ Hinv Hm Ha Hv) as (g & l & -> & Hl).
  destruct (append_group _ _ _ _ name Hinv Ht Hv Hl) as (Heq & Hshape).
  eexists. split; [exact Heq | exact Hshape].
Qed.

Lemma set_hostvars_shape (inv : dict) (value entry : pyval) :
  inventory_shape inv ->
  entity_shape value ->
  ok_or_key_error inventory_shape (set_hostvars inv value entry).
Proof.
  intros (Hmeta & Hh & Hv & Hall) (d & c & dc & -> & Hname & _).
  destruct Hmeta as (m & hv & Hm & Hhv).
  unfold set_hostvars. cbn [getitem]. rewrite Hm. cbn [bind getitem].
  rewrite Hhv. cbn [bind].
  destruct (dict_get "name" d) as [n|] eqn:Hn; [|reflexivity].
  destruct (Hname n eq_refl) as (s & ->). cbn [bind as_key setitem].
  split; [|split; [|split]].
  - eexists _, _. split; [apply dict_get_set_same | apply dict_get_set_same].
  - apply dict_mem_set, Hh.
  - apply dict_mem_set, Hv.
  - intros k w. rewrite dict_get_set.
    destruct (scalar_eqb "_meta" k) eqn:Ek; [auto|].
    intros Hw. destruct (Hall _ _ Hw) as [H|H]; [congruence | auto].
Qed.

Lemma add_to_cluster_groups_shape (inv : dict) (value : pyval) :
  inventory_shape inv ->
  entity_shape value ->
  ok_or_key_error inventory_shape (add_to_cluster_groups inv value).
Proof.
  intros Hinv (d & c & dc & -> & _ & Hc & Hdc).
  unfold add_to_cluster_groups. cbn [getitem].
  destruct (dict_get "name" d) as [n|]; [|reflexivity].
  rewrite Hc. cbn [bind getitem]. rewrite Hdc. cbn [bind getitem].
  destruct (dict_get "name" dc) as [dc_name|]; [|reflexivity].
  cbn [bind].
  destruct (add_host_to_group_shape inv n
              ("ovirt_data_center_" ++ py_str dc_name) Hinv
              eq_refl eq_refl eq_refl) as (inv1 & -> & Hinv1).
  cbn [bind].
  destruct (dict_get "name" c) as [cl_name|]; [|reflexivity].
  cbn [bind].
  destruct (add_host_to_group_shape inv1 n
              ("ovirt_cluster_" ++ py_str cl_name) Hinv1
              eq_refl eq_refl eq_refl) as (inv2 & -> & Hinv2).
  exact Hinv2.
Qed.

Lemma host_entry_key_error (value : pyval) :
  entity_shape value ->
  ok_or_key_error (fun _ => True) (host_entry value).
Proof.
  intros (d & c & dc & -> & _). unfold host_entry. cbn [getitem].
  destruct (dict_get "address" d) as [a|]; [|reflexivity].
  cbn [bind].
  destruct (dict_get "id" d) as [i|]; [|reflexivity].
  cbn [bind].
  destruct (negb (py_eqb a i)); exact I.
Qed.

Lemma host_step_shape (inv : dict) (value : pyval) :
  inventory_shape inv ->
  entity_shape value ->
  ok_or_key_error inventory_shape (host_step inv value).
Proof.
  intros Hinv Hvalue. unfold host_step.
  apply (ok_or_key_error_bind (fun _ => True));
    [exact (host_entry_key_error _ Hvalue)|].
  intros entry _ _.
  apply (ok_or_key_error_bind inventory_shape);
    [exact (set_hostvars_shape _ _ entry Hinv Hvalue)|].
  intros inv1 _ Hinv1.
  pose proof Hvalue as (d & c & dc & -> & _).
  cbn [getitem].
  destruct (dict_get "name" d) as [n|]; [|reflexivity].
  cbn [bind].
  destruct (append_to_shape inv1 "ovirt_hosts" n Hinv1 eq_refl eq_refl eq_refl)
    as (inv2 & -> & Hinv2); [apply Hinv1|].
  cbn [bind].
  exact (add_to_cluster_groups_shape _ _ Hinv2 Hvalue).
Qed.

Lemma vm_entry_key_error (value : pyval) :
  vm_shape value ->
  ok_or_key_error (fun _ => True) (vm_entry value).
Proof.
  intros (_ & nics & tags & h & Hnics & Hshape & _).
  rewrite (vm_entry_nics _ _ Hnics).
  pose proof (first_addresses _ Hshape) as Hfirst.
  destruct nics as [|[k0 nic0] nics]; [exact I|].
  cbn [dict_values map snd] in *.
  destruct (forallb has_ips (nic0 :: map snd nics)).
  - destruct Hfirst as (firsts & -> & ip & ips & rest & _ & ->). exact I.
  - rewrite Hfirst. reflexivity.
Qed.

Lemma tag_groups_shape (name : pyval) (tags : list pyval) :
  forall inv,
    inventory_shape inv ->
    exists inv',
      foldM (fun inventory tag =>
               add_host_to_group inventory name ("ovirt_tag_" ++ py_str tag))
            inv tags = Ok inv' /\
      inventory_shape inv'.
Proof.
  induction tags as [|tag tags IH]; intros inv Hinv.
  - exists inv. split; [reflexivity | exact Hinv].
  - destruct (add_host_to_group_shape inv name ("ovirt_tag_" ++ py_str tag)
                Hinv eq_refl eq_refl eq_refl) as (inv1 & Hadd & Hinv1).
    destruct (IH _ Hinv1) as (inv' & Hfold & Hinv').
    exists inv'. split; [|exact Hinv'].
    cbn [foldM]. rewrite Hadd. exact Hfold.
Qed.

Lemma vm_step_shape (inv : dict) (value : pyval) :
  inventory_shape inv ->
  vm_shape value ->
  ok_or_key_error inventory_shape (vm_step inv value).
Proof.
  intros Hinv Hvm. pose proof Hvm as (Hvalue & nics & tags & h & _ & _ & Ht & Hh).
  unfold vm_step.
  apply (ok_or_key_error_bind (fun _ => True));
    [exact (vm_entry_key_error _ Hvm)|].
  intros entry _ _.
  apply (ok_or_key_error_bind inventory_shape);
    [exact (set_hostvars_shape _ _ entry Hinv Hvalue)|].
  intros inv1 _ Hinv1.
  destruct (getitem value "name") as [n|e] eqn:Hn.
  2:{ destruct Hvalue as (d & c & dc & -> & _). cbn [getitem] in Hn.
      destruct (dict_get "name" d); [discriminate|].
      injection Hn as <-. reflexivity. }
  cbn [bind].
  destruct (append_to_shape inv1 "ovirt_vms" n Hinv1 eq_refl eq_refl eq_refl)
    as (inv2 & -> & Hinv2); [apply Hinv1|].
  cbn [bind].
  apply (ok_or_key_error_bind inventory_shape);
    [exact (add_to_cluster_groups_shape _ _ Hinv2 Hvalue)|].
  intros inv3 _ Hinv3.
  rewrite Ht. cbn [bind iter_of].
  destruct (tag_groups_shape n tags inv3 Hinv3) as (inv4 & -> & Hinv4).
  cbn [bind]. rewrite Hh. cbn [bind].
  destruct (truthy h); [|exact Hinv4].
  destruct (add_host_to_group_shape inv4 n ("ovirt_host_" ++ py_str h)
              Hinv4 eq_refl eq_refl eq_refl) as (inv5 & -> & Hinv5).
  exact Hinv5.
Qed.

Lemma group_entities_key_error (hs vs : dict) :
  all_values entity_shape hs ->
  all_values vm_shape vs ->
  ok_or_key_error inventory_shape (group_entities hs vs).
Proof.
  intros Hhs Hvs. unfold group_entities.
  apply (ok_or_key_error_bind inventory_shape).
  - apply foldM_ok_or_key_error; [|exact initial_inventory_shape].
    intros acc value Hin Hacc. exact (host_step_shape _ _ Hacc (Hhs _ Hin)).
  - intros inv _ Hinv.
    apply foldM_ok_or_key_error; [|exact Hinv].
    intros acc value Hin Hacc. exact (vm_step_shape _ _ Hacc (Hvs _ Hin)).
Qed.

(** Once the four collections are retrieved, building the inventory can
    only fail with a missing-key error. *)
Lemma build_inventory_key_error (settings : pyval) (api : Api) (hs vs : dict)
    (e : exn) :
  retrieve settings api = Ok (hs, vs) ->
  build_inventory settings api = Raise e ->
  exists k, e = KeyError k.
Proof.
  intros Hr Hb. rewrite (build_inventory_retrieved _ _ _ _ Hr) in Hb.
  destruct (retrieve_shapes _ _ _ _ Hr) as (Hhs & Hvs).
  pose proof (group_entities_key_error _ _ Hhs Hvs) as H.
  rewrite Hb in H. simpl in H.
  destruct e; try discriminate H. eauto.
Qed.

(** ** The main execution path *)

Lemma connect_after_read (config : ConfigParser) (settings : pyval)
    (tr : list event) :
  read_settings config = Ok settings ->
  connect settings tr = ((tr ++ [Connected])%list, Ok tt).
Proof.
  intros H.
  destruct (read_settings_shape _ _ H) as (url & us & pw & ca & Hshape).
  cbv zeta in Hshape.
  destruct (has_section config "format");
    [destruct Hshape as (flag & ->) | subst settings]; reflexivity.
Qed.

(** The runs of the script, case by case. *)
Lemma run_cases
    (json_dumps : pyval -> bool -> option nat -> result string)
    (cl : Cli.CommandLine) (config : ConfigParser) (api : Api) :
  run json_dumps cl config api
  = match read_settings config with
    | Raise e => ([], Raise e)
    | Ok settings =>
        match build_inventory settings api with
        | Raise e => ([Connected], Raise e)
        | Ok inventory =>
            match select_output json_dumps (parse_cli_args cl) inventory with
            | Raise e => ([Connected], Raise e)
            | Ok (Some s) => ([Connected; Closed; Printed s], Ok tt)
            | Ok None =>
                ([Connected; Closed],
                 Raise (UnboundLocalError "data_to_print"))
            end
        end
    end.
Proof.
  unfold run, main. cbv zeta. unfold io_bind at 1. unfold lift at 1.
  destruct (read_settings config) as [settings|e] eqn:Hread; [|reflexivity].
  unfold io_bind at 1. rewrite (connect_after_read _ _ _ Hread).
  unfold io_bind at 1. unfold lift at 1.
  destruct (build_inventory settings api) as [inventory|e]; [|reflexivity].
  unfold io_bind at 1. unfold lift at 1.
  destruct (select_output json_dumps (parse_cli_args cl) inventory)
    as [[s|]|e]; reflexivity.
Qed.

Lemma select_output_list
    (json_dumps : pyval -> bool -> option nat -> result string)
    (cl : Cli.CommandLine) (inventory : dict) :
  select_output json_dumps (parse_cli_args cl) inventory
  = match Cli.given_host cl with
    | Some "" | None =>
        s <- json_dumps (PDict inventory) true (Some 2%nat) ;; Ok (Some s)
    | Some name =>
        entry <- hostvars_get inventory name ;;
        s <- json_dumps entry true (Some 2%nat) ;; Ok (Some s)
    end.
Proof.
  unfold select_output, parse_cli_args, json_format_dict, hostvars_get.
  cbn [Cli.host Cli.list].
  destruct (Cli.given_host cl) as [[|c name]|];
    destruct (Cli.given_list cl); cbn [truthy PStr String.eqb negb];
    try reflexivity;
    destruct (getitem (PDict inventory) "_meta") as [meta|e]; cbn [bind];
    try reflexivity;
    destruct (getitem meta "hostvars") as [hv|e]; cbn [bind];
    reflexivity.
Qed.

(** C7, as stated: [--host] with an empty name is taken as no [--host]
    at all, and the whole inventory is printed although the name is not a
    key of the host variables. *)
Lemma absent_host_may_print :
  ~ (forall (name : string) (inv hv : dict),
        build_inventory (Ex.settings false) Ex.empty_api = Ok inv ->
        hostvars_of inv = Ok (PDict hv) ->
        dict_mem name hv = false ->
        exists tr e,
          run Json.dumps (Ex.command_line (Some name) false)
              (Ex.config "false") Ex.empty_api = (tr, Raise e)).
Proof.
  intros H.
  destruct (H "" initial_inventory [] eq_refl eq_refl eq_refl)
    as (tr & e & Hrun).
  vm_compute in Hrun. discriminate Hrun.
Qed.

(** C7, amended: with [--host NAME] for a NAME that is not empty and not
    a key of the host variables, the run ends in the lookup error for
    NAME, with the session opened and nothing printed. *)
Theorem absent_host_fails
    (json_dumps : pyval -> bool -> option nat -> result string)
    (cl : Cli.CommandLine) (config : ConfigParser) (api : Api)
    (settings : pyval) (inv hv : dict) (name : string) :
  Cli.given_host cl = Some name ->
  String.eqb name "" = false ->
  read_settings config = Ok settings ->
  build_inventory settings api = Ok inv ->
  hostvars_of inv = Ok (PDict hv) ->
  dict_mem name hv = false ->
  run json_dumps cl config api = ([Connected], Raise (KeyError name)) /\
  printed (fst (run json_dumps cl config api)) = false.
Proof.
  intros Hhost Hname Hread Hbuild Hhv Hmem.
  assert (Hrun : run json_dumps cl config api
                 = ([Connected], Raise (KeyError name))).
  { rewrite run_cases, Hread, Hbuild, select_output_list, Hhost.
    destruct name as [|c name]; [discriminate Hname|].
    unfold hostvars_get. unfold hostvars_of in Hhv.
    destruct (getitem (PDict inv) "_meta") as [meta|e]; cbn [bind] in *;
      [|discriminate].
    rewrite Hhv. cbn [bind getitem].
    unfold dict_mem in Hmem.
    destruct (dict_get (String c name) hv); [discriminate|reflexivity]. }
  rewrite Hrun. split; reflexivity.
Qed.

Lemma absent_host_fails_witness :
  run Json.dumps (Ex.command_line (Some "nobody") true) (Ex.config "false")
      Ex.api1
  = ([Connected], Raise (KeyError "nobody")) /\
  printed (fst (run Json.dumps (Ex.command_line (Some "nobody") true)
                    (Ex.config "false") Ex.api1)) = false.
Proof.
  refine (absent_host_fails Json.dumps (Ex.command_line (Some "nobody") true)
            (Ex.config "false") Ex.api1 (Ex.settings false) Ex.inventory1
            (match hostvars_of Ex.inventory1 with
             | Ok (PDict hv) => hv
             | _ => []
             end)
            "nobody" eq_refl eq_refl eq_refl eq_refl eq_refl eq_refl).
Defined.

(** C9, as stated: when building the inventory raises, the run ends with
    the session opened and never closed. *)
Lemma session_left_open :
  ~ (forall (config : ConfigParser) (api : Api) (settings : pyval) (e : exn),
        read_settings config = Ok settings ->
        build_inventory settings api = Raise e ->
        closes (fst (run Json.dumps (Ex.command_line None false) config api))
        = 1%nat).
Proof.
  intros H.
  specialize (H Ex.config_no_format Ex.api1 _ (KeyError "format")
                eq_refl eq_refl).
  vm_compute in H. discriminate H.
Qed.

(** C9, amended: a run that prints, in either output mode, has opened
    the session, closed it once and then printed, and has ended well; a
    run in which building the inventory raises ends with that error after
    opening the session, without closing it. *)
Theorem session_closed_before_output
    (json_dumps : pyval -> bool -> option nat -> result string)
    (cl : Cli.CommandLine) (config : ConfigParser) (api : Api) :
  (forall tr r,
      run json_dumps cl config api = (tr, r) ->
      printed tr = true \/ r = Ok tt ->
      exists s, tr = [Connected; Closed; Printed s] /\ r = Ok tt) /\
  (forall settings e,
      read_settings config = Ok settings ->
      build_inventory settings api = Raise e ->
      run json_dumps cl config api = ([Connected], Raise e)).
Proof.
  split.
  - intros tr r Hrun Hseen. rewrite run_cases in Hrun.
    destruct (read_settings config) as [settings|e].
    2:{ injection Hrun as <- <-. destruct Hseen; discriminate. }
    destruct (build_inventory settings api) as [inv|e].
    2:{ injection Hrun as <- <-. destruct Hseen; discriminate. }
    destruct (select_output json_dumps (parse_cli_args cl) inv)
      as [[s|]|e]; injection Hrun as <- <-.
    + exists s. auto.
    + destruct Hseen; discriminate.
    + destruct Hseen; discriminate.
  - intros settings e Hread Hbuild.
    rewrite run_cases, Hread, Hbuild. reflexivity.
Qed.

Lemma session_closed_before_output_witness :
  (exists s,
      fst (run Json.dumps (Ex.command_line (Some "web1") false)
               (Ex.config "false") Ex.api1)
      = [Connected; Closed; Printed s] /\
      snd (run Json.dumps (Ex.command_line (Some "web1") false)
               (Ex.config "false") Ex.api1) = Ok tt) /\
  run Json.dumps (Ex.command_line (Some "web1") false) (Ex.config "false")
      Ex.api_bare
  = ([Connected], Raise (KeyError "ip_addresses")).
Proof.
  split.
  - refine (proj1 (session_closed_before_output Json.dumps
                     (Ex.command_line (Some "web1") false)
                     (Ex.config "false") Ex.api1) _ _ _ _).
    + apply surjective_pairing.
    + left. vm_compute. reflexivity.
  - refine (proj2 (session_closed_before_output Json.dumps
                     (Ex.command_line (Some "web1") false)
                     (Ex.config "false") Ex.api_bare)
              (Ex.settings false) (KeyError "ip_addresses") eq_refl _).
    vm_compute. reflexivity.
Defined.

Lemma select_output_pretty
    (json_dumps : pyval -> bool -> option nat -> result string)
    (cl : Cli.CommandLine) (p : bool) (inventory : dict) :
  select_output json_dumps (parse_cli_args (with_pretty cl p)) inventory
  = select_output json_dumps (parse_cli_args cl) inventory.
Proof. rewrite !select_output_list. reflexivity. Qed.

(** C2: the run does not depend on [--pretty]; what is printed is always
    the rendering with sorted keys and an indentation of two.  Without
    [--pretty], on an empty inventory, the printed text is the indented
    one, which has line breaks, and not the compact one, which has
    none. *)
Theorem pretty_flag_ignored :
  (forall json_dumps cl p config api,
      run json_dumps (with_pretty cl p) config api
      = run json_dumps cl config api) /\
  exists indented compact,
    Json.dumps (PDict initial_inventory) true (Some 2%nat) = Ok indented /\
    Json.dumps (PDict initial_inventory) false None = Ok compact /\
    mem_char "010" indented = true /\
    mem_char "010" compact = false /\
    run Json.dumps (Ex.command_line None false) (Ex.config "false")
        Ex.empty_api
    = ([Connected; Closed; Printed indented], Ok tt).
Proof.
  split.
  - intros json_dumps cl p config api.
    rewrite !run_cases.
    destruct (read_settings config) as [settings|e]; [|reflexivity].
    destruct (build_inventory settings api) as [inv|e]; [|reflexivity].
    rewrite select_output_pretty. reflexivity.
  - destruct (Json.dumps (PDict initial_inventory) true (Some 2%nat))
      as [indented|e] eqn:Hi; [|vm_compute in Hi; discriminate Hi].
    destruct (Json.dumps (PDict initial_inventory) false None)
      as [compact|e] eqn:Hc; [|vm_compute in Hc; discriminate Hc].
    exists indented, compact.
    vm_compute in Hi. injection Hi as <-.
    vm_compute in Hc. injection Hc as <-.
    repeat split; vm_compute; reflexivity.
Qed.

(** C1: the names of the data center, of the cluster, of a tag and of
    the managing host go into the group names as they are.  The sanitizer
    would turn the spaces and the dots into underscores; the groups built
    carry the spaces and the dots, and no group has a sanitized name. *)
Theorem group_names_not_sanitized :
  build_inventory (Ex.settings false) Ex.api_names = Ok Ex.inventory_names /\
  (to_safe (Ex.settings false) "Main DC" = Ok "Main_DC" /\
   dict_mem "ovirt_data_center_Main DC" Ex.inventory_names = true /\
   dict_mem "ovirt_data_center_Main_DC" Ex.inventory_names = false) /\
  (to_safe (Ex.settings false) "prod.east" = Ok "prod_east" /\
   dict_mem "ovirt_cluster_prod.east" Ex.inventory_names = true /\
   dict_mem "ovirt_cluster_prod_east" Ex.inventory_names = false) /\
  (to_safe (Ex.settings false) "front end" = Ok "front_end" /\
   dict_mem "ovirt_tag_front end" Ex.inventory_names = true /\
   dict_mem "ovirt_tag_front_end" Ex.inventory_names = false) /\
  (to_safe (Ex.settings false) "node 1.lab" = Ok "node_1_lab" /\
   dict_mem "ovirt_host_node 1.lab" Ex.inventory_names = true /\
   dict_mem "ovirt_host_node_1_lab" Ex.inventory_names = false).
Proof. repeat split; vm_compute; reflexivity. Qed.

(** ** Affinity groups *)

Lemma dict_set_not_empty (k : scalar) (v : pyval) (d : dict) :
  dict_set k v d <> [].
Proof.
  destruct d as [|[k0 v0] d]; simpl; [discriminate|].
  destruct (scalar_eqb k0 k); discriminate.
Qed.

Lemma get_affinity_groups_not_empty (settings : pyval) (api : Api)
    (cid : scalar) (groups : dict) :
  affinity_groups api cid <> [] ->
  get_affinity_groups settings api (Some cid) = Ok groups ->
  groups <> [].
Proof.
  unfold get_affinity_groups. cbn [attr_of bind].
  assert (Hgen : forall l acc,
             (l <> [] \/ acc <> []) ->
             foldM (fun groups affinity_group =>
                      d <- get_dict_from_object settings
                             (ag_vars affinity_group) "" ;;
                      Ok (dict_set (ag_id affinity_group) (PDict d) groups))
                   acc l = Ok groups ->
             groups <> []).
  { induction l as [|g l IH]; intros acc Hne H; simpl in H.
    - injection H as <-. destruct Hne as [Hl|Hacc]; [congruence|exact Hacc].
    - bind_inv H. bind_inv E. injection E as <-.
      apply (IH _ (or_intror (dict_set_not_empty _ _ _)) H). }
  intros Hne. apply Hgen. left; exact Hne.
Qed.

Lemma affinity_group_names_raise (name : scalar) (groups : dict) :
  groups <> [] ->
  exists e, affinity_group_names name groups = Raise e.
Proof.
  destruct groups as [|[k v] groups]; [congruence|]. intros _.
  eexists. reflexivity.
Qed.

(** Whenever the cluster of a VM lists an affinity group, the projection
    of the VM raises. *)
Lemma get_vm_with_affinity_group (settings : pyval) (api : Api) (cls : dict)
    (vm : Vm) (cid : scalar) :
  vm_cluster vm = Some cid ->
  affinity_groups api cid <> [] ->
  exists e, get_vm settings api cls vm = Raise e.
Proof.
  intros Hc Hne. unfold get_vm.
  destruct (get_dict_from_object settings (vm_vars vm) "") as [d|e];
    cbn [bind]; [|eauto].
  destruct (attr_of (vm_os vm) "type") as [os|e]; cbn [bind]; [|eauto].
  destruct (attr_of (vm_template vm) "name") as [t|e]; cbn [bind]; [|eauto].
  destruct (statistics_of (vm_statistics vm)) as [st|e]; cbn [bind];
    [|eauto].
  rewrite Hc.
  destruct (get_affinity_groups settings api (Some cid)) as [groups|e] eqn:Hg;
    cbn [bind]; [|eauto].
  destruct (affinity_group_names_raise (vm_name vm) groups
              (get_affinity_groups_not_empty _ _ _ _ Hne Hg)) as (e & ->).
  cbn [bind]. eauto.
Qed.

(** C5: for a VM that belongs to the one affinity group of its cluster,
    no list of group names is computed: the comprehension asks the key of
    the group, a text, for its [vms], and retrieving the VMs raises. *)
Theorem affinity_groups_of_member_raise :
  get_affinity_groups (Ex.settings false) Ex.api_affinity (Some (SStr "cl-1"))
  = Ok [(SStr "ag-1",
         PDict [(SStr "id", PStr "ag-1"); (SStr "name", PStr "web tier")])] /\
  affinity_group_names (vm_name Ex.web1)
    [(SStr "ag-1",
      PDict [(SStr "id", PStr "ag-1"); (SStr "name", PStr "web tier")])]
  = Raise (AttributeError "str" "vms") /\
  build_inventory (Ex.settings false) Ex.api_affinity
  = Raise (AttributeError "str" "vms").
Proof. repeat split; vm_compute; reflexivity. Qed.

(** ** Connection hint of a VM *)

(** C10: for a retrieved VM, the variables entered under its name are
    those of [vm_entry].  With no nic they hold no [ansible_host]; when
    every nic has [ip_addresses] they hold the first address of the first
    nic; when a nic has no [ip_addresses] the missing-key error is raised
    for it, building the inventory fails with a missing-key error and so
    does every run on these settings. *)
Theorem vm_connection_hint (settings : pyval) (api : Api) (hs vs : dict)
    (value : pyval) :
  retrieve settings api = Ok (hs, vs) ->
  In value (dict_values vs) ->
  exists nics,
    getitem value "nics" = Ok (PDict nics) /\
    (forall inv key,
        build_inventory settings api = Ok inv ->
        named key vs = [value] ->
        exists entry,
          vm_entry value = Ok entry /\ hostvars_get inv key = Ok entry) /\
    match dict_values nics with
    | [] => vm_entry value = Ok (PDict [(SStr "ovirt", value)])
    | first_nic :: _ =>
        if forallb has_ips (dict_values nics)
        then exists ip ips,
            getitem first_nic "ip_addresses" = Ok (PList (ip :: ips)) /\
            vm_entry value
            = Ok (PDict [(SStr "ovirt", value); (SStr "ansible_host", ip)])
        else vm_entry value = Raise (KeyError "ip_addresses") /\
             (exists k, build_inventory settings api = Raise (KeyError k)) /\
             forall json_dumps cl config,
               read_settings config = Ok settings ->
               exists k,
                 run json_dumps cl config api = ([Connected], Raise (KeyError k))
    end.
Proof.
  intros Hr Hin.
  destruct (retrieved_vm_nics _ _ _ _ _ Hr Hin) as (nics & Hnics & Hshape).
  exists nics. split; [exact Hnics|]. split.
  - intros inv key Hb Hname.
    rewrite (build_inventory_retrieved _ _ _ _ Hr) in Hb.
    unfold group_entities in Hb. bind_inv Hb.
    exact (loop_one_name vm_step vm_entry vm_step_get key value _ _ _
             Hb Hname).
  - rewrite (vm_entry_nics _ _ Hnics).
    pose proof (first_addresses _ Hshape) as Hfirst.
    destruct nics as [|[k0 nic0] nics]; [reflexivity|].
    cbn [dict_values map snd] in *.
    destruct (forallb has_ips (nic0 :: map snd nics)) eqn:Hall.
    + destruct Hfirst as (firsts & -> & ip & ips & rest & Hip & ->).
      exists ip, ips. split; [exact Hip | reflexivity].
    + rewrite Hfirst. split; [reflexivity|].
      assert (Hfail : exists e, build_inventory settings api = Raise e).
      { rewrite (build_inventory_retrieved _ _ _ _ Hr).
        unfold group_entities.
        destruct (foldM host_step initial_inventory (dict_values hs))
          as [inv1|e]; cbn [bind]; [|eauto].
        apply (foldM_raise vm_step value); [exact Hin|].
        intros acc. exists (KeyError "ip_addresses").
        unfold vm_step.
        rewrite (vm_entry_nics _ _ Hnics). cbn [dict_values map snd].
        rewrite Hfirst. reflexivity. }
      destruct Hfail as (e & Hfail).
      destruct (build_inventory_key_error _ _ _ _ _ Hr Hfail) as (k & ->).
      split; [exists k; exact Hfail|].
      intros json_dumps cl config Hread. exists k.
      rewrite run_cases, Hread, Hfail. reflexivity.
Qed.

Lemma vm_connection_hint_witness :
  exists nics,
    getitem (Ex.value_of Ex.retrieved_vms "vm-1") "nics" = Ok (PDict nics) /\
    (forall inv key,
        build_inventory (Ex.settings false) Ex.api1 = Ok inv ->
        named key Ex.retrieved_vms = [Ex.value_of Ex.retrieved_vms "vm-1"] ->
        exists entry,
          vm_entry (Ex.value_of Ex.retrieved_vms "vm-1") = Ok entry /\
          hostvars_get inv key = Ok entry) /\
    match dict_values nics with
    | [] => vm_entry (Ex.value_of Ex.retrieved_vms "vm-1")
            = Ok (PDict [(SStr "ovirt", Ex.value_of Ex.retrieved_vms "vm-1")])
    | first_nic :: _ =>
        if forallb has_ips (dict_values nics)
        then exists ip ips,
            getitem first_nic "ip_addresses" = Ok (PList (ip :: ips)) /\
            vm_entry (Ex.value_of Ex.retrieved_vms "vm-1")
            = Ok (PDict [(SStr "ovirt", Ex.value_of Ex.retrieved_vms "vm-1");
                         (SStr "ansible_host", ip)])
        else vm_entry (Ex.value_of Ex.retrieved_vms "vm-1")
             = Raise (KeyError "ip_addresses") /\
             (exists k,
                 build_inventory (Ex.settings false) Ex.api1
                 = Raise (KeyError k)) /\
             forall json_dumps cl config,
               read_settings config = Ok (Ex.settings false) ->
               exists k,
                 run json_dumps cl config Ex.api1
                 = ([Connected], Raise (KeyError k))
    end.
Proof.
  refine (vm_connection_hint (Ex.settings false) Ex.api1
            Ex.retrieved_hosts Ex.retrieved_vms
            (Ex.value_of Ex.retrieved_vms "vm-1") eq_refl _).
  vm_compute. left. reflexivity.
Defined.

(** * Further properties of the script *)

(** ** What the sanitizer returns *)

Lemma all_kept_no_dash (s : string) :
  Spec.all_kept true s = true -> mem_char "-" s = false.
Proof.
  induction s as [|c s IH]; simpl; [reflexivity|].
  intros H. apply andb_true_iff in H as [Hc Hs].
  rewrite (IH Hs), orb_false_r.
  destruct (Ascii.eqb_spec c "-") as [->|]; [discriminate Hc | reflexivity].
Qed.

Lemma strip_leading_length (s : string) :
  String.length (Spec.strip_leading_underscore s) <= String.length s /\
  String.length s <= S (String.length (Spec.strip_leading_underscore s)).
Proof.
  destruct s as [|c s]; [simpl; auto|].
  destruct c as [[] [] [] [] [] [] [] []]; simpl; auto.
Qed.

(** X1: whatever the word, the sanitizer returns text made only of
    letters, digits, underscores and, unless dashes are replaced, dashes;
    with dashes replaced the result has no dash.  The result is the
    length of the word or one character shorter. *)
Theorem to_safe_result_is_safe (settings flag : pyval) (word : string) :
  replace_dash_in_groups settings = Ok flag ->
  exists safe,
    to_safe settings word = Ok safe /\
    Spec.all_kept (truthy flag) safe = true /\
    (truthy flag = true -> mem_char "-" safe = false) /\
    String.length safe <= String.length word /\
    String.length word <= S (String.length safe).
Proof.
  intros Hflag. exists (Spec.sanitize (truthy flag) word).
  assert (Hkept : Spec.all_kept (truthy flag)
                    (Spec.sanitize (truthy flag) word) = true)
    by apply all_kept_strip, all_kept_replace_others.
  split; [exact (to_safe_sanitize settings flag Hflag word)|].
  split; [exact Hkept|]. split.
  - intros Ht. rewrite Ht in *. exact (all_kept_no_dash _ Hkept).
  - unfold Spec.sanitize.
    rewrite <- (replace_others_length (truthy flag) word).
    apply strip_leading_length.
Qed.

Lemma to_safe_result_is_safe_witness :
  exists safe,
    to_safe (Ex.settings true) "_rack-4 (east)" = Ok safe /\
    Spec.all_kept (truthy (PBool true)) safe = true /\
    (truthy (PBool true) = true -> mem_char "-" safe = false) /\
    String.length safe <= String.length "_rack-4 (east)" /\
    String.length "_rack-4 (east)" <= S (String.length safe).
Proof.
  exact (to_safe_result_is_safe (Ex.settings true) (PBool true)
           "_rack-4 (east)" eq_refl).
Defined.

(** ** Settings and the sanitizer *)

Lemma read_settings_format (config : ConfigParser) (settings : pyval) :
  read_settings config = Ok settings ->
  has_section config "format" = true ->
  exists flag,
    getboolean config "format" "replace_dash_in_groups" = Ok flag /\
    replace_dash_in_groups settings = Ok (PBool flag).
Proof.
  unfold read_settings. intros H Hsec.
  bind_inv H. bind_inv H. bind_inv H. bind_inv H.
  rewrite Hsec in H. bind_inv H. exists x3. split; [exact E3|].
  simpl in H. injection H as <-. reflexivity.
Qed.

(** X2: when the configuration has a [format] section and the settings
    are read, the sanitizer never raises: on every word it returns the
    sanitized text for the value [getboolean] gave for
    [replace_dash_in_groups]. *)
Theorem to_safe_after_read_settings (config : ConfigParser)
    (settings : pyval) :
  read_settings config = Ok settings ->
  has_section config "format" = true ->
  exists flag,
    getboolean config "format" "replace_dash_in_groups" = Ok flag /\
    forall word, to_safe settings word = Ok (Spec.sanitize flag word).
Proof.
  intros Hread Hsec.
  destruct (read_settings_format _ _ Hread Hsec) as (flag & Hget & Hflag).
  exists flag. split; [exact Hget|].
  intros word. exact (to_safe_sanitize settings (PBool flag) Hflag word).
Qed.

Lemma to_safe_after_read_settings_witness :
  exists flag,
    getboolean (Ex.config "Yes") "format" "replace_dash_in_groups" = Ok flag /\
    forall word, to_safe (Ex.settings true) word = Ok (Spec.sanitize flag word).
Proof.
  exact (to_safe_after_read_settings (Ex.config "Yes") (Ex.settings true)
           eq_refl eq_refl).
Defined.

(** ** The projection of an entity *)

Section Projection.

Variable settings : pyval.
Variable flag : pyval.
Hypothesis Hflag : replace_dash_in_groups settings = Ok flag.
Variable prefix : string.

Lemma projection_step (acc : dict) (name : string) (a : attr) (key : string) :
  dict_get key
    match a with
    | AInt z => dict_set (Spec.sanitize (truthy flag) (prefix ++ name)) (SInt z) acc
    | ABool b => dict_set (Spec.sanitize (truthy flag) (prefix ++ name)) (SBool b) acc
    | AText s => dict_set (Spec.sanitize (truthy flag) (prefix ++ name))
                   (PStr (strip s)) acc
    | ANone => dict_set (Spec.sanitize (truthy flag) (prefix ++ name)) PNone acc
    | AOther => acc
    end
  = if String.eqb (Spec.sanitize (truthy flag) (prefix ++ name)) key
    then match attr_value a with
         | Some v => Some v
         | None => dict_get key acc
         end
    else dict_get key acc.
Proof.
  destruct a; cbn [attr_value]; rewrite ?dict_get_set; cbn [scalar_eqb];
    try reflexivity.
  destruct (String.eqb _ key); reflexivity.
Qed.

Lemma projection_lookup (obj : obj_vars) :
  forall acc,
  exists d,
    foldM (fun object_vars kv =>
             key <- to_safe settings (prefix ++ fst kv) ;;
             Ok match snd kv with
                | AInt z => dict_set key (SInt z) object_vars
                | ABool b => dict_set key (SBool b) object_vars
                | AText s => dict_set key (PStr (strip s)) object_vars
                | ANone => dict_set key PNone object_vars
                | AOther => object_vars
                end) acc obj = Ok d /\
    forall key : string,
      dict_get key d
      = last_binding (truthy flag) prefix key obj (dict_get key acc).
Proof.
  induction obj as [|[name a] obj IH]; intros acc; cbn [foldM last_binding].
  - exists acc. auto.
  - cbn [fst snd].
    rewrite (to_safe_sanitize settings flag Hflag). cbn [bind].
    match goal with
    | |- context [foldM _ ?acc' obj] => destruct (IH acc') as (d & Hd & Hget)
    end.
    exists d. split; [exact Hd|].
    intros key. rewrite Hget, projection_step. reflexivity.
Qed.

End Projection.

(** X3: once the sanitizer works, the projection of an entity never
    raises, and what it binds to a key is the value of the last attribute
    that is an int, a bool, text (stripped) or [None] and whose sanitized
    name is that key.  An attribute of another kind binds nothing and
    leaves an earlier binding of its key in place. *)
Theorem get_dict_from_object_lookup (settings flag : pyval)
    (obj : obj_vars) (prefix : string) :
  replace_dash_in_groups settings = Ok flag ->
  exists d,
    get_dict_from_object settings obj prefix = Ok d /\
    forall key : string,
      dict_get key d = last_binding (truthy flag) prefix key obj None.
Proof.
  intros Hflag. unfold get_dict_from_object.
  exact (projection_lookup settings flag Hflag prefix obj []).
Qed.

Lemma get_dict_from_object_lookup_witness :
  exists d,
    get_dict_from_object (Ex.settings false)
      [("_name", AInt 5); ("name", AOther); ("_fqdn", AText " a.b ")] "" = Ok d /\
    forall key : string,
      dict_get key d
      = last_binding (truthy (PBool false)) "" key
          [("_name", AInt 5); ("name", AOther); ("_fqdn", AText " a.b ")] None.
Proof.
  exact (get_dict_from_object_lookup (Ex.settings false) (PBool false)
           [("_name", AInt 5); ("name", AOther); ("_fqdn", AText " a.b ")] ""
           eq_refl).
Defined.

Lemma dict_set_keys (k k' : scalar) (v : pyval) (d : dict) :
  In k (dict_keys (dict_set k' v d)) -> k = k' \/ In k (dict_keys d).
Proof.
  unfold dict_keys. induction d as [|[k0 v0] d IH]; simpl.
  - intros [<-|[]]; auto.
  - destruct (scalar_eqb k0 k'); simpl.
    + intros [<-|H]; auto.
    + intros [<-|H]; auto. destruct (IH H); auto.
Qed.

(** X4: every key of a projection is text made only of letters, digits,
    underscores and (unless dashes are replaced) dashes, and every value
    is a scalar: nested objects and lists never get in. *)
Theorem get_dict_from_object_entries (settings flag : pyval)
    (obj : obj_vars) (prefix : string) (d : dict) :
  replace_dash_in_groups settings = Ok flag ->
  get_dict_from_object settings obj prefix = Ok d ->
  (forall k, In k (dict_keys d) ->
     exists s, k = SStr s /\ Spec.all_kept (truthy flag) s = true) /\
  (forall v, In v (dict_values d) -> exists x, v = PS x).
Proof.
  intros Hflag H. split; [|exact (get_dict_from_object_scalars _ _ _ _ H)].
  revert H. unfold get_dict_from_object.
  apply (foldM_invariant
           (fun acc => forall k, In k (dict_keys acc) ->
              exists s, k = SStr s /\ Spec.all_kept (truthy flag) s = true)).
  - intros acc [name a] acc' Hacc H. cbn [fst snd] in H.
    rewrite (to_safe_sanitize settings flag Hflag) in H. cbn [bind] in H.
    injection H as <-.
    assert (Hnew : forall v k,
               In k (dict_keys (dict_set (Spec.sanitize (truthy flag)
                                            (prefix ++ name)) v acc)) ->
               exists s, k = SStr s /\ Spec.all_kept (truthy flag) s = true).
    { intros v k Hk. apply dict_set_keys in Hk as [->|Hk]; [|exact (Hacc _ Hk)].
      eexists. split; [reflexivity|].
      apply all_kept_strip, all_kept_replace_others. }
    destruct a; try exact Hacc; apply Hnew.
  - intros k [].
Qed.

Lemma get_dict_from_object_entries_witness :
  (forall k,
      In k (dict_keys [(SStr "id", PStr "h-1"); (SStr "name", PStr "node1");
                       (SStr "address", PStr "10.0.0.1")]) ->
      exists s, k = SStr s /\ Spec.all_kept (truthy (PBool false)) s = true) /\
  (forall v,
      In v (dict_values [(SStr "id", PStr "h-1"); (SStr "name", PStr "node1");
                         (SStr "address", PStr "10.0.0.1")]) ->
      exists x, v = PS x).
Proof.
  exact (get_dict_from_object_entries (Ex.settings false) (PBool false)
           (host_vars Ex.host1) "" _ eq_refl eq_refl).
Defined.

(** ** Without a [format] section *)






(** ** Which data make the retrieval fail *)

Lemma get_dict_from_object_total (settings flag : pyval) (obj : obj_vars)
    (prefix : string) :
  replace_dash_in_groups settings = Ok flag ->
  exists d, get_dict_from_object settings obj prefix = Ok d.
Proof.
  intros Hflag.
  destruct (projection_lookup settings flag Hflag prefix obj []) as (d & H & _).
  exists d. exact H.
Qed.

(** A loop whose turns fail exactly on the items without [p], whatever
    was accumulated, fails on the first of them. *)
Lemma foldM_first_failure {A B} (f : A -> B -> result A) (p : B -> bool)
    (err : B -> exn) :
  (forall acc x, p x = true -> exists acc', f acc x = Ok acc') ->
  (forall acc x, p x = false -> f acc x = Raise (err x)) ->
  forall xs acc,
    match find (fun x => negb (p x)) xs with
    | None => exists r, foldM f acc xs = Ok r
    | Some x => foldM f acc xs = Raise (err x)
    end.
Proof.
  intros Hok Hfail. induction xs as [|x xs IH]; intros acc; cbn [find foldM].
  - exists acc. reflexivity.
  - destruct (p x) eqn:Hp; cbn [negb].
    + destruct (Hok acc x Hp) as (acc' & ->). cbn [bind]. apply IH.
    + rewrite (Hfail acc x Hp). reflexivity.
Qed.

Lemma link_lookup (collection : dict) (link : option scalar) :
  if link_known collection link
  then exists id v, link = Some id /\
                    (id <- attr_of link "id" ;; getitem (PDict collection) id)
                    = Ok v
  else (id <- attr_of link "id" ;; getitem (PDict collection) id)
       = Raise (link_error link).
Proof.
  destruct link as [id|]; cbn [link_known attr_of bind getitem link_error];
    [|reflexivity].
  unfold dict_mem. destruct (dict_get id collection) as [v|]; eauto.
Qed.

(** X6: once the sanitizer works, [get_clusters] goes through exactly
    when every cluster has a data-center link whose id was retrieved;
    otherwise it raises for the first cluster that has not: an attribute
    error when the link is missing, the missing-key error for the id when
    the data center is unknown. *)
Theorem get_clusters_outcome (settings flag : pyval) (api : Api) (dcs : dict) :
  replace_dash_in_groups settings = Ok flag ->
  match find (fun c => negb (link_known dcs (cluster_data_center c)))
             (clusters api) with
  | None => exists cls, get_clusters settings api dcs = Ok cls
  | Some c =>
      get_clusters settings api dcs
      = Raise (link_error (cluster_data_center c))
  end.
Proof.
  intros Hflag. unfold get_clusters.
  apply (foldM_first_failure _
           (fun c => link_known dcs (cluster_data_center c))
           (fun c => link_error (cluster_data_center c))).
  - intros acc c Hc.
    destruct (get_dict_from_object_total settings flag (cluster_vars c) ""
                Hflag) as (d & ->). cbn [bind].
    pose proof (link_lookup dcs (cluster_data_center c)) as H.
    rewrite Hc in H. destruct H as (id & v & -> & H).
    cbn [attr_of bind] in *. rewrite H. cbn [bind]. eauto.
  - intros acc c Hc.
    destruct (get_dict_from_object_total settings flag (cluster_vars c) ""
                Hflag) as (d & ->). cbn [bind].
    pose proof (link_lookup dcs (cluster_data_center c)) as H.
    rewrite Hc in H.
    destruct (cluster_data_center c) as [id|]; cbn [attr_of bind] in *;
      [|reflexivity].
    rewrite H. reflexivity.
Qed.

Lemma get_clusters_outcome_witness :
  match find (fun c => negb (link_known [] (cluster_data_center c)))
             (clusters Ex.api1) with
  | None => exists cls, get_clusters (Ex.settings false) Ex.api1 [] = Ok cls
  | Some c =>
      get_clusters (Ex.settings false) Ex.api1 []
      = Raise (link_error (cluster_data_center c))
  end.
Proof.
  exact (get_clusters_outcome (Ex.settings false) (PBool false) Ex.api1 []
           eq_refl).
Defined.

(** X7: once the sanitizer works, [get_hosts] goes through exactly when
    every host has a cluster link whose id was retrieved; otherwise it
    raises for the first host that has not: an attribute error when the
    link is missing, the missing-key error for the id when the cluster is
    unknown.  No host is skipped. *)
Theorem get_hosts_outcome (settings flag : pyval) (api : Api) (cls : dict) :
  replace_dash_in_groups settings = Ok flag ->
  match find (fun h => negb (link_known cls (host_cluster h))) (hosts api) with
  | None => exists hs, get_hosts settings api cls = Ok hs
  | Some h => get_hosts settings api cls = Raise (link_error (host_cluster h))
  end.
Proof.
  intros Hflag. unfold get_hosts.
  apply (foldM_first_failure _
           (fun h => link_known cls (host_cluster h))
           (fun h => link_error (host_cluster h))).
  - intros acc h Hh.
    destruct (get_dict_from_object_total settings flag (host_vars h) ""
                Hflag) as (d & ->). cbn [bind].
    pose proof (link_lookup cls (host_cluster h)) as H.
    rewrite Hh in H. destruct H as (id & v & -> & H).
    cbn [attr_of bind] in *. rewrite H. cbn [bind]. eauto.
  - intros acc h Hh.
    destruct (get_dict_from_object_total settings flag (host_vars h) ""
                Hflag) as (d & ->). cbn [bind].
    pose proof (link_lookup cls (host_cluster h)) as H.
    rewrite Hh in H.
    destruct (host_cluster h) as [id|]; cbn [attr_of bind] in *;
      [|reflexivity].
    rewrite H. reflexivity.
Qed.

Lemma get_hosts_outcome_witness :
  match find (fun h => negb (link_known [] (host_cluster h)))
             (hosts Ex.api1) with
  | None => exists hs, get_hosts (Ex.settings false) Ex.api1 [] = Ok hs
  | Some h =>
      get_hosts (Ex.settings false) Ex.api1 []
      = Raise (link_error (host_cluster h))
  end.
Proof.
  exact (get_hosts_outcome (Ex.settings false) (PBool false) Ex.api1 []
           eq_refl).
Defined.

Lemma statistics_outcome (stats : list Statistic) :
  forall acc,
    if forallb has_values stats
    then exists d,
        foldM (fun acc stat =>
                 match stat_values stat with
                 | datum :: _ => Ok (dict_set (stat_name stat) datum acc)
                 | [] => Raise IndexError
                 end) acc stats = Ok d
    else foldM (fun acc stat =>
                  match stat_values stat with
                  | datum :: _ => Ok (dict_set (stat_name stat) datum acc)
                  | [] => Raise IndexError
                  end) acc stats = Raise IndexError.
Proof.
  induction stats as [|stat stats IH]; intros acc; cbn [forallb foldM].
  - exists acc. reflexivity.
  - unfold has_values at 1.
    destruct (stat_values stat) as [|datum rest]; cbn [andb bind];
      [reflexivity | apply IH].
Qed.

Lemma dict_set_head (k k0 : scalar) (v v0 : pyval) (rest : dict) :
  exists w rest', dict_set k v ((k0, v0) :: rest) = (k0, w) :: rest'.
Proof. simpl. destruct (scalar_eqb k0 k); eauto. Qed.

Lemma affinity_groups_head (settings flag : pyval) (groups : list AffinityGroup) :
  replace_dash_in_groups settings = Ok flag ->
  forall k0 v0 rest,
  exists w rest',
    foldM (fun groups affinity_group =>
             d <- get_dict_from_object settings (ag_vars affinity_group) "" ;;
             Ok (dict_set (ag_id affinity_group) (PDict d) groups))
          ((k0, v0) :: rest) groups
    = Ok ((k0, w) :: rest').
Proof.
  intros Hflag. induction groups as [|g groups IH]; intros k0 v0 rest;
    cbn [foldM].
  - eauto.
  - destruct (get_dict_from_object_total settings flag (ag_vars g) "" Hflag)
      as (d & ->). cbn [bind].
    destruct (dict_set_head (ag_id g) k0 (PDict d) v0 rest) as (w & rest' & ->).
    apply IH.
Qed.

Lemma get_affinity_groups_outcome (settings flag : pyval) (api : Api)
    (cid : scalar) :
  replace_dash_in_groups settings = Ok flag ->
  match affinity_groups api cid with
  | [] => get_affinity_groups settings api (Some cid) = Ok []
  | g :: _ =>
      exists w rest,
        get_affinity_groups settings api (Some cid) = Ok ((ag_id g, w) :: rest)
  end.
Proof.
  intros Hflag. unfold get_affinity_groups. cbn [attr_of bind].
  destruct (affinity_groups api cid) as [|g groups]; [reflexivity|].
  cbn [foldM].
  destruct (get_dict_from_object_total settings flag (ag_vars g) "" Hflag)
    as (d & ->). cbn [bind dict_set].
  apply (affinity_groups_head settings flag groups Hflag).
Qed.

Lemma get_vm_outcome (settings flag : pyval) (api : Api) (cls : dict)
    (vm : Vm) :
  replace_dash_in_groups settings = Ok flag ->
  if vm_retrievable api cls vm
  then exists d, get_vm settings api cls vm = Ok d
  else get_vm settings api cls vm = Raise (vm_error api vm).
Proof.
  intros Hflag. unfold get_vm, vm_retrievable, vm_error.
  destruct (get_dict_from_object_total settings flag (vm_vars vm) "" Hflag)
    as (d & ->). cbn [bind].
  destruct (vm_os vm) as [os|]; cbn [attr_of bind is_some andb];
    [|reflexivity].
  destruct (vm_template vm) as [template|]; cbn [attr_of bind is_some andb];
    [|reflexivity].
  unfold statistics_of.
  pose proof (statistics_outcome (vm_statistics vm) []) as Hstats.
  destruct (forallb has_values (vm_statistics vm)); cbn [andb negb];
    [|rewrite Hstats; reflexivity].
  destruct Hstats as (stats & ->). cbn [bind].
  destruct (vm_cluster vm) as [cid|]; [|reflexivity].
  pose proof (get_affinity_groups_outcome settings flag api cid Hflag) as Hag.
  destruct (affinity_groups api cid) as [|g groups].
  - rewrite Hag. cbn [bind affinity_group_names dict_keys map foldM attr_of].
    cbn [getitem]. unfold dict_mem.
    destruct (dict_get cid cls) as [cl|]; cbn [bind]; eauto.
  - destruct Hag as (w & rest & ->). reflexivity.
Qed.

(** X8: once the sanitizer works, [get_vms] goes through exactly when
    every VM has an operating system, a template, a sample for each of
    its statistics and a cluster that was retrieved and lists no affinity
    group; otherwise it raises the error of the first VM that has not, the
    one its statements meet first.  In particular a statistic without a
    sample raises the index error, and an affinity group in the cluster
    an attribute error. *)
Theorem get_vms_outcome (settings flag : pyval) (api : Api) (cls : dict) :
  replace_dash_in_groups settings = Ok flag ->
  match find (fun vm => negb (vm_retrievable api cls vm)) (vms api) with
  | None => exists vs, get_vms settings api cls = Ok vs
  | Some vm => get_vms settings api cls = Raise (vm_error api vm)
  end.
Proof.
  intros Hflag. unfold get_vms.
  apply (foldM_first_failure _ (vm_retrievable api cls) (vm_error api)).
  - intros acc vm Hvm.
    pose proof (get_vm_outcome settings flag api cls vm Hflag) as H.
    rewrite Hvm in H. destruct H as (d & ->). cbn [bind]. eauto.
  - intros acc vm Hvm.
    pose proof (get_vm_outcome settings flag api cls vm Hflag) as H.
    rewrite Hvm in H. rewrite H. reflexivity.
Qed.

Lemma get_vms_outcome_witness :
  match find (fun vm => negb (vm_retrievable Ex.api_affinity [] vm))
             (vms Ex.api_affinity) with
  | None => exists vs, get_vms (Ex.settings false) Ex.api_affinity [] = Ok vs
  | Some vm =>
      get_vms (Ex.settings false) Ex.api_affinity []
      = Raise (vm_error Ex.api_affinity vm)
  end.
Proof.
  exact (get_vms_outcome (Ex.settings false) (PBool false) Ex.api_affinity []
           eq_refl).
Defined.

(** ** References are resolved by value *)

(** Where the bindings of a dictionary built by a loop come from. *)
Lemma foldM_dict_origin {X} (step : dict -> X -> result dict)
    (key : X -> scalar) (Q : X -> pyval -> Prop) (xs : list X) :
  (forall acc x acc',
      step acc x = Ok acc' ->
      exists v, acc' = dict_set (key x) v acc /\ Q x v) ->
  forall acc r,
    foldM step acc xs = Ok r ->
    forall k v,
      dict_get k r = Some v ->
      dict_get k acc = Some v \/
      exists x, In x xs /\ scalar_eqb (key x) k = true /\ Q x v.
Proof.
  intros Hstep. induction xs as [|x xs IH]; intros acc r H k v Hk;
    cbn [foldM] in H.
  - injection H as <-. left; exact Hk.
  - bind_inv H.
    destruct (IH _ _ H k v Hk) as [Hacc|(y & Hy & Hky & HQ)].
    + destruct (Hstep _ _ _ E) as (v0 & -> & HQ).
      rewrite dict_get_set in Hacc.
      destruct (scalar_eqb (key x) k) eqn:Ek; [|left; exact Hacc].
      injection Hacc as <-. right. exists x. simpl; auto.
    + right. exists y. simpl; auto.
Qed.

Lemma foldM_values_origin {X} (step : dict -> X -> result dict)
    (key : X -> scalar) (Q : X -> pyval -> Prop) (xs : list X) :
  (forall acc x acc',
      step acc x = Ok acc' ->
      exists v, acc' = dict_set (key x) v acc /\ Q x v) ->
  forall acc r,
    foldM step acc xs = Ok r ->
    forall v,
      In v (dict_values r) ->
      In v (dict_values acc) \/ exists x, In x xs /\ Q x v.
Proof.
  intros Hstep. induction xs as [|x xs IH]; intros acc r H v Hv;
    cbn [foldM] in H.
  - injection H as <-. left; exact Hv.
  - bind_inv H.
    destruct (IH _ _ H v Hv) as [Hacc|(y & Hy & HQ)].
    + destruct (Hstep _ _ _ E) as (v0 & -> & HQ).
      apply dict_set_values in Hacc as [->|Hacc]; [|left; exact Hacc].
      right. exists x. simpl; auto.
    + right. exists y. simpl; auto.
Qed.

Lemma get_data_centers_origin (settings : pyval) (api : Api) (dcs : dict)
    (k : scalar) (dc : pyval) :
  get_data_centers settings api = Ok dcs ->
  dict_get k dcs = Some dc ->
  exists d proj,
    In d (data_centers api) /\ scalar_eqb (dc_id d) k = true /\
    get_dict_from_object settings (dc_vars d) "" = Ok proj /\
    dc = PDict proj.
Proof.
  unfold get_data_centers. intros H Hk.
  edestruct (fun Hs => foldM_dict_origin _ dc_id
              (fun d v => exists proj,
                   get_dict_from_object settings (dc_vars d) "" = Ok proj /\
                   v = PDict proj)
              (data_centers api) Hs _ _ H k dc Hk)
    as [Habs|(d & Hd & Hkd & proj & Hp & ->)].
  - intros acc x acc' Hs. bind_inv Hs. injection Hs as <-. eauto.
  - discriminate Habs.
  - exists d, proj. auto.
Qed.

Lemma get_clusters_origin (settings : pyval) (api : Api) (dcs cls : dict)
    (k : scalar) (cl : pyval) :
  get_clusters settings api dcs = Ok cls ->
  dict_get k cls = Some cl ->
  exists c proj id dc,
    In c (clusters api) /\ scalar_eqb (cluster_id c) k = true /\
    get_dict_from_object settings (cluster_vars c) "" = Ok proj /\
    cluster_data_center c = Some id /\ dict_get id dcs = Some dc /\
    cl = PDict (dict_set "data_center" dc proj).
Proof.
  unfold get_clusters. intros H Hk.
  edestruct (fun Hs => foldM_dict_origin _ cluster_id
              (fun c v => exists proj id dc,
                   get_dict_from_object settings (cluster_vars c) "" = Ok proj /\
                   cluster_data_center c = Some id /\
                   dict_get id dcs = Some dc /\
                   v = PDict (dict_set "data_center" dc proj))
              (clusters api) Hs _ _ H k cl Hk)
    as [Habs|(c & Hc & Hkc & proj & id & dc & Hp & Hl & Hd & ->)].
  - intros acc x acc' Hs. bind_inv Hs. bind_inv Hs. bind_inv Hs.
    injection Hs as <-.
    destruct (cluster_data_center x) as [id|]; [|discriminate E0].
    injection E0 as <-.
    apply getitem_dict in E1 as (d & [= <-] & Hget).
    eexists. split; [reflexivity|]. exists x0, id, x2. auto.
  - discriminate Habs.
  - exists c, proj, id, dc. auto 7.
Qed.

Lemma get_hosts_values (settings : pyval) (api : Api) (cls hs : dict)
    (value : pyval) :
  get_hosts settings api cls = Ok hs ->
  In value (dict_values hs) ->
  exists host proj cid cl,
    In host (hosts api) /\
    get_dict_from_object settings (host_vars host) "" = Ok proj /\
    host_cluster host = Some cid /\ dict_get cid cls = Some cl /\
    value = PDict (dict_set "tags" (PList (map PS (host_tags host)))
                     (dict_set "cluster" cl
                        (dict_set "status" (PStr (host_status host)) proj))).
Proof.
  unfold get_hosts. intros H Hin.
  edestruct (fun Hs => foldM_values_origin _ host_id
              (fun host v => exists proj cid cl,
                   get_dict_from_object settings (host_vars host) "" = Ok proj /\
                   host_cluster host = Some cid /\ dict_get cid cls = Some cl /\
                   v = PDict (dict_set "tags" (PList (map PS (host_tags host)))
                                (dict_set "cluster" cl
                                   (dict_set "status"
                                      (PStr (host_status host)) proj))))
              (hosts api) Hs _ _ H value Hin)
    as [[]|(host & Hh & proj & cid & cl & Hp & Hc & Hcl & ->)].
  - intros acc x acc' Hs. bind_inv Hs. bind_inv Hs. bind_inv Hs.
    injection Hs as <-.
    destruct (host_cluster x) as [cid|]; [|discriminate E0].
    injection E0 as <-.
    apply getitem_dict in E1 as (d & [= <-] & Hget).
    eexists. split; [reflexivity|]. exists x0, cid, x2. auto.
  - exists host, proj, cid, cl. auto 6.
Qed.

(** X9: references are resolved by value.  Every retrieved host carries,
    under [cluster], the projection of a listed cluster whose id equals
    the id of the host's cluster link, and in it, under [data_center],
    the projection of a listed data center whose id equals the id of that
    cluster's link; its [status] and [tags] are the ones the engine
    gives, whatever the generic projection had under these keys. *)
Theorem host_references_resolved (settings : pyval) (api : Api)
    (dcs cls hs : dict) (value : pyval) :
  get_data_centers settings api = Ok dcs ->
  get_clusters settings api dcs = Ok cls ->
  get_hosts settings api cls = Ok hs ->
  In value (dict_values hs) ->
  exists host c d cproj dproj,
    In host (hosts api) /\ In c (clusters api) /\ In d (data_centers api) /\
    links_to (host_cluster host) (cluster_id c) /\
    links_to (cluster_data_center c) (dc_id d) /\
    get_dict_from_object settings (cluster_vars c) "" = Ok cproj /\
    get_dict_from_object settings (dc_vars d) "" = Ok dproj /\
    getitem value "cluster"
    = Ok (PDict (dict_set "data_center" (PDict dproj) cproj)) /\
    getitem value "status" = Ok (PStr (host_status host)) /\
    getitem value "tags" = Ok (PList (map PS (host_tags host))).
Proof.
  intros Hdcs Hcls Hhs Hin.
  destruct (get_hosts_values _ _ _ _ _ Hhs Hin)
    as (host & proj & cid & cl & Hhost & _ & Hlink & Hcl & ->).
  destruct (get_clusters_origin _ _ _ _ _ _ Hcls Hcl)
    as (c & cproj & id & dc & Hc & Hkc & Hcproj & Hclink & Hdc & ->).
  destruct (get_data_centers_origin _ _ _ _ _ Hdcs Hdc)
    as (d & dproj & Hd & Hkd & Hdproj & ->).
  exists host, c, d, cproj, dproj.
  repeat (split; [first [assumption | eexists; split; eassumption]|]).
  cbn [getitem]. split; [|split].
  - rewrite dict_get_set_other by reflexivity.
    rewrite dict_get_set_same. reflexivity.
  - rewrite 2!dict_get_set_other by reflexivity.
    rewrite dict_get_set_same. reflexivity.
  - rewrite dict_get_set_same. reflexivity.
Qed.

Lemma host_references_resolved_witness :
  exists host c d cproj dproj,
    In host (hosts Ex.api1) /\ In c (clusters Ex.api1) /\
    In d (data_centers Ex.api1) /\
    links_to (host_cluster host) (cluster_id c) /\
    links_to (cluster_data_center c) (dc_id d) /\
    get_dict_from_object (Ex.settings false) (cluster_vars c) "" = Ok cproj /\
    get_dict_from_object (Ex.settings false) (dc_vars d) "" = Ok dproj /\
    getitem (Ex.value_of Ex.retrieved_hosts "h-2") "cluster"
    = Ok (PDict (dict_set "data_center" (PDict dproj) cproj)) /\
    getitem (Ex.value_of Ex.retrieved_hosts "h-2") "status"
    = Ok (PStr (host_status host)) /\
    getitem (Ex.value_of Ex.retrieved_hosts "h-2") "tags"
    = Ok (PList (map PS (host_tags host))).
Proof.
  refine (host_references_resolved (Ex.settings false) Ex.api1
            Ex.retrieved_data_centers Ex.retrieved_clusters
            Ex.retrieved_hosts (Ex.value_of Ex.retrieved_hosts "h-2")
            eq_refl eq_refl eq_refl _).
  vm_compute. right. left. reflexivity.
Defined.

(** ** Groups and their members *)

Lemma scalar_eqb_congr_r (a b c : scalar) :
  scalar_eqb a b = true -> scalar_eqb c a = scalar_eqb c b.
Proof.
  intros Hab. apply scalar_eqb_norm in Hab.
  destruct (scalar_eqb c a) eqn:Hca, (scalar_eqb c b) eqn:Hcb; trivial.
  - apply scalar_eqb_norm in Hca.
    assert (H : scalar_eqb c b = true) by (apply scalar_eqb_norm; congruence).
    congruence.
  - apply scalar_eqb_norm in Hcb.
    assert (H : scalar_eqb c a = true) by (apply scalar_eqb_norm; congruence).
    congruence.
Qed.

Lemma dict_get_congr (a b : scalar) (d : dict) :
  scalar_eqb a b = true -> dict_get a d = dict_get b d.
Proof.
  intros Hab. induction d as [|[k v] d IH]; simpl; [reflexivity|].
  rewrite (scalar_eqb_congr_r a b k Hab), IH. reflexivity.
Qed.

Lemma members_of_congr (a b : scalar) (inv : dict) :
  scalar_eqb a b = true -> members_of inv a = members_of inv b.
Proof. intros H. unfold members_of. rewrite (dict_get_congr a b inv H). reflexivity. Qed.

Lemma members_of_other (k g : scalar) (v : pyval) (inv : dict) :
  scalar_eqb k g = false -> members_of (dict_set k v inv) g = members_of inv g.
Proof. intros H. unfold members_of. rewrite dict_get_set_other by exact H. reflexivity. Qed.

(** What appending to the [hosts] of an entry does to the members. *)
Lemma append_effect (inv inv' : dict) (group : scalar) (x : pyval) :
  (g <- getitem (PDict inv) group ;;
   members <- getitem g "hosts" ;;
   members <- append_item members x ;;
   g <- setitem g "hosts" members ;;
   Ok (dict_set group g inv)) = Ok inv' ->
  members_of inv' group = (members_of inv group ++ [x])%list /\
  forall k, scalar_eqb group k = false -> dict_get k inv' = dict_get k inv.
Proof.
  intros H. bind_inv H. bind_inv H. bind_inv H. bind_inv H.
  injection H as <-.
  apply getitem_dict in E as (d & [= <-] & Hg).
  apply getitem_dict in E0 as (g & -> & Hh).
  destruct x1 as [s|l|d']; try discriminate E1.
  injection E1 as <-. injection E2 as <-.
  split.
  - unfold members_of. rewrite dict_get_set_same, dict_get_set_same, Hg, Hh.
    reflexivity.
  - intros k Hk. apply dict_get_set_other. exact Hk.
Qed.

Lemma add_host_to_group_effect (inv inv' : dict) (host : pyval)
    (group : string) :
  add_host_to_group inv host group = Ok inv' ->
  members_of inv' group = (members_of inv group ++ [host])%list /\
  forall k, scalar_eqb group k = false -> dict_get k inv' = dict_get k inv.
Proof.
  unfold add_host_to_group. intros H.
  apply append_effect in H as (Hm & Hother).
  unfold dict_mem in *.
  destruct (dict_get group inv) as [v|] eqn:Hg; cbn [negb] in *.
  - auto.
  - split.
    + rewrite Hm. unfold members_of at 1 2.
      rewrite dict_get_set_same, Hg. reflexivity.
    + intros k Hk. rewrite (Hother k Hk). apply dict_get_set_other. exact Hk.
Qed.

Lemma effect_extends (inv inv' : dict) (group : scalar) (x : pyval) :
  members_of inv' group = (members_of inv group ++ [x])%list ->
  (forall k, scalar_eqb group k = false -> dict_get k inv' = dict_get k inv) ->
  extends x inv inv'.
Proof.
  intros Hm Hother g.
  destruct (scalar_eqb group g) eqn:Hg.
  - rewrite <- !(members_of_congr group g _ Hg), Hm. split; intros y Hy.
    + apply in_or_app. left; exact Hy.
    + apply in_app_or in Hy as [Hy|Hy]; [auto|].
      destruct Hy as [Hy|[]]. auto.
  - unfold members_of. rewrite (Hother g Hg). split; auto.
Qed.

Lemma extends_refl (x : pyval) (inv : dict) : extends x inv inv.
Proof. intros g. split; auto. Qed.

Lemma extends_trans (x : pyval) (a b c : dict) :
  extends x a b -> extends x b c -> extends x a c.
Proof.
  intros Hab Hbc g. destruct (Hab g) as (H1 & H2), (Hbc g) as (H3 & H4).
  split; [auto|].
  intros y Hy. destruct (H4 y Hy) as [Hb| ->]; auto.
Qed.

Lemma add_host_to_group_extends (inv inv' : dict) (host : pyval)
    (group : string) :
  add_host_to_group inv host group = Ok inv' ->
  extends host inv inv' /\ In host (members_of inv' group).
Proof.
  intros H. apply add_host_to_group_effect in H as (Hm & Hother).
  split; [exact (effect_extends _ _ _ _ Hm Hother)|].
  rewrite Hm. apply in_or_app. right. left. reflexivity.
Qed.

Lemma append_to_extends (inv inv' : dict) (top : string) (name : pyval) :
  append_to inv top name = Ok inv' ->
  extends name inv inv' /\ In name (members_of inv' top).
Proof.
  unfold append_to. intros H. apply append_effect in H as (Hm & Hother).
  split; [exact (effect_extends _ _ _ _ Hm Hother)|].
  rewrite Hm. apply in_or_app. right. left. reflexivity.
Qed.

Lemma set_hostvars_members (inv inv' : dict) (value entry : pyval)
    (g : scalar) :
  set_hostvars inv value entry = Ok inv' ->
  members_of inv' g = members_of inv g.
Proof.
  unfold set_hostvars. intros H.
  bind_inv H. bind_inv H. bind_inv H. bind_inv H. bind_inv H. bind_inv H.
  injection H as <-.
  apply getitem_dict in E as (d & [= <-] & Hmeta).
  apply setitem_dict in E4 as (m & -> & ->).
  destruct (scalar_eqb "_meta" g) eqn:Hg.
  - rewrite <- !(members_of_congr "_meta" g _ Hg). unfold members_of.
    rewrite dict_get_set_same, Hmeta.
    rewrite dict_get_set_other by reflexivity. reflexivity.
  - apply members_of_other. exact Hg.
Qed.

Lemma set_hostvars_extends (x : pyval) (inv inv' : dict) (value entry : pyval) :
  set_hostvars inv value entry = Ok inv' -> extends x inv inv'.
Proof.
  intros H g. rewrite (set_hostvars_members _ _ _ _ g H). split; auto.
Qed.

Lemma add_to_cluster_groups_effect (inv inv' : dict) (value : pyval) :
  add_to_cluster_groups inv value = Ok inv' ->
  exists name cl dc dc_name cl_name,
    getitem value "name" = Ok name /\
    getitem value "cluster" = Ok cl /\
    getitem cl "data_center" = Ok dc /\
    getitem dc "name" = Ok dc_name /\
    getitem cl "name" = Ok cl_name /\
    extends name inv inv' /\
    In name (members_of inv' ("ovirt_data_center_" ++ py_str dc_name)) /\
    In name (members_of inv' ("ovirt_cluster_" ++ py_str cl_name)).
Proof.
  unfold add_to_cluster_groups. intros H.
  bind_inv H. bind_inv H. bind_inv H. bind_inv H. bind_inv H.
  bind_inv H. bind_inv H. bind_inv H.
  rewrite E in E4. injection E4 as <-.
  rewrite E0 in E5. injection E5 as <-.
  apply add_host_to_group_extends in E3 as (Hext1 & Hin1).
  apply add_host_to_group_extends in H as (Hext2 & Hin2).
  exists x, x0, x1, x2, x6.
  repeat (split; [assumption|]).
  split; [exact (extends_trans _ _ _ _ Hext1 Hext2)|].
  split; [|exact Hin2].
  apply (Hext2 _), Hin1.
Qed.

Lemma grouped_kept (top : string) (value x : pyval) (inv inv' : dict) :
  extends x inv inv' -> keeps_vars inv inv' ->
  grouped top value inv -> grouped top value inv'.
Proof.
  intros Hext Hkeep
    (name & key & cl & dc & dcn & cln & H1 & H2 & H3 & H4 & H5 & H6
       & Hv & Ht & Hd & Hc).
  exists name, key, cl, dc, dcn, cln.
  repeat (split; [assumption|]).
  split; [exact (Hkeep _ Hv)|].
  split; [exact (proj1 (Hext _) _ Ht)|].
  split; [exact (proj1 (Hext _) _ Hd) | exact (proj1 (Hext _) _ Hc)].
Qed.

Lemma tag_grouped_kept (value x : pyval) (inv inv' : dict) :
  extends x inv inv' ->
  tag_grouped value inv -> tag_grouped value inv'.
Proof.
  intros Hext (name & tags & l & h & H1 & H2 & H3 & H4 & Ht & Hh).
  exists name, tags, l, h.
  repeat (split; [assumption|]).
  split.
  - intros tag Hin. exact (proj1 (Hext _) _ (Ht tag Hin)).
  - intros Htr. exact (proj1 (Hext _) _ (Hh Htr)).
Qed.

Lemma step_keeps_vars (inv inv' : dict) (value : pyval)
    (entry_of : pyval -> result pyval) :
  (forall k, exists entry,
      entry_of value = Ok entry /\
      hostvars_get inv' k
      = if has_name k value then Ok entry else hostvars_get inv k) ->
  keeps_vars inv inv'.
Proof.
  intros H k Hk. destruct (H k) as (entry & _ & ->).
  destruct (has_name k value); [reflexivity | exact Hk].
Qed.

Lemma host_step_effect (inv inv' : dict) (value : pyval) :
  host_step inv value = Ok inv' ->
  exists name,
    getitem value "name" = Ok name /\
    extends name inv inv' /\ keeps_vars inv inv' /\
    grouped "ovirt_hosts" value inv'.
Proof.
  intros H.
  assert (Hkeep : keeps_vars inv inv')
    by (apply (step_keeps_vars _ _ value host_entry);
        intros k; exact (host_step_get _ _ _ k H)).
  destruct (host_step_get _ _ _ SNone H) as (entry0 & Hentry & _).
  pose proof H as Hstep. unfold host_step in H.
  bind_inv H. bind_inv H. bind_inv H. bind_inv H.
  pose proof E0 as Hset. unfold set_hostvars in E0.
  bind_inv E0. bind_inv E0. bind_inv E0. bind_inv E0.
  clear E0.
  apply append_to_extends in E2 as (Hext2 & Hin2).
  destruct (add_to_cluster_groups_effect _ _ _ H)
    as (name & cl & dc & dcn & cln & Hn & Hcl & Hdc & Hdcn & Hcln
          & Hext3 & Hind & Hinc).
  rewrite E1 in Hn. injection Hn as <-.
  rewrite E1 in E5. injection E5 as <-.
  assert (Hext : extends x1 inv inv').
  { apply (extends_trans _ _ x0); [exact (set_hostvars_extends _ _ _ _ _ Hset)|].
    exact (extends_trans _ _ _ _ Hext2 Hext3). }
  exists x1. split; [exact E1|]. split; [exact Hext|]. split; [exact Hkeep|].
  exists x1, x6, cl, dc, dcn, cln.
  repeat (split; [assumption|]).
  split.
  - destruct (host_step_get _ _ _ x6 Hstep) as (entry & _ & ->).
    rewrite (has_name_key _ _ _ x6 E1 E6), scalar_eqb_refl. reflexivity.
  - split; [exact (proj1 (Hext3 _) _ Hin2)|]. auto.
Qed.

Lemma tag_groups_extends (value name : pyval) (tags : list pyval) :
  getitem value "name" = Ok name ->
  forall inv inv',
    foldM (fun inventory tag =>
             name <- getitem value "name" ;;
             add_host_to_group inventory name ("ovirt_tag_" ++ py_str tag))
          inv tags = Ok inv' ->
    extends name inv inv' /\
    forall tag, In tag tags ->
      In name (members_of inv' ("ovirt_tag_" ++ py_str tag)).
Proof.
  intros Hname. induction tags as [|tag tags IH]; intros inv inv' H;
    cbn [foldM] in H.
  - injection H as <-. split; [apply extends_refl | intros tag []].
  - bind_inv H. bind_inv E. rewrite Hname in E0. injection E0 as <-.
    apply add_host_to_group_extends in E as (Hext1 & Hin1).
    destruct (IH _ _ H) as (Hext2 & Hin2).
    split; [exact (extends_trans _ _ _ _ Hext1 Hext2)|].
    intros t [<-|Ht]; [exact (proj1 (Hext2 _) _ Hin1) | exact (Hin2 t Ht)].
Qed.

Lemma vm_step_effect (inv inv' : dict) (value : pyval) :
  vm_step inv value = Ok inv' ->
  exists name,
    getitem value "name" = Ok name /\
    extends name inv inv' /\ keeps_vars inv inv' /\
    grouped "ovirt_vms" value inv' /\ tag_grouped value inv'.
Proof.
  intros H.
  assert (Hkeep : keeps_vars inv inv')
    by (apply (step_keeps_vars _ _ value vm_entry);
        intros k; exact (vm_step_get _ _ _ k H)).
  pose proof H as Hstep. unfold vm_step in H.
  bind_inv H. bind_inv H. bind_inv H. bind_inv H. bind_inv H.
  bind_inv H. bind_inv H. bind_inv H. bind_inv H.
  pose proof E0 as Hset. unfold set_hostvars in E0.
  bind_inv E0. bind_inv E0. bind_inv E0. bind_inv E0.
  clear E0.
  rewrite E1 in E10. injection E10 as <-.
  apply append_to_extends in E2 as (Hext2 & Hin2).
  destruct (add_to_cluster_groups_effect _ _ _ E3)
    as (name & cl & dc & dcn & cln & Hn & Hcl & Hdc & Hdcn & Hcln
          & Hext3 & Hind & Hinc).
  rewrite E1 in Hn. injection Hn as <-.
  destruct (tag_groups_extends value x1 x5 E1 _ _ E6) as (Hext4 & Hint).
  assert (Hlast : extends x1 x6 inv' /\
                  (truthy x7 = true ->
                   In x1 (members_of inv' ("ovirt_host_" ++ py_str x7)))).
  { destruct (truthy x7).
    - rewrite E1 in H. cbn [bind] in H. rewrite E7 in H. cbn [bind] in H.
      apply add_host_to_group_extends in H as (Hext5 & Hin5). auto.
    - injection H as <-. split; [apply extends_refl | discriminate]. }
  destruct Hlast as (Hext5 & Hinh).
  assert (Hafter : extends x1 x3 inv')
    by exact (extends_trans _ _ _ _ Hext4 Hext5).
  assert (Hext : extends x1 inv inv').
  { apply (extends_trans _ _ x0); [exact (set_hostvars_extends _ _ _ _ _ Hset)|].
    apply (extends_trans _ _ x2); [exact Hext2|].
    exact (extends_trans _ _ _ _ Hext3 Hafter). }
  exists x1. split; [exact E1|]. split; [exact Hext|]. split; [exact Hkeep|].
  split.
  - exists x1, x11, cl, dc, dcn, cln.
    repeat (split; [assumption|]).
    split.
    + destruct (vm_step_get _ _ _ x11 Hstep) as (entry & _ & ->).
      rewrite (has_name_key _ _ _ x11 E1 E11), scalar_eqb_refl. reflexivity.
    + split; [|split].
      * apply (proj1 (Hafter _)), (proj1 (Hext3 _)), Hin2.
      * exact (proj1 (Hafter _) _ Hind).
      * exact (proj1 (Hafter _) _ Hinc).
  - exists x1, x4, x5, x7.
    repeat (split; [assumption|]).
    split; [|exact Hinh].
    intros tag Ht. exact (proj1 (Hext5 _) _ (Hint tag Ht)).
Qed.

(** X10: when [add_host_to_group] goes through, the members of the group
    are the former ones followed by the host (the host alone when the
    group was not there), and no other entry of the inventory has
    changed. *)
Theorem add_host_to_group_appends (inv inv' : dict) (host : pyval)
    (group : string) :
  add_host_to_group inv host group = Ok inv' ->
  members_of inv' group = (members_of inv group ++ [host])%list /\
  (dict_mem group inv = false -> members_of inv' group = [host]) /\
  forall k, scalar_eqb group k = false -> dict_get k inv' = dict_get k inv.
Proof.
  intros H. destruct (add_host_to_group_effect _ _ _ _ H) as (Hm & Hother).
  split; [exact Hm|]. split; [|exact Hother].
  intros Hnew. rewrite Hm. unfold members_of, dict_mem in *.
  destruct (dict_get group inv); [discriminate | reflexivity].
Qed.

Lemma add_host_to_group_appends_witness :
  members_of
    (dict_set "ovirt_tag_web" (PDict [(SStr "hosts", PList [PStr "web1"])])
       initial_inventory) "ovirt_tag_web"
  = (members_of initial_inventory "ovirt_tag_web" ++ [PStr "web1"])%list /\
  (dict_mem "ovirt_tag_web" initial_inventory = false ->
   members_of
     (dict_set "ovirt_tag_web" (PDict [(SStr "hosts", PList [PStr "web1"])])
        initial_inventory) "ovirt_tag_web" = [PStr "web1"]) /\
  forall k,
    scalar_eqb "ovirt_tag_web" k = false ->
    dict_get k (dict_set "ovirt_tag_web"
                  (PDict [(SStr "hosts", PList [PStr "web1"])])
                  initial_inventory)
    = dict_get k initial_inventory.
Proof.
  exact (add_host_to_group_appends initial_inventory _ (PStr "web1")
           "ovirt_tag_web" eq_refl).
Defined.

Section LoopEffects.

Variable step : dict -> pyval -> result dict.
Variable P : pyval -> dict -> Prop.
Hypothesis established : forall acc v acc', step acc v = Ok acc' -> P v acc'.
Hypothesis preserved : forall acc y acc' v,
    step acc y = Ok acc' -> P v acc -> P v acc'.

Lemma loop_preserves (v : pyval) (values : list pyval) :
  forall acc r, foldM step acc values = Ok r -> P v acc -> P v r.
Proof.
  induction values as [|y values IH]; intros acc r H Hv; cbn [foldM] in H.
  - injection H as <-. exact Hv.
  - bind_inv H. exact (IH _ _ H (preserved _ _ _ _ E Hv)).
Qed.

Lemma loop_establishes (v : pyval) (values : list pyval) :
  In v values ->
  forall acc r, foldM step acc values = Ok r -> P v r.
Proof.
  induction values as [|y values IH]; intros Hin acc r H; [destruct Hin|].
  cbn [foldM] in H. bind_inv H.
  destruct Hin as [->|Hin]; [|exact (IH Hin _ _ H)].
  exact (loop_preserves v values _ _ H (established _ _ _ E)).
Qed.

End LoopEffects.

Lemma host_step_keeps (top : string) (acc acc' : dict) (y v : pyval) :
  host_step acc y = Ok acc' -> grouped top v acc -> grouped top v acc'.
Proof.
  intros H Hv.
  destruct (host_step_effect _ _ _ H) as (name & _ & Hext & Hkeep & _).
  exact (grouped_kept top v name _ _ Hext Hkeep Hv).
Qed.

Lemma vm_step_keeps (top : string) (acc acc' : dict) (y v : pyval) :
  vm_step acc y = Ok acc' -> grouped top v acc -> grouped top v acc'.
Proof.
  intros H Hv.
  destruct (vm_step_effect _ _ _ H) as (name & _ & Hext & Hkeep & _).
  exact (grouped_kept top v name _ _ Hext Hkeep Hv).
Qed.

(** X11: in the inventory that is built, every retrieved host has its
    variables entered under its name and is a member of [ovirt_hosts], of
    the group of its data center and of the group of its cluster. *)
Theorem hosts_are_grouped (settings : pyval) (api : Api) (hs vs inv : dict)
    (value : pyval) :
  retrieve settings api = Ok (hs, vs) ->
  build_inventory settings api = Ok inv ->
  In value (dict_values hs) ->
  grouped "ovirt_hosts" value inv.
Proof.
  intros Hr Hb Hin.
  rewrite (build_inventory_retrieved _ _ _ _ Hr) in Hb.
  unfold group_entities in Hb. bind_inv Hb.
  apply (loop_preserves vm_step (grouped "ovirt_hosts")
           (fun acc y acc' v => vm_step_keeps "ovirt_hosts" acc acc' y v)
           value _ _ _ Hb).
  apply (loop_establishes host_step (grouped "ovirt_hosts")) with (4 := E);
    [| |exact Hin].
  - intros acc v acc' H.
    destruct (host_step_effect _ _ _ H) as (_ & _ & _ & _ & Hg). exact Hg.
  - intros acc y acc' v. apply host_step_keeps.
Qed.

Lemma hosts_are_grouped_witness :
  grouped "ovirt_hosts" (Ex.value_of Ex.retrieved_hosts "h-1") Ex.inventory1.
Proof.
  refine (hosts_are_grouped (Ex.settings false) Ex.api1 Ex.retrieved_hosts
            Ex.retrieved_vms Ex.inventory1
            (Ex.value_of Ex.retrieved_hosts "h-1") eq_refl eq_refl _).
  vm_compute. left. reflexivity.
Defined.

(** X12: in the inventory that is built, every retrieved VM has its
    variables entered under its name and is a member of [ovirt_vms], of
    the groups of its data center and cluster, of the group of each of
    its tags and, when it has a managing host, of the group of that
    host. *)
Theorem vms_are_grouped (settings : pyval) (api : Api) (hs vs inv : dict)
    (value : pyval) :
  retrieve settings api = Ok (hs, vs) ->
  build_inventory settings api = Ok inv ->
  In value (dict_values vs) ->
  grouped "ovirt_vms" value inv /\ tag_grouped value inv.
Proof.
  intros Hr Hb Hin.
  rewrite (build_inventory_retrieved _ _ _ _ Hr) in Hb.
  unfold group_entities in Hb. bind_inv Hb.
  apply (loop_establishes vm_step
           (fun v acc => grouped "ovirt_vms" v acc /\ tag_grouped v acc))
    with (4 := Hb); [| |exact Hin].
  - intros acc v acc' H.
    destruct (vm_step_effect _ _ _ H) as (_ & _ & _ & _ & Hg & Ht). auto.
  - intros acc y acc' v H (Hg & Ht).
    destruct (vm_step_effect _ _ _ H) as (name & _ & Hext & Hkeep & _).
    split; [exact (grouped_kept _ v name _ _ Hext Hkeep Hg)
           | exact (tag_grouped_kept v name _ _ Hext Ht)].
Qed.

Lemma vms_are_grouped_witness :
  grouped "ovirt_vms" (Ex.value_of Ex.retrieved_vms "vm-1") Ex.inventory1 /\
  tag_grouped (Ex.value_of Ex.retrieved_vms "vm-1") Ex.inventory1.
Proof.
  refine (vms_are_grouped (Ex.settings false) Ex.api1 Ex.retrieved_hosts
            Ex.retrieved_vms Ex.inventory1
            (Ex.value_of Ex.retrieved_vms "vm-1") eq_refl eq_refl _).
  vm_compute. left. reflexivity.
Defined.

Lemma initial_members (g : scalar) : members_of initial_inventory g = [].
Proof.
  unfold members_of, initial_inventory. cbn [dict_get].
  destruct (scalar_eqb "_meta" g); [reflexivity|].
  destruct (scalar_eqb "all" g); [reflexivity|].
  destruct (scalar_eqb "ovirt_hosts" g); [reflexivity|].
  destruct (scalar_eqb "ovirt_vms" g); reflexivity.
Qed.

Lemma members_have_vars_step (inv inv' : dict) (top : string)
    (name value : pyval) :
  members_have_vars inv ->
  getitem value "name" = Ok name ->
  extends name inv inv' -> keeps_vars inv inv' ->
  grouped top value inv' ->
  members_have_vars inv'.
Proof.
  intros Hinv Hname Hext Hkeep
    (name' & key & _ & _ & _ & _ & Hn & Hkey & _ & _ & _ & _ & Hv & _).
  rewrite Hname in Hn. injection Hn as <-.
  intros group x Hx.
  destruct (proj2 (Hext group) x Hx) as [Hold| ->].
  - destruct (Hinv group x Hold) as (k & -> & Hk).
    exists k. split; [reflexivity | exact (Hkeep _ Hk)].
  - destruct name as [k|l|d]; try discriminate Hkey.
    injection Hkey as <-. exists k. auto.
Qed.

(** X13: in the inventory that is built, every member of every group is
    a key of the host variables: no group names an entity without
    variables. *)
Theorem members_are_in_hostvars (settings : pyval) (api : Api) (inv : dict) :
  build_inventory settings api = Ok inv ->
  members_have_vars inv.
Proof.
  unfold build_inventory, group_entities. intros H.
  bind_inv H. bind_inv H.
  assert (H1 : members_have_vars x0).
  { revert E0. apply foldM_invariant.
    - intros acc v acc' Hacc Hs.
      destruct (host_step_effect _ _ _ Hs) as (name & Hn & Hext & Hkeep & Hg).
      exact (members_have_vars_step _ _ _ _ _ Hacc Hn Hext Hkeep Hg).
    - intros group y Hy. rewrite initial_members in Hy. destruct Hy. }
  revert H. apply foldM_invariant; [|exact H1].
  intros acc v acc' Hacc Hs.
  destruct (vm_step_effect _ _ _ Hs) as (name & Hn & Hext & Hkeep & Hg & _).
  exact (members_have_vars_step _ _ _ _ _ Hacc Hn Hext Hkeep Hg).
Qed.

Lemma members_are_in_hostvars_witness : members_have_vars Ex.inventory1.
Proof.
  exact (members_are_in_hostvars (Ex.settings false) Ex.api1 Ex.inventory1
           eq_refl).
Defined.

Lemma loop_members_origin (step : dict -> pyval -> result dict)
    (values : list pyval) :
  (forall acc v acc',
      step acc v = Ok acc' ->
      exists name, getitem v "name" = Ok name /\ extends name acc acc') ->
  forall acc r,
    foldM step acc values = Ok r ->
    forall g x,
      In x (members_of r g) ->
      In x (members_of acc g) \/
      exists v, In v values /\ getitem v "name" = Ok x.
Proof.
  intros Hstep. induction values as [|v values IH]; intros acc r H g x Hx;
    cbn [foldM] in H.
  - injection H as <-. left; exact Hx.
  - bind_inv H.
    destruct (IH _ _ H g x Hx) as [Hacc|(w & Hw & Hn)].
    + destruct (Hstep _ _ _ E) as (name & Hname & Hext).
      destruct (proj2 (Hext g) x Hacc) as [Hold| ->]; [left; exact Hold|].
      right. exists v. simpl; auto.
    + right. exists w. simpl; auto.
Qed.

(** X14: in the inventory that is built, every member of every group is
    the name of a retrieved host or VM: grouping never invents a
    member. *)
Theorem members_are_entity_names (settings : pyval) (api : Api)
    (hs vs inv : dict) (g : scalar) (x : pyval) :
  retrieve settings api = Ok (hs, vs) ->
  build_inventory settings api = Ok inv ->
  In x (members_of inv g) ->
  exists value,
    In value (dict_values hs ++ dict_values vs)%list /\
    getitem value "name" = Ok x.
Proof.
  intros Hr Hb Hx.
  rewrite (build_inventory_retrieved _ _ _ _ Hr) in Hb.
  unfold group_entities in Hb. bind_inv Hb.
  destruct (loop_members_origin vm_step (dict_values vs)) with (2 := Hb) (3 := Hx)
    as [Hx1|(v & Hv & Hn)].
  - intros acc v acc' Hs.
    destruct (vm_step_effect _ _ _ Hs) as (name & Hn & Hext & _). eauto.
  - destruct (loop_members_origin host_step (dict_values hs))
      with (2 := E) (3 := Hx1) as [Hx0|(v & Hv & Hn)].
    + intros acc v acc' Hs.
      destruct (host_step_effect _ _ _ Hs) as (name & Hn & Hext & _). eauto.
    + rewrite initial_members in Hx0. destruct Hx0.
    + exists v. split; [apply in_or_app; left; exact Hv | exact Hn].
  - exists v. split; [apply in_or_app; right; exact Hv | exact Hn].
Qed.

Lemma members_are_entity_names_witness :
  exists value,
    In value (dict_values Ex.retrieved_hosts ++ dict_values Ex.retrieved_vms)%list /\
    getitem value "name" = Ok (PStr "web1").
Proof.
  refine (members_are_entity_names (Ex.settings false) Ex.api1
            Ex.retrieved_hosts Ex.retrieved_vms Ex.inventory1
            "ovirt_tag_web" (PStr "web1") eq_refl eq_refl _).
  vm_compute. left. reflexivity.
Defined.

(** ** What a run prints *)

(** X15: once the settings are read and the inventory is built, the run
    serializes, with sorted keys and an indentation of two, the
    variables of the named entity when [--host] has a name that is not
    empty, and the whole inventory otherwise.  When the serializer
    returns text the session is closed and the text printed; when the
    lookup or the serializer raises, the run ends with that error and the
    session still open. *)
Theorem run_output
    (json_dumps : pyval -> bool -> option nat -> result string)
    (cl : Cli.CommandLine) (config : ConfigParser) (api : Api)
    (settings : pyval) (inv : dict) :
  read_settings config = Ok settings ->
  build_inventory settings api = Ok inv ->
  run json_dumps cl config api
  = match
      match Cli.given_host cl with
      | Some "" | None => json_dumps (PDict inv) true (Some 2%nat)
      | Some name =>
          entry <- hostvars_get inv name ;; json_dumps entry true (Some 2%nat)
      end
    with
    | Ok s => ([Connected; Closed; Printed s], Ok tt)
    | Raise e => ([Connected], Raise e)
    end.
Proof.
  intros Hread Hbuild.
  rewrite run_cases, Hread, Hbuild, select_output_list.
  destruct (Cli.given_host cl) as [[|c name]|].
  - destruct (json_dumps (PDict inv) true (Some 2%nat)); reflexivity.
  - destruct (hostvars_get inv (String c name)) as [entry|e]; cbn [bind];
      [|reflexivity].
    destruct (json_dumps entry true (Some 2%nat)); reflexivity.
  - destruct (json_dumps (PDict inv) true (Some 2%nat)); reflexivity.
Qed.

Lemma run_output_witness :
  run Json.dumps (Ex.command_line (Some "node2") false) (Ex.config "false")
      Ex.api1
  = match
      entry <- hostvars_get Ex.inventory1 "node2" ;;
      Json.dumps entry true (Some 2%nat)
    with
    | Ok s => ([Connected; Closed; Printed s], Ok tt)
    | Raise e => ([Connected], Raise e)
    end.
Proof.
  exact (run_output Json.dumps (Ex.command_line (Some "node2") false)
           (Ex.config "false") Ex.api1 (Ex.settings false) Ex.inventory1
           eq_refl eq_refl).
Defined.

(** X16: when the configuration has a [format] section whose
    [replace_dash_in_groups] cannot be read as a boolean, while the four
    connection options can be read, the run ends with the error of
    [getboolean] before a session is opened: nothing is connected,
    closed or printed. *)
Theorem run_with_unreadable_flag
    (json_dumps : pyval -> bool -> option nat -> result string)
    (cl : Cli.CommandLine) (config : ConfigParser) (api : Api)
    (url username password ca_file : scalar) (e : exn) :
  get config "ovirt" "ovirt_url" = Ok url ->
  get config "ovirt" "ovirt_username" = Ok username ->
  get config "ovirt" "ovirt_password" = Ok password ->
  get config "ovirt" "ovirt_ca_file" = Ok ca_file ->
  has_section config "format" = true ->
  getboolean config "format" "replace_dash_in_groups" = Raise e ->
  run json_dumps cl config api = ([], Raise e).
Proof.
  intros H1 H2 H3 H4 Hsec Hflag.
  rewrite run_cases. unfold read_settings.
  rewrite H1, H2, H3, H4. cbn [bind]. rewrite Hsec, Hflag. reflexivity.
Qed.

Lemma run_with_unreadable_flag_witness :
  run Json.dumps (Ex.command_line None false) (Ex.config "maybe") Ex.api1
  = ([], Raise ValueError).
Proof.
  exact (run_with_unreadable_flag Json.dumps (Ex.command_line None false)
           (Ex.config "maybe") Ex.api1 _ _ _ _ ValueError
           eq_refl eq_refl eq_refl eq_refl eq_refl eq_refl).
Defined.

(** ** The attributes of a retrieved VM *)

Lemma affinity_group_names_ok (name : scalar) (groups : dict)
    (names : list pyval) :
  affinity_group_names name groups = Ok names -> names = [].
Proof.
  destruct groups as [|[k v] groups]; [intros [= <-]; reflexivity|].
  intros H. discriminate H.
Qed.

(** X17: every retrieved VM carries the attributes [get_vms] sets one by
    one, over whatever the generic projection had under these keys: the
    name of its managing host or [None], its status, operating system
    and template, its nics, tags and affinity labels.  Its
    [affinity_groups] is always the empty list: the list is only ever
    computed when the cluster has no affinity group. *)
Theorem vm_attributes (settings : pyval) (api : Api) (cls vs : dict)
    (value : pyval) :
  get_vms settings api cls = Ok vs ->
  In value (dict_values vs) ->
  exists vm os template,
    In vm (vms api) /\
    vm_os vm = Some os /\ vm_template vm = Some template /\
    getitem value "host"
    = Ok (match vm_host vm with Some n => PS n | None => PNone end) /\
    getitem value "status" = Ok (PStr (vm_status vm)) /\
    getitem value "os_type" = Ok (PS os) /\
    getitem value "template" = Ok (PS template) /\
    getitem value "nics" = Ok (PDict (nics_of (vm_devices vm))) /\
    getitem value "tags" = Ok (PList (map PS (vm_tags vm))) /\
    getitem value "affinity_labels"
    = Ok (PList (map PS (vm_affinity_labels vm))) /\
    getitem value "affinity_groups" = Ok (PList []).
Proof.
  intros Hvs Hin.
  destruct (get_vms_values _ _ _ _ _ Hvs Hin) as (vm & d & Hvm & Hd & ->).
  unfold get_vm in Hd.
  bind_inv Hd. bind_inv Hd. bind_inv Hd. bind_inv Hd. bind_inv Hd.
  bind_inv Hd. bind_inv Hd. bind_inv Hd.
  injection Hd as <-.
  apply affinity_group_names_ok in E4 as ->.
  destruct (vm_os vm) as [os|] eqn:Hos; [|discriminate E0].
  injection E0 as <-.
  destruct (vm_template vm) as [template|] eqn:Ht; [|discriminate E1].
  injection E1 as <-.
  exists vm, os, template.
  split; [exact Hvm|]. split; [exact Hos|]. split; [exact Ht|].
  cbn [getitem].
  repeat split;
    repeat (rewrite dict_get_set_other by reflexivity);
    rewrite dict_get_set_same; reflexivity.
Qed.

Lemma vm_attributes_witness :
  exists vm os template,
    In vm (vms Ex.api1) /\
    vm_os vm = Some os /\ vm_template vm = Some template /\
    getitem (Ex.value_of Ex.retrieved_vms "vm-1") "host"
    = Ok (match vm_host vm with Some n => PS n | None => PNone end) /\
    getitem (Ex.value_of Ex.retrieved_vms "vm-1") "status"
    = Ok (PStr (vm_status vm)) /\
    getitem (Ex.value_of Ex.retrieved_vms "vm-1") "os_type" = Ok (PS os) /\
    getitem (Ex.value_of Ex.retrieved_vms "vm-1") "template"
    = Ok (PS template) /\
    getitem (Ex.value_of Ex.retrieved_vms "vm-1") "nics"
    = Ok (PDict (nics_of (vm_devices vm))) /\
    getitem (Ex.value_of Ex.retrieved_vms "vm-1") "tags"
    = Ok (PList (map PS (vm_tags vm))) /\
    getitem (Ex.value_of Ex.retrieved_vms "vm-1") "affinity_labels"
    = Ok (PList (map PS (vm_affinity_labels vm))) /\
    getitem (Ex.value_of Ex.retrieved_vms "vm-1") "affinity_groups"
    = Ok (PList []).
Proof.
  refine (vm_attributes (Ex.settings false) Ex.api1 Ex.retrieved_clusters
            Ex.retrieved_vms (Ex.value_of Ex.retrieved_vms "vm-1") eq_refl _).
  vm_compute. left. reflexivity.
Defined.
